(** * Quiz pipeline agents: a shallow embedding of [agents.py] and of the
      [query] helper of [chroma_service.py], with the properties of the
      chunker, the summarizer, the generators, the validator and the
      difficulty policy.

    Conventions of the embedding.
    - A Python [str] is a [string]; a character stands for a code point
      below 256.
    - A Python integer index that may be [-1] is a [Z]; lengths and list
      positions are [nat].
    - A value produced by [json.loads] is a [value]; numbers are the
      rationals they denote.
    - Calls to the completion service, the vector store, the record store,
      the log writer and the uuid source change an abstract [World]; an
      exception is the [Raise] outcome of the [M] monad, and the log of
      completion calls survives it. *)

From Stdlib Require Import List String Ascii Bool Arith ZArith QArith Lia Lqa.
From Stdlib Require Import Qround Permutation Sorted DecimalString DecimalNat.
Import ListNotations.

Close Scope Q_scope.
Open Scope string_scope.
Open Scope list_scope.
Open Scope nat_scope.

(** String concatenation, kept apart from the [++] of lists. *)
Infix "+s+" := String.append (at level 60, right associativity).

(* ================================================================== *)
(** ** Python strings *)
(* ================================================================== *)

Module PyStr.

(** [str.isspace] on one character, which is also what [\s] matches in a
    [str] pattern: TAB..CR, FS..US, SPACE, NEL and NBSP. *)
Definition is_space (c : ascii) : bool :=
  let n := nat_of_ascii c in
  ((9 <=? n) && (n <=? 13)) || ((28 <=? n) && (n <=? 32))
  || (n =? 133) || (n =? 160).

Definition newline : ascii := "010"%char.

Definition is_newline (c : ascii) : bool := Ascii.eqb c newline.

Definition nl : string := String newline EmptyString.

(** Truth value of a string: [bool(s)]. *)
Definition nonempty (s : string) : bool :=
  match s with EmptyString => false | String _ _ => true end.

(** [s.lstrip()]. *)
Fixpoint lstrip (s : string) : string :=
  match s with
  | EmptyString => EmptyString
  | String c s' => if is_space c then lstrip s' else s
  end.

Fixpoint rev_onto (s acc : string) : string :=
  match s with
  | EmptyString => acc
  | String c s' => rev_onto s' (String c acc)
  end.

Definition rev (s : string) : string := rev_onto s EmptyString.

(** [s.strip()]. *)
Definition strip (s : string) : string := rev (lstrip (rev (lstrip s))).

(** [s.find(c)] for a one-character needle: the first index, or [-1]. *)
Fixpoint find (c : ascii) (s : string) : Z :=
  match s with
  | EmptyString => (-1)%Z
  | String d s' =>
      if Ascii.eqb d c then 0%Z
      else let r := find c s' in
           if (r <? 0)%Z then (-1)%Z else (r + 1)%Z
  end.

(** [s.rfind(c)] for a one-character needle: the last index, or [-1]. *)
Fixpoint rfind (c : ascii) (s : string) : Z :=
  match s with
  | EmptyString => (-1)%Z
  | String d s' =>
      let r := rfind c s' in
      if (0 <=? r)%Z then (r + 1)%Z
      else if Ascii.eqb d c then 0%Z else (-1)%Z
  end.

(** [s[a:b]] for [0 <= a], [0 <= b]. *)
Definition slice (a b : Z) (s : string) : string :=
  substring (Z.to_nat a) (Z.to_nat b - Z.to_nat a) s.

(** [s[:n]] for [0 <= n]. *)
Definition take (n : Z) (s : string) : string := substring 0 (Z.to_nat n) s.

(** [len(s)] as a Python integer. *)
Definition len (s : string) : Z := Z.of_nat (String.length s).

(** Length of what [\s*\n] matches at the head of [s], taken greedily: the
    maximal run of whitespace is cut back to its last newline. *)
Fixpoint sep_length (s : string) : option nat :=
  match s with
  | EmptyString => None
  | String c s' =>
      if is_space c then
        match sep_length s' with
        | Some n => Some (S n)
        | None => if is_newline c then Some 1 else None
        end
      else None
  end.

(** The scan of [re.split(r'\n\s*\n', text)]: [skip] characters of a
    separator are still to be dropped, [cur] is the field read so far,
    reversed. *)
Fixpoint split_scan (skip : nat) (cur : string) (s : string) : list string :=
  match s with
  | EmptyString => [rev cur]
  | String c s' =>
      match skip with
      | S k => split_scan k cur s'
      | O =>
          if is_newline c then
            match sep_length s' with
            | Some n => rev cur :: split_scan n EmptyString s'
            | None => split_scan 0 (String c cur) s'
            end
          else split_scan 0 (String c cur) s'
      end
  end.

(** [re.split(r'\n\s*\n', text)]. *)
Definition split_blank_lines (text : string) : list string :=
  split_scan 0 EmptyString text.

End PyStr.

(* ================================================================== *)
(** ** The text chunker of [run_curriculum_agent] *)
(* ================================================================== *)

Record chunk : Type := mkChunk { position : nat; text : string }.

(** The separator the chunker puts between two paragraphs of one chunk. *)
Definition para_sep : string := PyStr.nl +s+ PyStr.nl.

(** [[p.strip() for p in re.split(r'\n\s*\n', text) if p.strip()]]. *)
Definition paragraphs_of (text : string) : list string :=
  map PyStr.strip
      (filter (fun p => PyStr.nonempty (PyStr.strip p))
              (PyStr.split_blank_lines text)).

(** The three loop variables of the chunking loop. *)
Record chunker : Type :=
  mkChunker { chunks : list chunk; current : string; next_position : nat }.

(** [f"{current}\n\n{para}" if current else para]. *)
Definition combined (cur para : string) : string :=
  if PyStr.nonempty cur then cur +s+ para_sep +s+ para else para.

(** The test of the loop body: [len(combined) > chunk_size and current]. *)
Definition must_emit (chunk_size : Z) (cur para : string) : bool :=
  (PyStr.len (combined cur para) >? chunk_size)%Z && PyStr.nonempty cur.

(** One iteration of [for para in paragraphs]. *)
Definition chunk_step (chunk_size : Z) (st : chunker) (para : string) : chunker :=
  if must_emit chunk_size (current st) para then
    {| chunks := chunks st ++ [mkChunk (next_position st) (current st)];
       current := para;
       next_position := S (next_position st) |}
  else
    {| chunks := chunks st;
       current := combined (current st) para;
       next_position := next_position st |}.

Definition chunker_init : chunker :=
  {| chunks := []; current := ""; next_position := 0 |}.

(** The trailing [if current: chunks.append(...)]. *)
Definition chunker_flush (st : chunker) : list chunk :=
  if PyStr.nonempty (current st)
  then chunks st ++ [mkChunk (next_position st) (current st)]
  else chunks st.

Definition chunk_paragraphs (chunk_size : Z) (paragraphs : list string) : list chunk :=
  chunker_flush (fold_left (chunk_step chunk_size) paragraphs chunker_init).

(** Lines 174-189 of [run_curriculum_agent]. *)
Definition chunk_text (text : string) (chunk_size : Z) : list chunk :=
  chunk_paragraphs chunk_size (paragraphs_of text).

(* ================================================================== *)
(** ** Python values, exceptions and outcomes *)
(* ================================================================== *)

(** What [json.loads] returns, and what the dictionaries of the vector store
    hold. A dictionary keeps its insertion order. *)
#[local] Set Warnings "-register-all".
Inductive value : Type :=
| VNone
| VBool (b : bool)
| VNum (q : Q)
| VStr (s : string)
| VList (l : list value)
| VDict (d : list (string * value)).

Inductive exn : Type :=
| ValueError (msg : string)
| JSONDecodeError (doc : string)
| TypeError
| KeyError (key : string)
| AttributeError
| IndexError
| ServiceError (detail : string).

Inductive outcome (A : Type) : Type :=
| Ok (a : A)
| Raise (e : exn).

Arguments Ok {A} a.
Arguments Raise {A} e.

Module Py.

(** [bool(v)]. *)
Definition truthy (v : value) : bool :=
  match v with
  | VNone => false
  | VBool b => b
  | VNum q => negb (Qeq_bool q 0)
  | VStr s => PyStr.nonempty s
  | VList l => match l with [] => false | _ :: _ => true end
  | VDict d => match d with [] => false | _ :: _ => true end
  end.

(** [k in d] for a dictionary. *)
Fixpoint dict_mem (k : string) (d : list (string * value)) : bool :=
  match d with
  | [] => false
  | (k', _) :: d' => if String.eqb k' k then true else dict_mem k d'
  end.

Fixpoint dict_lookup (k : string) (d : list (string * value)) : option value :=
  match d with
  | [] => None
  | (k', v) :: d' => if String.eqb k' k then Some v else dict_lookup k d'
  end.

(** [d[k] = v]: an existing key keeps its place, a new one goes last. *)
Fixpoint dict_set (k : string) (v : value) (d : list (string * value))
  : list (string * value) :=
  match d with
  | [] => [(k, v)]
  | (k', v') :: d' =>
      if String.eqb k' k then (k', v) :: d' else (k', v') :: dict_set k v d'
  end.

(** [v.get(k, default)]: only a dictionary has the method. *)
Definition get (v : value) (k : string) (default : value) : outcome value :=
  match v with
  | VDict d =>
      Ok (match dict_lookup k d with Some x => x | None => default end)
  | _ => Raise AttributeError
  end.

(** [v[k]] for a string key [k]. *)
Definition getitem (v : value) (k : string) : outcome value :=
  match v with
  | VDict d =>
      match dict_lookup k d with
      | Some x => Ok x
      | None => Raise (KeyError k)
      end
  | _ => Raise TypeError
  end.

(** [isinstance(v, list)]. *)
Definition is_list (v : value) : bool :=
  match v with VList _ => true | _ => false end.

(** The one-character strings of [s], as iterating over it yields them. *)
Fixpoint chars (s : string) : list value :=
  match s with
  | EmptyString => []
  | String c s' => VStr (String c EmptyString) :: chars s'
  end.

(** What [for x in v] ranges over. *)
Definition iter (v : value) : outcome (list value) :=
  match v with
  | VList l => Ok l
  | VDict d => Ok (map (fun kv => VStr (fst kv)) d)
  | VStr s => Ok (chars s)
  | _ => Raise TypeError
  end.

(** [len(v)]. *)
Definition len (v : value) : outcome nat :=
  match v with
  | VList l => Ok (List.length l)
  | VDict d => Ok (List.length d)
  | VStr s => Ok (String.length s)
  | _ => Raise TypeError
  end.

(** Decimal rendering of integers, as [str] and f-strings give it. *)
Definition str_of_nat (n : nat) : string := NilZero.string_of_uint (Nat.to_uint n).
Definition str_of_Z (z : Z) : string := NilZero.string_of_int (Z.to_int z).

End Py.

(** A document identity: an integer by the annotations of [agents.py], a
    store key (a string) where [app.py] calls the agents. *)
Inductive doc_id : Type :=
| IdInt (z : Z)
| IdStr (s : string).

Module DocId.

(** [bool(book_id)]. *)
Definition truthy (b : doc_id) : bool :=
  match b with
  | IdInt z => negb (z =? 0)%Z
  | IdStr s => PyStr.nonempty s
  end.

(** [v == book_id]. *)
Definition eqb_value (v : value) (b : doc_id) : bool :=
  match v, b with
  | VNum q, IdInt z => Qeq_bool q (inject_Z z)
  | VBool t, IdInt z => (z =? (if t then 1 else 0))%Z
  | VStr s, IdStr s' => String.eqb s s'
  | _, _ => false
  end.

(** [f"{book_id}"]. *)
Definition str (b : doc_id) : string :=
  match b with
  | IdInt z => Py.str_of_Z z
  | IdStr s => s
  end.

End DocId.

(** Pure helpers of the standard library that the embedding takes as given:
    the JSON codec, [str] of a value that is not a string, the two regular
    expression searches of the validator, float arithmetic and float
    formatting. *)
Class PyLib : Type := {
  json_loads : string -> option value;
  json_dumps : value -> string;
  repr_value : value -> string;
  search_true : string -> bool;
  search_false : string -> bool;
  num_add : Q -> Q -> Q;
  num_sub : Q -> Q -> Q;
  num_div : Q -> Q -> Q;
  round_int : Q -> Z;
  round_2 : Q -> Q;
  fmt_2f : Q -> string;
  fmt_3f : Q -> string
}.

(** [f"{v}"]. *)
Definition fmt_value `{PyLib} (v : value) : string :=
  match v with
  | VStr s => s
  | _ => repr_value v
  end.

(* ================================================================== *)
(** ** External services and the monad of the agents *)
(* ================================================================== *)

(** One chat message: [{"role": ..., "content": ...}]. *)
Record message : Type := mkMessage { role : string; content : string }.

(** The [prompt] argument of [call_openai]: [str | List[Dict[str, str]]]. *)
Inductive prompt : Type :=
| PromptText (s : string)
| PromptMessages (ms : list message).

(** What [collection.query] of the vector store returns: nested lists, one
    inner list per query text; [distances] may be left out. *)
Record raw_results : Type := mkRaw {
  raw_documents : list (list value);
  raw_metadatas : list (list value);
  raw_ids : list (list value);
  raw_distances : option (list (list Q))
}.

(** The dictionary that [query] of [chroma_service.py] returns. *)
Record query_result : Type := mkQueryResult {
  documents : list value;
  metadatas : list value;
  ids : list value;
  distances : list Q
}.

(** A student record of the record store; [student['id']] is all the agents
    read. *)
Record student : Type := mkStudent { student_id : string }.

(** One response of a learner's history; a field may be absent. *)
Record response : Type := mkResponse {
  time_ms : option Q;
  hints_used : option Q
}.

(** The external collaborators. Each call takes the world to a new world;
    a call may raise.
    - [chat_create model messages max_tokens temperature]:
      [openai_client.chat.completions.create(...)] followed by
      [response.choices[0].message.content];
    - [get_collection]: [_get_collection()] of [chroma_service.py];
    - [collection_query text n where]: [collection.query(...)];
    - [find_by_external_id], [find_by_student]: the record store;
    - [write_output agent_name]: the file written by [save_agent_output];
    - [uuid4]: [str(uuid4())];
    - [schedule n]: which of [n] pending tasks the event loop completes
      next. *)
Class Services (World : Type) : Type := {
  chat_create :
    string -> list message -> Z -> Q -> World -> outcome (option string) * World;
  get_collection : World -> outcome unit * World;
  collection_query :
    string -> Z -> option doc_id -> World -> outcome raw_results * World;
  find_by_external_id : string -> World -> outcome (option student) * World;
  find_by_student : string -> World -> outcome (list response) * World;
  write_output : string -> World -> outcome unit * World;
  uuid4 : World -> string * World;
  schedule : nat -> World -> nat * World
}.

(** The state an agent runs in: the world, and the messages of every
    completion request sent so far, oldest first. *)
Record state (World : Type) : Type := mkState {
  world : World;
  calls : list (list message)
}.

Arguments mkState {World} world calls.
Arguments world {World} s.
Arguments calls {World} s.

(** A computation that may raise and may change the state; the state is
    kept when it raises. *)
Definition M (World A : Type) : Type := state World -> outcome A * state World.

Definition ret {World A} (a : A) : M World A := fun st => (Ok a, st).

Definition raise {World A} (e : exn) : M World A := fun st => (Raise e, st).

Definition bind {World A B} (m : M World A) (k : A -> M World B) : M World B :=
  fun st =>
    match m st with
    | (Ok a, st') => k a st'
    | (Raise e, st') => (Raise e, st')
    end.

(** [try: m  except Exception as e: handler(e)]. *)
Definition catch {World A} (m : M World A) (handler : exn -> M World A) : M World A :=
  fun st =>
    match m st with
    | (Ok a, st') => (Ok a, st')
    | (Raise e, st') => handler e st'
    end.

(** A pure step that may raise. *)
Definition lift {World A} (o : outcome A) : M World A := fun st => (o, st).

(** A call of an external service that may raise. *)
Definition service {World A} (f : World -> outcome A * World) : M World A :=
  fun st =>
    let (r, w) := f (world st) in (r, mkState w (calls st)).

Declare Scope agent_scope.
Delimit Scope agent_scope with agent.
Notation "x <- m ;; k" := (bind m (fun x => k))
  (at level 61, m at next level, right associativity) : agent_scope.
Notation "m ;;; k" := (bind m (fun _ => k))
  (at level 61, right associativity) : agent_scope.

(** Sequencing of pure steps that may raise. *)
Definition obind {A B} (o : outcome A) (k : A -> outcome B) : outcome B :=
  match o with
  | Ok a => k a
  | Raise e => Raise e
  end.

(** A list comprehension whose element expression may raise. *)
Fixpoint omap {A B} (f : A -> outcome B) (l : list A) : outcome (list B) :=
  match l with
  | [] => Ok []
  | x :: l' =>
      obind (f x) (fun y => obind (omap f l') (fun ys => Ok (y :: ys)))
  end.

(** [enumerate(l, start)]. *)
Fixpoint enumerate {A} (start : nat) (l : list A) : list (nat * A) :=
  match l with
  | [] => []
  | x :: l' => (start, x) :: enumerate (S start) l'
  end.

(* ================================================================== *)
(** ** The agents of [agents.py] and [query] of [chroma_service.py] *)
(* ================================================================== *)

(** The double quote character, for the prompts that contain it. *)
Definition dq : string := String (ascii_of_nat 34) EmptyString.

Definition nl : string := PyStr.nl.

(** What the summarizer hands to the vector store for one chunk. *)
Record chunk_metadata : Type := mkMetadata {
  bookId : doc_id;
  meta_position : nat;
  summary : value;
  key_concepts : value;
  keywords : value
}.

Record indexed_chunk : Type := mkIndexed {
  chunk_id : string;
  chunk_body : string;
  metadata : chunk_metadata
}.

(** One retrieved candidate of the generator: document, metadata and,
    when the store gave one, its distance. *)
Record retrieved : Type := mkRetrieved {
  r_doc : value;
  r_meta : value;
  r_dist : option Q
}.

Record chunk_info : Type := mkChunkInfo {
  info_position : value;
  info_summary : string;
  relevance_score : option Q
}.

Record quiz_result : Type := mkQuiz {
  quiz_id : string;
  quiz_book : doc_id;
  quiz_topic : string;
  n_questions : nat;
  chunks_used : nat;
  questions : value;
  model_raw_output : string;
  retrieved_chunks_info : list chunk_info
}.

Record validation_result : Type := mkValidation {
  v_question : value;
  validation : value;
  fixed_question : value
}.

Record validation_report : Type := mkReport {
  report_quiz : string;
  total_questions : nat;
  valid_count : nat;
  invalid_count : nat;
  fixed_count : nat;
  validation_results : list validation_result
}.

Record adaptive_result : Type := mkAdaptive {
  a_quiz_id : string;
  a_book : doc_id;
  a_topic : string;
  a_student : string;
  difficulty_hint : string;
  a_avg_time_ms : Z;
  a_avg_hints : Q;
  a_n_questions : nat;
  a_questions : value;
  a_raw : string
}.

(** The difficulty test of [run_adaptive_agent]. *)
Definition Qltb (x y : Q) : bool := negb (Qle_bool y x).

Definition assess (avg_time avg_hints : Q) : string :=
  if Qltb avg_time 15000 && Qltb avg_hints 0.5 then "increase difficulty"
  else if Qltb 30000 avg_time || Qltb 1.0 avg_hints then "decrease difficulty"
  else "maintain difficulty".

(** The neutral values used without a student or without history. *)
Definition neutral_profile : Q * Q := (20000%Q, 0.5%Q).

Section Agents.

Context {World : Type} `{Services World} `{PyLib}.

Local Open Scope agent_scope.

Local Abbreviation Agent := (M World).

(** [call_openai(prompt, model='gpt-4o-mini', max_tokens, temperature)];
    the request is logged, and an exception of the client is raised
    again. *)
Definition call_openai (p : prompt) (max_tokens : Z) (temperature : Q) : Agent string :=
  fun st =>
    let messages :=
      match p with
      | PromptMessages ms => ms
      | PromptText s => [mkMessage "user" s]
      end in
    let (r, w) := chat_create "gpt-4o-mini" messages max_tokens temperature (world st) in
    let st' := mkState w (calls st ++ [messages]) in
    match r with
    | Ok c => (Ok (match c with Some s => s | None => "" end), st')
    | Raise e => (Raise e, st')
    end.

(** [save_agent_output(agent_name, output_data)]. *)
Definition save_agent_output (agent_name : string) : Agent unit :=
  service (write_output agent_name).

(* ---------------------------------------------------------------- *)
(** *** The summarizer: [process_single_chunk] *)

Definition summarization_system : string := "Extract key information concisely.".

Definition summarization_prompt (short_context : string) : list message :=
  [ mkMessage "system" summarization_system;
    mkMessage "user"
      ("From this text, extract:" +s+ nl
       +s+ "1. A 2-sentence summary" +s+ nl
       +s+ "2. 3 key concepts (comma-separated)" +s+ nl
       +s+ "3. 5 keywords (comma-separated)" +s+ nl +s+ nl
       +s+ "TEXT: " +s+ short_context +s+ nl +s+ nl
       +s+ "Respond in JSON: {" +s+ dq +s+ "summary" +s+ dq +s+ ": "
       +s+ dq +s+ "..." +s+ dq +s+ ", " +s+ dq +s+ "key_concepts" +s+ dq
       +s+ ": " +s+ dq +s+ "..." +s+ dq +s+ ", " +s+ dq +s+ "keywords"
       +s+ dq +s+ ": " +s+ dq +s+ "..." +s+ dq +s+ "}") ].

(** The two parsing tiers of the summarizer; [None] is the [parsed = None]
    left by a failed parse. *)
Definition parse_summary (raw : string) : option value :=
  match json_loads raw with
  | Some v => Some v
  | None =>
      let j_start := PyStr.find "{" raw in
      let j_end := (PyStr.rfind "}" raw + 1)%Z in
      if (j_start >=? 0)%Z && (j_end >? j_start)%Z
      then json_loads (PyStr.slice j_start j_end raw)
      else None
  end.

(** [if parsed:]. *)
Definition parsed_truthy (parsed : option value) : bool :=
  match parsed with
  | Some v => Py.truthy v
  | None => false
  end.

(** [f"{book_id}-{chunk['position']}"]. *)
Definition make_chunk_id (book_id : doc_id) (c : chunk) : string :=
  DocId.str book_id +s+ "-" +s+ Py.str_of_nat (position c).

(** The three metadata fields read from the completion. *)
Definition summary_fields (raw : string) : outcome (value * value * value) :=
  let parsed := parse_summary raw in
  if parsed_truthy parsed then
    let p := match parsed with Some v => v | None => VNone end in
    obind (Py.get p "summary" (VStr (PyStr.take 200 raw))) (fun s =>
    obind (Py.get p "key_concepts" (VStr "")) (fun kc =>
    obind (Py.get p "keywords" (VStr "")) (fun kw =>
    Ok (s, kc, kw))))
  else Ok (VStr (PyStr.take 200 raw), VStr "", VStr "").

(** The record of the [except Exception] branch. *)
Definition minimal_chunk (c : chunk) (book_id : doc_id) : indexed_chunk :=
  {| chunk_id := make_chunk_id book_id c;
     chunk_body := text c;
     metadata :=
       {| bookId := book_id;
          meta_position := position c;
          summary := VStr (PyStr.take 200 (text c));
          key_concepts := VStr "";
          keywords := VStr "" |} |}.

Definition process_single_chunk (c : chunk) (book_id : doc_id) : Agent indexed_chunk :=
  let short_context :=
    if (PyStr.len (text c) >? 3000)%Z then PyStr.take 3000 (text c) else text c in
  catch
    (raw <- call_openai (PromptMessages (summarization_prompt short_context)) 200 0 ;;
     f <- lift (summary_fields raw) ;;
     let '(s, kc, kw) := f in
     ret {| chunk_id := make_chunk_id book_id c;
            chunk_body := text c;
            metadata :=
              {| bookId := book_id;
                 meta_position := position c;
                 summary := s;
                 key_concepts := kc;
                 keywords := kw |} |})
    (fun _ => ret (minimal_chunk c book_id)).

(* ---------------------------------------------------------------- *)
(** *** The batch loop of [run_curriculum_agent] *)

(** A call of an external service that cannot raise. *)
Definition service_total {A} (f : World -> A * World) : Agent A :=
  fun st => let (a, w) := f (world st) in (Ok a, mkState w (calls st)).

(** The [k]-th element of the non-empty list [x :: l] (the last one when
    [k] is too large) and the others, in order. *)
Fixpoint pick {A} (k : nat) (x : A) (l : list A) : A * list A :=
  match k, l with
  | S k', y :: l' => let (z, r) := pick k' y l' in (z, x :: r)
  | _, _ => (x, l)
  end.

(** The result of task [i] goes to its own slot: the slots stay ordered
    by task index. *)
Fixpoint insert_slot {R} (i : nat) (r : R) (done : list (nat * R)) : list (nat * R) :=
  match done with
  | [] => [(i, r)]
  | (j, r') :: rest =>
      if i <? j then (i, r) :: done else (j, r') :: insert_slot i r rest
  end.

(** The event loop under [asyncio.gather]: while tasks are pending, the
    scheduler names the one that completes next; an exception of a task
    is raised to the caller. *)
Fixpoint gather_loop {R} (n : nat) (pending : list (nat * Agent R))
         (done : list (nat * R)) : Agent (list (nat * R)) :=
  match n, pending with
  | S n', x :: rest =>
      k <- service_total (schedule (List.length pending)) ;;
      let '((i, task), rest') := pick k x rest in
      r <- task ;;
      gather_loop n' rest' (insert_slot i r done)
  | _, _ => ret done
  end.

(** [await asyncio.gather] of the tasks: the results in the order of
    [tasks]. *)
Definition gather {R} (tasks : list (Agent R)) : Agent (list R) :=
  done <- gather_loop (List.length tasks) (enumerate 0 tasks) [] ;;
  ret (map snd done).

Definition batch_size : nat := 3.

(** [range(0, n, batch_size)]. *)
Definition batch_starts (n : nat) : list nat :=
  map (fun k => k * batch_size) (seq 0 ((n + (batch_size - 1)) / batch_size)).

(** [l[i:j]] for a list. *)
Definition list_slice {A} (i j : nat) (l : list A) : list A :=
  firstn (j - i) (skipn i l).

(** The body of [for i in range(0, len(chunks), batch_size)], iterated. *)
Fixpoint process_batches (starts : list nat) (cs : list chunk) (book_id : doc_id)
         (db_chunks : list indexed_chunk) : Agent (list indexed_chunk) :=
  match starts with
  | [] => ret db_chunks
  | i :: starts' =>
      let batch := list_slice i (i + batch_size) cs in
      batch_results <- gather (map (fun c => process_single_chunk c book_id) batch) ;;
      process_batches starts' cs book_id (db_chunks ++ batch_results)
  end.

(** Lines 193-205 of [run_curriculum_agent]: the value of [db_chunks]
    after the loop. *)
Definition summarize_chunks (cs : list chunk) (book_id : doc_id)
  : Agent (list indexed_chunk) :=
  process_batches (batch_starts (List.length cs)) cs book_id [].

(* ---------------------------------------------------------------- *)
(** *** Retrieval: [query] and [get_relevant_context] *)

(** [x[0] if x else []]. *)
Definition first_or_empty {A} (x : list (list A)) : list A :=
  match x with
  | [] => []
  | y :: _ => y
  end.

Definition empty_result : query_result := mkQueryResult [] [] [] [].

(** [query(query_text, n_results, book_id)] of [chroma_service.py]: the
    collection is obtained outside the [try], everything else inside. *)
Definition query (query_text : string) (n_results : Z) (book_id : option doc_id)
  : Agent query_result :=
  service get_collection ;;;
  catch
    (results <- service (collection_query query_text n_results book_id) ;;
     let docs := first_or_empty (raw_documents results) in
     let metas := first_or_empty (raw_metadatas results) in
     let the_ids := first_or_empty (raw_ids results) in
     dists <- lift (match raw_distances results with
                    | None => Ok []
                    | Some [] => Raise IndexError
                    | Some (d :: _) => Ok d
                    end) ;;
     ret (mkQueryResult docs metas the_ids dists))
    (fun _ => ret empty_result).

(** The label of one chunk in [get_relevant_context]. *)
Definition context_part (metas : list value) (entry : nat * value) : outcome string :=
  let (i, doc) := entry in
  let doc_str := match doc with VStr s => s | _ => json_dumps doc end in
  let meta := nth i metas (VDict []) in
  obind (Py.get meta "bookId" (VStr "unknown")) (fun b =>
  obind (Py.get meta "position" (VStr "n/a")) (fun p =>
  Ok ("--- CHUNK " +s+ Py.str_of_nat (i + 1) +s+ " (bookId=" +s+ fmt_value b
      +s+ ", pos=" +s+ fmt_value p +s+ ") ---" +s+ nl +s+ doc_str))).

Definition get_relevant_context (topic : string) (n_results : Z) : Agent string :=
  resp <- query topic n_results None ;;
  parts <- lift (omap (context_part (metadatas resp)) (enumerate 0 (documents resp))) ;;
  ret (String.concat (nl +s+ nl) parts).

(* ---------------------------------------------------------------- *)
(** *** Parsing and repairing a question list *)

(** The parse of the completion in [run_quiz_generator_agent] and
    [run_adaptive_agent]; [msg] is the message of the [ValueError]. *)
Definition parse_questions (msg : string) (raw : string) : outcome value :=
  match json_loads raw with
  | Some v => Ok v
  | None =>
      let a_start := PyStr.find "[" raw in
      let a_end := (PyStr.rfind "]" raw + 1)%Z in
      if (a_start >=? 0)%Z && (a_end >? a_start)%Z then
        match json_loads (PyStr.slice a_start a_end raw) with
        | Some v => Ok v
        | None => Raise (JSONDecodeError (PyStr.slice a_start a_end raw))
        end
      else Raise (ValueError msg)
  end.

Definition generator_parse_error : string :=
  "Could not parse quiz generator output as JSON".

Definition adaptive_parse_error : string :=
  "Could not parse adaptive generator output".

(** [f"Based on the context, {q.get('correct', 'A')} is the correct answer."]. *)
Definition synthesized_explanation (d : list (string * value)) : string :=
  "Based on the context, "
  +s+ fmt_value (match Py.dict_lookup "correct" d with Some c => c | None => VStr "A" end)
  +s+ " is the correct answer.".

(** [if 'explanation' not in q or not q['explanation']: q['explanation'] = ...];
    anything but a dictionary fails in the test or in the assignment. *)
Definition ensure_explanation (q : value) : outcome value :=
  match q with
  | VDict d =>
      match Py.dict_lookup "explanation" d with
      | Some e =>
          if Py.truthy e then Ok q
          else Ok (VDict (Py.dict_set "explanation" (VStr (synthesized_explanation d)) d))
      | None =>
          Ok (VDict (Py.dict_set "explanation" (VStr (synthesized_explanation d)) d))
      end
  | _ => Raise TypeError
  end.

Definition placeholder_choices : value :=
  VList [VStr "Option A"; VStr "Option B"; VStr "Option C"; VStr "Option D"].

(** [if 'choices' not in q or not isinstance(q['choices'], list):
     q['choices'] = [...]]. *)
Definition ensure_choices (q : value) : outcome value :=
  match q with
  | VDict d =>
      match Py.dict_lookup "choices" d with
      | Some c =>
          if Py.is_list c then Ok q
          else Ok (VDict (Py.dict_set "choices" placeholder_choices d))
      | None => Ok (VDict (Py.dict_set "choices" placeholder_choices d))
      end
  | _ => Raise TypeError
  end.

(** [for q in questions: body(q)], where [body] updates [q] in place:
    the elements of a list are updated; the keys of a dictionary and the
    characters of a string cannot be. *)
Definition for_each_question (body : value -> outcome value) (qs : value)
  : outcome value :=
  match qs with
  | VList l => obind (omap body l) (fun l' => Ok (VList l'))
  | _ => obind (Py.iter qs) (fun xs => obind (omap body xs) (fun _ => Ok qs))
  end.

(** The repair loop of [run_quiz_generator_agent]. *)
Definition generator_repair (qs : value) : outcome value :=
  for_each_question ensure_explanation qs.

(** The repair loop of [run_adaptive_agent]. *)
Definition adaptive_repair (qs : value) : outcome value :=
  for_each_question (fun q => obind (ensure_explanation q) ensure_choices) qs.

(* ---------------------------------------------------------------- *)
(** *** [run_quiz_generator_agent] *)

(** [zip(docs, metadatas)] with its index and [distances[i] if i <
    len(distances) else None]. *)
Definition candidates (resp : query_result) : list retrieved :=
  map (fun e : nat * (value * value) =>
         mkRetrieved (fst (snd e)) (snd (snd e)) (nth_error (distances resp) (fst e)))
      (enumerate 0 (combine (documents resp) (metadatas resp))).

(** The filtering loop: [meta.get('bookId') == book_id]. *)
Fixpoint filter_book (book_id : doc_id) (cands : list retrieved)
  : outcome (list retrieved) :=
  match cands with
  | [] => Ok []
  | c :: rest =>
      obind (Py.get (r_meta c) "bookId" VNone) (fun b =>
      obind (filter_book book_id rest) (fun tl =>
      Ok (if DocId.eqb_value b book_id then c :: tl else tl)))
  end.

(** The value of [relevant_chunks] before the context is built. *)
Definition relevant_chunks (book_id : doc_id) (resp : query_result)
  : outcome (list retrieved) :=
  obind (filter_book book_id (candidates resp)) (fun sel =>
  Ok (match sel with
      | [] => candidates resp
      | _ :: _ => sel
      end)).

Definition relevance_display (dist : option Q) : string :=
  match dist with
  | Some d => fmt_3f (num_sub 1 d)
  | None => "N/A"
  end.

Definition generator_part (entry : nat * retrieved) : outcome string :=
  let (i, c) := entry in
  obind (Py.get (r_meta c) "position" (VStr "n/a")) (fun p =>
  Ok ("--- CHUNK " +s+ Py.str_of_nat i +s+ " (position=" +s+ fmt_value p
      +s+ ", relevance=" +s+ relevance_display (r_dist c) +s+ ") ---" +s+ nl
      +s+ fmt_value (r_doc c))).

Definition generator_context (chunks : list retrieved) : outcome string :=
  obind (omap generator_part (enumerate 1 chunks)) (fun parts =>
  Ok (String.concat (nl +s+ nl) parts)).

Definition quoted (s : string) : string := dq +s+ s +s+ dq.

Definition generator_system : string :=
  "You are a strict quiz-generation assistant. Use only the context provided.".

Definition generator_prompt (n : Z) (topic context : string) : list message :=
  [ mkMessage "system" generator_system;
    mkMessage "user"
      ("Generate " +s+ Py.str_of_Z n
       +s+ " high-quality multiple-choice questions about the TOPIC: "
       +s+ quoted topic +s+ ". "
       +s+ "You MUST base all content only on the CONTEXT and not invent facts. For each question return an object with fields:" +s+ nl
       +s+ "- question (string): The question text" +s+ nl
       +s+ "- choices (array of 4 strings labelled A-D order)" +s+ nl
       +s+ "- correct (one of " +s+ quoted "A" +s+ "," +s+ quoted "B" +s+ ","
       +s+ quoted "C" +s+ "," +s+ quoted "D" +s+ "): The correct answer" +s+ nl
       +s+ "- explanation (string): A clear explanation of why the correct answer is right, based on the context" +s+ nl
       +s+ "- hint (short sentence grounded in context)" +s+ nl
       +s+ "- difficulty (" +s+ quoted "easy" +s+ "|" +s+ quoted "medium" +s+ "|"
       +s+ quoted "hard" +s+ ")" +s+ nl +s+ nl
       +s+ "Return a JSON array of questions only. Provide no extra commentary outside the JSON.");
    mkMessage "user" ("CONTEXT:" +s+ nl +s+ PyStr.take 16000 context) ].

(** One entry of [retrieved_chunks_info]; slicing and [+ "..."] need the
    summary to be a string. *)
Definition chunk_info_of (c : retrieved) : outcome chunk_info :=
  obind (Py.get (r_meta c) "position" VNone) (fun p =>
  obind (Py.get (r_meta c) "summary" (VStr "")) (fun s =>
  match s with
  | VStr t =>
      Ok {| info_position := p;
            info_summary := PyStr.take 100 t +s+ "...";
            relevance_score :=
              match r_dist c with
              | Some d => if Qeq_bool d 0 then None else Some (num_sub 1 d)
              | None => None
              end |}
  | _ => Raise TypeError
  end)).

Definition run_quiz_generator_agent (book_id : doc_id) (topic : string) (n : Z)
  : Agent quiz_result :=
  if negb (DocId.truthy book_id) || negb (PyStr.nonempty topic)
  then raise (ValueError "book_id and topic required")
  else
    context_data <- query topic 6 None ;;
    chunks <- lift (relevant_chunks book_id context_data) ;;
    context <- lift (generator_context chunks) ;;
    raw <- call_openai (PromptMessages (generator_prompt n topic context)) 2000 0 ;;
    parsed <- lift (parse_questions generator_parse_error raw) ;;
    qs <- lift (generator_repair parsed) ;;
    qid <- service_total uuid4 ;;
    count <- lift (Py.len qs) ;;
    infos <- lift (omap chunk_info_of chunks) ;;
    let result :=
      {| quiz_id := qid;
         quiz_book := book_id;
         quiz_topic := topic;
         n_questions := count;
         chunks_used := List.length chunks;
         questions := qs;
         model_raw_output := raw;
         retrieved_chunks_info := infos |} in
    save_agent_output "quiz_generator_agent" ;;;
    ret result.

(* ---------------------------------------------------------------- *)
(** *** [run_quiz_validator_agent] *)

Definition validator_system : string :=
  "You are a fact-checking validator. Only verify if the QUESTION is supported by the CONTEXT.".

Definition fixer_system : string :=
  "You are a quiz fixer. Regenerate a single question strictly from CONTEXT.".

Definition validation_prompt (q : value) (context : string) : list message :=
  [ mkMessage "system" validator_system;
    mkMessage "user"
      ("Given QUESTION and CHOICES, answer with JSON { valid: boolean, reason: string }." +s+ nl
       +s+ "QUESTION: " +s+ json_dumps q +s+ nl +s+ nl
       +s+ "CONTEXT:" +s+ nl +s+ PyStr.take 8000 context) ].

Definition fix_prompt (q : value) (context : string) : list message :=
  [ mkMessage "system" fixer_system;
    mkMessage "user"
      ("Original question: " +s+ json_dumps q +s+ nl +s+ nl
       +s+ "CONTEXT:" +s+ nl +s+ PyStr.take 8000 context +s+ nl +s+ nl
       +s+ "Return a single JSON object with same fields: question, choices(A-D array), correct(A-D), explanation, hint, difficulty.") ].

(** The value of [validation] after the [try]: the parsed completion, or
    the heuristic dictionary when the completion is not JSON. *)
Definition parse_validation (raw : string) : value :=
  match json_loads raw with
  | Some v => v
  | None =>
      VDict [ ("valid", VBool (search_true raw && negb (search_false raw)));
              ("reason", VStr (PyStr.take 300 raw)) ]
  end.

(** The body of [for q in questions]. *)
Definition validate_question (context : string) (auto_fix : bool) (q : value)
  : Agent validation_result :=
  raw <- call_openai (PromptMessages (validation_prompt q context)) 400 0 ;;
  let v := parse_validation raw in
  valid <- lift (Py.getitem v "valid") ;;
  fixed <-
    (if negb (Py.truthy valid) && auto_fix then
       raw_fix <- call_openai (PromptMessages (fix_prompt q context)) 500 0 ;;
       ret (match json_loads raw_fix with
            | Some f => f
            | None => VNone
            end)
     else ret VNone) ;;
  ret (mkValidation q v fixed).

Fixpoint validate_all (context : string) (auto_fix : bool) (qs : list value)
         (results : list validation_result) : Agent (list validation_result) :=
  match qs with
  | [] => ret results
  | q :: qs' =>
      r <- validate_question context auto_fix q ;;
      validate_all context auto_fix qs' (results ++ [r])
  end.

(** [sum(1 for r in results if test(r))]. *)
Fixpoint count_if {A} (test : A -> outcome bool) (l : list A) : outcome nat :=
  match l with
  | [] => Ok 0
  | x :: l' =>
      obind (test x) (fun b =>
      obind (count_if test l') (fun n =>
      Ok (if b then S n else n)))
  end.

(** [r['validation']['valid']] as a truth value. *)
Definition verdict (r : validation_result) : outcome bool :=
  obind (Py.getitem (validation r) "valid") (fun v => Ok (Py.truthy v)).

(** [r['fixed_question'] is not None]. *)
Definition has_fix (r : validation_result) : bool :=
  match fixed_question r with
  | VNone => false
  | _ => true
  end.

Definition run_quiz_validator_agent (qid : string) (qs : list value)
           (topic : string) (auto_fix : bool) : Agent validation_report :=
  context <- get_relevant_context topic 8 ;;
  results <- validate_all context auto_fix qs [] ;;
  valid <- lift (count_if verdict results) ;;
  invalid <- lift (count_if (fun r => obind (verdict r) (fun b => Ok (negb b))) results) ;;
  fixed <- lift (count_if (fun r => Ok (has_fix r)) results) ;;
  let result :=
    {| report_quiz := qid;
       total_questions := List.length qs;
       valid_count := valid;
       invalid_count := invalid;
       fixed_count := fixed;
       validation_results := results |} in
  save_agent_output "quiz_validator_agent" ;;;
  ret result.

(* ---------------------------------------------------------------- *)
(** *** [run_adaptive_agent] *)

(** [sum(xs)]. *)
Definition py_sum (xs : list Q) : Q := fold_left num_add xs 0%Q.

(** [r.get(field, 0)]. *)
Definition or_zero (x : option Q) : Q :=
  match x with
  | Some q => q
  | None => 0%Q
  end.

(** The averages taken from a student's history. *)
Definition history_profile (history : list response) : Q * Q :=
  match history with
  | [] => neutral_profile
  | _ :: _ =>
      let n := inject_Z (Z.of_nat (List.length history)) in
      (num_div (py_sum (map (fun r => or_zero (time_ms r)) history)) n,
       num_div (py_sum (map (fun r => or_zero (hints_used r)) history)) n)
  end.

(** [avg_time] and [avg_hints] as [run_adaptive_agent] sets them. *)
Definition performance_profile (student_external_id : string) : Agent (Q * Q) :=
  found <- service (find_by_external_id student_external_id) ;;
  match found with
  | None => ret neutral_profile
  | Some s =>
      history <- service (find_by_student (student_id s)) ;;
      ret (history_profile history)
  end.

Definition adaptive_system : string :=
  "You are a quiz generator that adapts to student performance.".

Definition modifier (avg_time avg_hints : Q) (hint : string) : string :=
  "Student performance summary: avg_time_ms=" +s+ Py.str_of_Z (round_int avg_time)
  +s+ ", avg_hints=" +s+ fmt_2f avg_hints +s+ ". Instruction: " +s+ hint +s+ ".".

Definition adaptive_prompt (n : Z) (topic modif context : string) : list message :=
  [ mkMessage "system" adaptive_system;
    mkMessage "user"
      ("Generate " +s+ Py.str_of_Z n +s+ " questions for topic " +s+ quoted topic +s+ ". "
       +s+ "Use only the CONTEXT. Adjust difficulty according to: " +s+ modif +s+ ". "
       +s+ "For each question include:" +s+ nl
       +s+ "- question (string): The question text" +s+ nl
       +s+ "- choices (array of 4 strings labelled A-D)" +s+ nl
       +s+ "- correct (one of " +s+ quoted "A" +s+ "," +s+ quoted "B" +s+ ","
       +s+ quoted "C" +s+ "," +s+ quoted "D" +s+ "): The correct answer" +s+ nl
       +s+ "- explanation (string): A clear explanation of why the correct answer is right" +s+ nl
       +s+ "- hint (string): A helpful hint" +s+ nl
       +s+ "- difficulty (string): " +s+ quoted "easy" +s+ ", " +s+ quoted "medium"
       +s+ ", or " +s+ quoted "hard" +s+ nl +s+ nl
       +s+ "Return a JSON array of question objects only.");
    mkMessage "user" ("CONTEXT:" +s+ nl +s+ PyStr.take 12000 context) ].

Definition run_adaptive_agent (student_external_id : string) (book_id : doc_id)
           (topic : string) (n : Z) : Agent adaptive_result :=
  profile <- performance_profile student_external_id ;;
  let (avg_time, avg_hints) := profile in
  let hint := assess avg_time avg_hints in
  context <- get_relevant_context topic 6 ;;
  let modif := modifier avg_time avg_hints hint in
  raw <- call_openai (PromptMessages (adaptive_prompt n topic modif context)) 2000 0 ;;
  parsed <- lift (parse_questions adaptive_parse_error raw) ;;
  qs <- lift (adaptive_repair parsed) ;;
  qid <- service_total uuid4 ;;
  count <- lift (Py.len qs) ;;
  let result :=
    {| a_quiz_id := qid;
       a_book := book_id;
       a_topic := topic;
       a_student := student_external_id;
       difficulty_hint := hint;
       a_avg_time_ms := round_int avg_time;
       a_avg_hints := round_2 avg_hints;
       a_n_questions := count;
       a_questions := qs;
       a_raw := raw |} in
  save_agent_output "adaptive_agent" ;;;
  ret result.

End Agents.

(* ================================================================== *)
(** ** A concrete library and a scripted world, for running the agents *)
(* ================================================================== *)

(** A reader for the part of JSON made of [null], [true], [false],
    integers, strings without escapes, arrays and objects; on such a text
    it returns what [json.loads] returns, and it rejects every text that
    [json.loads] rejects. Texts with fractions, exponents or escapes are
    outside of it. *)
Module MiniJson.

Definition is_ws (c : ascii) : bool :=
  let n := nat_of_ascii c in (n =? 32) || (n =? 9) || (n =? 10) || (n =? 13).

Definition is_digit (c : ascii) : bool :=
  let n := nat_of_ascii c in (48 <=? n) && (n <=? 57).

Definition digit_val (c : ascii) : Z := Z.of_nat (nat_of_ascii c - 48).

Definition is_char (n : nat) (c : ascii) : bool := nat_of_ascii c =? n.

Fixpoint skip_ws (s : string) : string :=
  match s with
  | String c s' => if is_ws c then skip_ws s' else s
  | EmptyString => EmptyString
  end.

Fixpoint read_digits (acc : Z) (s : string) : Z * string :=
  match s with
  | String c s' =>
      if is_digit c then read_digits (acc * 10 + digit_val c)%Z s' else (acc, s)
  | EmptyString => (acc, s)
  end.

(** A natural number without a leading zero, or [0] alone. *)
Definition read_nat (s : string) : option (Z * string) :=
  match s with
  | String c s' =>
      if is_char 48 c then Some (0%Z, s')
      else if is_digit c then Some (read_digits 0 s) else None
  | EmptyString => None
  end.

(** The characters up to the closing quote; [acc] is reversed. *)
Fixpoint read_string (acc : string) (s : string) : option (string * string) :=
  match s with
  | String c s' =>
      if is_char 34 c then Some (PyStr.rev acc, s')
      else if is_char 92 c then None
      else if nat_of_ascii c <? 32 then None
      else read_string (String c acc) s'
  | EmptyString => None
  end.

Definition starts_with (p s : string) : option string :=
  if String.prefix p s
  then Some (substring (String.length p) (String.length s - String.length p) s)
  else None.

Fixpoint parse_value (fuel : nat) (s : string) : option (value * string) :=
  match fuel with
  | O => None
  | S f =>
      match skip_ws s with
      | EmptyString => None
      | String c r as t =>
          if is_char 91 c then
            match skip_ws r with
            | String c' r' =>
                if is_char 93 c' then Some (VList [], r') else parse_items f [] (String c' r')
            | EmptyString => None
            end
          else if is_char 123 c then
            match skip_ws r with
            | String c' r' =>
                if is_char 125 c' then Some (VDict [], r') else parse_members f [] (String c' r')
            | EmptyString => None
            end
          else if is_char 34 c then
            match read_string EmptyString r with
            | Some (str, r') => Some (VStr str, r')
            | None => None
            end
          else if is_char 45 c then
            match read_nat r with
            | Some (z, r') => Some (VNum (inject_Z (- z)), r')
            | None => None
            end
          else if is_digit c then
            match read_nat t with
            | Some (z, r') => Some (VNum (inject_Z z), r')
            | None => None
            end
          else
            match starts_with "null" t, starts_with "true" t, starts_with "false" t with
            | Some r', _, _ => Some (VNone, r')
            | _, Some r', _ => Some (VBool true, r')
            | _, _, Some r' => Some (VBool false, r')
            | _, _, _ => None
            end
      end
  end

with parse_items (fuel : nat) (acc : list value) (s : string) : option (value * string) :=
  match fuel with
  | O => None
  | S f =>
      match parse_value f s with
      | Some (v, r) =>
          match skip_ws r with
          | String c r' =>
              if is_char 44 c then parse_items f (acc ++ [v]) r'
              else if is_char 93 c then Some (VList (acc ++ [v]), r')
              else None
          | EmptyString => None
          end
      | None => None
      end
  end

with parse_members (fuel : nat) (acc : list (string * value)) (s : string)
  : option (value * string) :=
  match fuel with
  | O => None
  | S f =>
      match skip_ws s with
      | String c r =>
          if is_char 34 c then
            match read_string EmptyString r with
            | Some (k, r1) =>
                match skip_ws r1 with
                | String c1 r2 =>
                    if is_char 58 c1 then
                      match parse_value f r2 with
                      | Some (v, r3) =>
                          match skip_ws r3 with
                          | String c3 r4 =>
                              if is_char 44 c3 then parse_members f (Py.dict_set k v acc) r4
                              else if is_char 125 c3 then Some (VDict (Py.dict_set k v acc), r4)
                              else None
                          | EmptyString => None
                          end
                      | None => None
                      end
                    else None
                | EmptyString => None
                end
            | None => None
            end
          else None
      | EmptyString => None
      end
  end.

Definition loads (s : string) : option value :=
  match parse_value (2 * String.length s + 2) s with
  | Some (v, r) =>
      match skip_ws r with
      | EmptyString => Some v
      | String _ _ => None
      end
  | None => None
  end.

End MiniJson.

(** A stand-in for the library helpers on the values the examples use:
    the reader above, a writer and a [str] for integers, strings without
    escapes and containers of them, exact rational arithmetic, rounding to
    the nearest with ties to even, and an ASCII word search. *)
Module ExampleLib.

Fixpoint dumps (v : value) : string :=
  match v with
  | VNone => "null"
  | VBool true => "true"
  | VBool false => "false"
  | VNum q => Py.str_of_Z (Qnum q)
  | VStr s => dq +s+ s +s+ dq
  | VList l => "[" +s+ String.concat ", " (map dumps l) +s+ "]"
  | VDict d =>
      "{" +s+ String.concat ", "
                (map (fun kv => dq +s+ fst kv +s+ dq +s+ ": " +s+ dumps (snd kv)) d)
      +s+ "}"
  end.

Definition repr (v : value) : string :=
  match v with
  | VNone => "None"
  | VBool true => "True"
  | VBool false => "False"
  | _ => dumps v
  end.

Definition round_half_even (q : Q) : Z :=
  let f := Qfloor q in
  match Qcompare (q - inject_Z f)%Q (1 # 2)%Q with
  | Lt => f
  | Gt => (f + 1)%Z
  | Eq => if Z.even f then f else (f + 1)%Z
  end.

(** [digits] decimal places of a non-negative scaled integer. *)
Fixpoint fraction (digits : nat) (z : Z) : string :=
  match digits with
  | O => ""
  | S d => fraction d (z / 10) +s+ Py.str_of_Z (z mod 10)
  end.

Definition fmt_fixed (digits : nat) (q : Q) : string :=
  let scale := (10 ^ Z.of_nat digits)%Z in
  let z := round_half_even (q * inject_Z scale)%Q in
  (if (z <? 0)%Z then "-" else "")
  +s+ Py.str_of_Z (Z.abs z / scale) +s+ "." +s+ fraction digits (Z.abs z mod scale).

Definition is_word_char (c : ascii) : bool :=
  let n := nat_of_ascii c in
  ((48 <=? n) && (n <=? 57)) || ((65 <=? n) && (n <=? 90))
  || ((97 <=? n) && (n <=? 122)) || (n =? 95).

Definition lower (c : ascii) : ascii :=
  let n := nat_of_ascii c in
  if (65 <=? n) && (n <=? 90) then ascii_of_nat (n + 32) else c.

(** [w] (in lower case) at the head of [s], ignoring case, not followed
    by a word character. *)
Fixpoint word_here (w s : string) : bool :=
  match w, s with
  | EmptyString, EmptyString => true
  | EmptyString, String c _ => negb (is_word_char c)
  | String a w', String c s' => Ascii.eqb a (lower c) && word_here w' s'
  | String _ _, EmptyString => false
  end.

(** [re.search] of the word [w] between word boundaries, ignoring case;
    [boundary] tells whether the previous character was not a word
    character. *)
Fixpoint search_word (w : string) (boundary : bool) (s : string) : bool :=
  match s with
  | EmptyString => false
  | String c s' =>
      (boundary && word_here w s) || search_word w (negb (is_word_char c)) s'
  end.

#[global] Instance lib : PyLib := {|
  json_loads := MiniJson.loads;
  json_dumps := dumps;
  repr_value := repr;
  search_true := search_word "true" true;
  search_false := search_word "false" true;
  num_add := Qplus;
  num_sub := Qminus;
  num_div := Qdiv;
  round_int := round_half_even;
  round_2 := fun q => (inject_Z (round_half_even (q * 100)%Q) / 100)%Q;
  fmt_2f := fmt_fixed 2;
  fmt_3f := fmt_fixed 3
|}.

End ExampleLib.

(** A world that follows a script: the replies of the completion service
    in the order of the requests, one fixed answer of the vector store,
    the students and histories of the record store, whether the log file
    can be written, a counter for identifiers and the choices of the
    scheduler. *)
Module Script.

Record world : Type := mkWorld {
  replies : list (outcome (option string));
  collection : outcome unit;
  store : outcome raw_results;
  students : list (string * student);
  histories : list (string * list response);
  disk : outcome unit;
  next_id : nat;
  choices : list nat
}.

Fixpoint assoc {A} (k : string) (l : list (string * A)) : option A :=
  match l with
  | [] => None
  | (k', a) :: l' => if String.eqb k' k then Some a else assoc k l'
  end.

Definition reply (w : world) : outcome (option string) * world :=
  match replies w with
  | [] => (Raise (ServiceError "no reply"), w)
  | r :: rest =>
      (r, mkWorld rest (collection w) (store w) (students w) (histories w)
                  (disk w) (next_id w) (choices w))
  end.

Definition fresh_id (w : world) : string * world :=
  ("quiz-" +s+ Py.str_of_nat (next_id w),
   mkWorld (replies w) (collection w) (store w) (students w) (histories w)
           (disk w) (S (next_id w)) (choices w)).

Definition choose (w : world) : nat * world :=
  match choices w with
  | [] => (0, w)
  | k :: rest =>
      (k, mkWorld (replies w) (collection w) (store w) (students w) (histories w)
                  (disk w) (next_id w) rest)
  end.

#[global] Instance services : Services world := {|
  chat_create := fun _ _ _ _ w => reply w;
  get_collection := fun w => (collection w, w);
  collection_query := fun _ _ _ w => (store w, w);
  find_by_external_id := fun k w => (Ok (assoc k (students w)), w);
  find_by_student := fun k w =>
    (Ok (match assoc k (histories w) with Some h => h | None => [] end), w);
  write_output := fun _ w => (disk w, w);
  uuid4 := fresh_id;
  schedule := fun _ w => choose w
|}.

(** A world with the given replies, a store answering [raw], a writable
    disk and nothing else. *)
Definition simple (rs : list (outcome (option string))) (raw : outcome raw_results)
  : world :=
  mkWorld rs (Ok tt) raw [] [] (Ok tt) 0 [].

Definition start (w : world) : state world := mkState w [].

End Script.

(* ================================================================== *)
(** ** Notions used in the statements *)
(* ================================================================== *)

(** Paragraphs joined by the separator of the chunker. *)
Definition join : list string -> string := String.concat para_sep.

(** A group of paragraphs is one paragraph, or fits the chunk size. *)
Definition bounded (chunk_size : Z) (g : list string) : Prop :=
  List.length g = 1 \/ (PyStr.len (join g) <= chunk_size)%Z.

(** The groups are as large as the chunk size allows: a group joined with
    the first paragraph of the next group is longer than the chunk size. *)
Fixpoint greedy (chunk_size : Z) (groups : list (list string)) : Prop :=
  match groups with
  | [] => True
  | g :: rest =>
      match rest with
      | (p :: _) :: _ => (PyStr.len (join (g ++ [p])) > chunk_size)%Z
      | _ => True
      end /\ greedy chunk_size rest
  end.

(** What holds of the loop variables of the chunker after the paragraphs
    [seen]: the chunks emitted are the joins of consecutive non-empty
    groups of paragraphs, the buffer is the join of the paragraphs that
    follow them, positions count the chunks, and each group was closed
    because the next paragraph did not fit. *)
Inductive invariant (chunk_size : Z) (seen : list string) (st : chunker) : Prop :=
| Invariant (groups : list (list string)) (open : list string)
    (inv_cover : List.concat groups ++ open = seen)
    (inv_texts : map text (chunks st) = map join groups)
    (inv_nonempty : Forall (fun g => g <> []) groups)
    (inv_bounded : Forall (bounded chunk_size) groups)
    (inv_current : current st = join open)
    (inv_open_bounded : open = [] \/ bounded chunk_size open)
    (inv_positions : map position (chunks st) = seq 0 (List.length (chunks st)))
    (inv_next : next_position st = List.length (chunks st))
    (inv_started : open = [] -> groups = [])
    (inv_greedy : greedy chunk_size (groups ++ [open])).




(** [c in s] for a character. *)
Fixpoint occurs (c : ascii) (s : string) : bool :=
  match s with
  | String d s' => Ascii.eqb d c || occurs c s'
  | EmptyString => false
  end.

(** [needle in hay] for strings. *)
Definition is_substring (needle hay : string) : bool :=
  match String.index 0 needle hay with
  | Some _ => true
  | None => false
  end.

(** The message an exception carries. *)
Definition message_of (e : exn) : string :=
  match e with
  | ValueError msg => msg
  | JSONDecodeError _ => "Expecting value"
  | KeyError k => k
  | ServiceError d => d
  | TypeError | AttributeError | IndexError => ""
  end.

(** The request [process_single_chunk] sends for a chunk. *)
Definition summary_request (c : chunk) : list message :=
  summarization_prompt
    (if (PyStr.len (text c) >? 3000)%Z then PyStr.take 3000 (text c) else text c).

(** The record [r] is the summary of chunk [c] for [book]. *)
Definition summarizes (book : doc_id) (c : chunk) (r : indexed_chunk) : Prop :=
  chunk_body r = text c /\
  meta_position (metadata r) = position c /\
  bookId (metadata r) = book /\
  chunk_id r = DocId.str book +s+ "-" +s+ Py.str_of_nat (position c).

(** The batches of the batch loop: [chunks[i:i + batch_size]] for [i] in
    [range(0, len(chunks), batch_size)]. *)
Definition batches_of (cs : list chunk) : list (list chunk) :=
  map (fun i => firstn (i + 3 - i) (skipn i cs))
      (map (fun k => k * 3) (seq 0 ((List.length cs + 2) / 3))).

(** The completion request [ms] opens with the system prompt [sys]. *)
Definition is_request_of (sys : string) (ms : list message) : bool :=
  match ms with
  | m :: _ => String.eqb (content m) sys
  | [] => false
  end.


(** The verdict recorded in a validation result, false when there is
    none. *)
Definition verdict_of (r : validation_result) : bool :=
  match Py.getitem (validation r) "valid" with
  | Ok v => Py.truthy v
  | Raise _ => false
  end.



(** Completions used in the examples: a false verdict as a JSON object,
    and an object that has a reason but no verdict. *)
Definition verdict_false_text : string :=
  "{" +s+ dq +s+ "valid" +s+ dq +s+ ": false}".

Definition reason_only_text : string :=
  "{" +s+ dq +s+ "reason" +s+ dq +s+ ": " +s+ dq +s+ "unclear" +s+ dq +s+ "}".

(** A question dictionary after the explanation repair. *)
Definition with_explanation `{PyLib} (d : list (string * value)) : list (string * value) :=
  match Py.dict_lookup "explanation" d with
  | Some e =>
      if Py.truthy e then d
      else Py.dict_set "explanation" (VStr (synthesized_explanation d)) d
  | None => Py.dict_set "explanation" (VStr (synthesized_explanation d)) d
  end.

(** A question dictionary after the choices repair. *)
Definition with_choices (d : list (string * value)) : list (string * value) :=
  match Py.dict_lookup "choices" d with
  | Some (VList _) => d
  | _ => Py.dict_set "choices" placeholder_choices d
  end.

(** The schema of the specification: exactly four choices, and a correct
    label among A, B, C and D. *)
Definition four_choices (q : value) : bool :=
  match q with
  | VDict d =>
      match Py.dict_lookup "choices" d with
      | Some (VList [_; _; _; _]) => true
      | _ => false
      end
  | _ => false
  end.

Definition valid_label (q : value) : bool :=
  match q with
  | VDict d =>
      match Py.dict_lookup "correct" d with
      | Some (VStr s) =>
          String.eqb s "A" || String.eqb s "B" || String.eqb s "C" || String.eqb s "D"
      | _ => false
      end
  | _ => false
  end.

(** A completion with one question that has neither choices nor a valid
    label, and one whose question has three choices. *)
Definition bare_question_text : string :=
  "[{" +s+ dq +s+ "question" +s+ dq +s+ ": " +s+ dq +s+ "Q1" +s+ dq +s+ ", "
  +s+ dq +s+ "correct" +s+ dq +s+ ": " +s+ dq +s+ "Z" +s+ dq +s+ "}]".

Definition three_choices_text : string :=
  "[{" +s+ dq +s+ "choices" +s+ dq +s+ ": [1, 2, 3], "
  +s+ dq +s+ "correct" +s+ dq +s+ ": " +s+ dq +s+ "A" +s+ dq +s+ "}]".

(** The candidate belongs to [book]: [meta.get('bookId') == book_id]. *)
Definition matches_book (book : doc_id) (c : retrieved) : bool :=
  match Py.get (r_meta c) "bookId" VNone with
  | Ok b => DocId.eqb_value b book
  | Raise _ => false
  end.

(** The selection the specification describes: the candidates of the
    requested document, or all candidates when there is none. *)
Definition spec_selection (book : doc_id) (resp : query_result) : list retrieved :=
  match filter (matches_book book) (candidates resp) with
  | [] => candidates resp
  | c :: sel => c :: sel
  end.

(** A store that answers every query with one chunk of book 1 and one of
    book 2. *)
Definition two_books : raw_results :=
  mkRaw [[VStr "doc one"; VStr "doc two"]]
        [[VDict [("bookId", VNum 1); ("position", VNum 0); ("summary", VStr "s1")];
          VDict [("bookId", VNum 2); ("position", VNum 3); ("summary", VStr "s2")]]]
        [[VStr "1-0"; VStr "2-3"]]
        (Some [[(1 # 4)%Q; (1 # 2)%Q]]).

Definition two_books_result : query_result :=
  mkQueryResult (first_or_empty (raw_documents two_books))
                (first_or_empty (raw_metadatas two_books))
                (first_or_empty (raw_ids two_books))
                [(1 # 4)%Q; (1 # 2)%Q].

(** A completion with one complete question. *)
Definition one_question_text : string :=
  "[{" +s+ dq +s+ "question" +s+ dq +s+ ": " +s+ dq +s+ "Q1" +s+ dq +s+ ", "
  +s+ dq +s+ "choices" +s+ dq +s+ ": [1, 2, 3, 4], "
  +s+ dq +s+ "correct" +s+ dq +s+ ": " +s+ dq +s+ "A" +s+ dq +s+ ", "
  +s+ dq +s+ "explanation" +s+ dq +s+ ": " +s+ dq +s+ "because" +s+ dq +s+ "}]".

(* ================================================================== *)
(** ** The vector store service: [chroma_service.py] *)
(* ================================================================== *)

(** What [collection.get(where=...)] returns: nothing, or a dictionary
    whose ['ids'] entry may be absent. *)
Record get_result : Type := mkGet { got_ids : option (list string) }.

(** The client library of the vector store.
    - [new_client]: [chromadb.PersistentClient(path=CHROMA_PERSIST_DIR)];
    - [get_or_create_collection]: the call of that name on the client;
    - [coll_add ids documents metadatas]: [collection.add(...)];
    - [coll_count]: [collection.count()];
    - [coll_get book]: [collection.get(where={"bookId": book})];
    - [coll_delete ids]: [collection.delete(ids=ids)];
    - [coll_peek n]: the ['ids'] of [collection.peek(limit=n)], when the
      sample is true;
    - [delete_collection]: [client.delete_collection(name=...)]. *)
Class ChromaClient (W : Type) : Type := {
  new_client : W -> outcome unit * W;
  get_or_create_collection : W -> outcome unit * W;
  coll_add : list string -> list string -> list chunk_metadata -> W -> outcome unit * W;
  coll_count : W -> outcome nat * W;
  coll_get : doc_id -> W -> outcome (option get_result) * W;
  coll_delete : list string -> W -> outcome unit * W;
  coll_peek : nat -> W -> outcome (option (list string)) * W;
  delete_collection : W -> outcome unit * W
}.

(** The module with its two globals: [_client] and [_collection] hold a
    handle or [None]; [outside] is the world of the client library. *)
Record globals (W : Type) : Type := mkGlobals {
  has_client : bool;
  has_collection : bool;
  outside : W
}.

Arguments mkGlobals {W} has_client has_collection outside.
Arguments has_client {W} g.
Arguments has_collection {W} g.
Arguments outside {W} g.

(** The statistics of [get_collection_stats]. *)
Record collection_stats : Type := mkStats {
  total_chunks : nat;
  sample_ids : list string;
  stats_error : option exn
}.

Definition connection_error : exn :=
  ServiceError "ChromaDB collection failed to initialize. Check logs for model loading errors.".

Section Chroma.

Context {W : Type} `{ChromaClient W}.

Local Open Scope agent_scope.

Local Abbreviation Store := (M (globals W)).

(** A call of the client library, which leaves the globals alone. *)
Definition client_call {A} (f : W -> outcome A * W) : Store A :=
  service (fun g : globals W =>
             let (r, w) := f (outside g) in
             (r, mkGlobals (has_client g) (has_collection g) w)).

(** An assignment to [_client] or [_collection]. *)
Definition set_client (b : bool) : Store unit :=
  fun st =>
    (Ok tt,
     mkState (mkGlobals b (has_collection (world st)) (outside (world st))) (calls st)).

Definition set_collection (b : bool) : Store unit :=
  fun st =>
    (Ok tt,
     mkState (mkGlobals (has_client (world st)) b (outside (world st))) (calls st)).

Definition collection_is_none : Store bool :=
  fun st => (Ok (negb (has_collection (world st))), st).

Definition client_is_none : Store bool :=
  fun st => (Ok (negb (has_client (world st))), st).

(** [initialize_chroma()]. *)
Definition initialize_chroma : Store unit :=
  none <- collection_is_none ;;
  if none then
    catch
      (client_call new_client ;;;
       set_client true ;;;
       client_call get_or_create_collection ;;;
       set_collection true)
      (fun e => set_client false ;;; set_collection false ;;; raise e)
  else ret tt.

(** [_get_collection()]. *)
Definition get_collection_handle : Store unit :=
  none <- collection_is_none ;;
  (if none then initialize_chroma else ret tt) ;;;
  still_none <- collection_is_none ;;
  if still_none then raise connection_error else ret tt.

(** [add_chunks(book_id, chunks)]; the result is the number it returns. *)
Definition add_chunks (book_id : doc_id) (cs : list indexed_chunk) : Store nat :=
  get_collection_handle ;;;
  match cs with
  | [] => ret 0
  | _ :: _ =>
      let the_ids := map chunk_id cs in
      let docs := map chunk_body cs in
      let metas := map metadata cs in
      catch
        (client_call (coll_add the_ids docs metas) ;;;
         count <- client_call coll_count ;;
         ret (List.length cs))
        (fun e => raise e)
  end.

(** [check_chunks_exist(book_id)]. *)
Definition check_chunks_exist (book_id : doc_id) : Store nat :=
  get_collection_handle ;;;
  catch
    (results <- client_call (coll_get book_id) ;;
     ret (match results with
          | Some (mkGet (Some found)) => List.length found
          | _ => 0
          end))
    (fun _ => ret 0).

(** [results['ids']] in [delete_book_chunks]. *)
Definition ids_of (results : option get_result) : outcome (list string) :=
  match results with
  | None => Raise TypeError
  | Some (mkGet None) => Raise (KeyError "ids")
  | Some (mkGet (Some found)) => Ok found
  end.

(** [delete_book_chunks(book_id)]. *)
Definition delete_book_chunks (book_id : doc_id) : Store unit :=
  get_collection_handle ;;;
  catch
    (results <- client_call (coll_get book_id) ;;
     found <- lift (ids_of results) ;;
     match found with
     | [] => ret tt
     | _ :: _ => client_call (coll_delete found)
     end)
    (fun _ => ret tt).

(** [get_collection_stats()]. *)
Definition get_collection_stats : Store collection_stats :=
  get_collection_handle ;;;
  catch
    (count <- client_call coll_count ;;
     sample <- client_call (coll_peek 3) ;;
     ret (mkStats count (match sample with Some l => l | None => [] end) None))
    (fun e => ret (mkStats 0 [] (Some e))).

(** [clear_collection()]. *)
Definition clear_collection : Store unit :=
  none <- client_is_none ;;
  (if none then initialize_chroma else ret tt) ;;;
  still_none <- client_is_none ;;
  if still_none then ret tt
  else
    catch
      (client_call delete_collection ;;;
       client_call get_or_create_collection ;;;
       set_collection true)
      (fun e => raise e).

End Chroma.

(* ================================================================== *)
(** ** [run_curriculum_agent] as a whole *)
(* ================================================================== *)

(** One entry of ["chunks_summary"]. *)
Record summary_entry : Type := mkEntry {
  entry_position : nat;
  entry_summary : string;
  entry_key_concepts : value
}.

Record curriculum_result : Type := mkCurriculum {
  curriculum_book : doc_id;
  inserted_chunks : nat;
  chunks_summary : list summary_entry
}.

(** The entry of one stored chunk; [c["metadata"]["summary"][:100] + "..."]
    needs the summary to be a string. *)
Definition summary_entry_of (c : indexed_chunk) : outcome summary_entry :=
  match summary (metadata c) with
  | VStr s =>
      Ok {| entry_position := meta_position (metadata c);
            entry_summary := PyStr.take 100 s +s+ "...";
            entry_key_concepts := key_concepts (metadata c) |}
  | _ => Raise TypeError
  end.

Section Curriculum.

Context {W : Type} `{ChromaClient W} `{Services (globals W)} `{PyLib}.

Local Open Scope agent_scope.

Definition run_curriculum_agent (book_id : doc_id) (document : string) (chunk_size : Z)
  : M (globals W) curriculum_result :=
  if negb (PyStr.nonempty document) || negb (DocId.truthy book_id)
  then raise (ValueError "book_id and text are required")
  else
    let cs := chunk_text document chunk_size in
    db_chunks <- summarize_chunks cs book_id ;;
    add_chunks book_id db_chunks ;;;
    entries <- lift (omap summary_entry_of (firstn 10 db_chunks)) ;;
    let result :=
      {| curriculum_book := book_id;
         inserted_chunks := List.length db_chunks;
         chunks_summary := entries |} in
    save_agent_output "curriculum_agent" ;;;
    ret result.

End Curriculum.

(** A scripted world with an in-memory vector store: the ids stored so far
    with their books, and a switch that makes every call of the client
    library fail. *)
Module Shelf.

Record world : Type := mkShelf {
  base : Script.world;
  broken : bool;
  stored : list (string * doc_id)
}.

Definition guarded {A} (w : world) (r : A) : outcome A :=
  if broken w then Raise (ServiceError "store down") else Ok r.

Definition same_book (b b' : doc_id) : bool :=
  match b, b' with
  | IdInt z, IdInt z' => (z =? z')%Z
  | IdStr s, IdStr s' => String.eqb s s'
  | _, _ => false
  end.

Definition ids_for (b : doc_id) (w : world) : list string :=
  map fst (filter (fun e => same_book (snd e) b) (stored w)).

Definition member (x : string) (l : list string) : bool :=
  existsb (String.eqb x) l.

#[global] Instance client : ChromaClient world := {|
  new_client := fun w => (guarded w tt, w);
  get_or_create_collection := fun w => (guarded w tt, w);
  coll_add := fun the_ids _ metas w =>
    (guarded w tt,
     if broken w then w
     else mkShelf (base w) (broken w)
                  (stored w ++ combine the_ids (map bookId metas)));
  coll_count := fun w => (guarded w (List.length (stored w)), w);
  coll_get := fun b w => (guarded w (Some (mkGet (Some (ids_for b w)))), w);
  coll_delete := fun the_ids w =>
    (guarded w tt,
     if broken w then w
     else mkShelf (base w) (broken w)
                  (filter (fun e => negb (member (fst e) the_ids)) (stored w)));
  coll_peek := fun n w => (guarded w (Some (firstn n (map fst (stored w)))), w);
  delete_collection := fun w =>
    (guarded w tt, if broken w then w else mkShelf (base w) (broken w) [])
|}.

(** A service of the scripted world, run on the base of a shelf. *)
Definition on_base {A} (f : Script.world -> A * Script.world)
  : globals world -> A * globals world :=
  fun g =>
    let (r, b) := f (base (outside g)) in
    (r, mkGlobals (has_client g) (has_collection g)
                  (mkShelf b (broken (outside g)) (stored (outside g)))).

#[global] Instance services : Services (globals world) := {|
  chat_create := fun m ms mt t => on_base (chat_create m ms mt t);
  get_collection := on_base get_collection;
  collection_query := fun q n b => on_base (collection_query q n b);
  find_by_external_id := fun k => on_base (find_by_external_id k);
  find_by_student := fun k => on_base (find_by_student k);
  write_output := fun a => on_base (write_output a);
  uuid4 := on_base uuid4;
  schedule := fun n => on_base (schedule n)
|}.

(** The module before its first use: no client, no collection. *)
Definition fresh (replies : list (outcome (option string))) (is_broken : bool)
  : state (globals world) :=
  mkState (mkGlobals false false
             (mkShelf (Script.simple replies (Raise (ServiceError "down")))
                      is_broken []))
          [].

End Shelf.

(** A client library that answers a given number of calls and fails from
    then on. *)
Module Fuse.

Definition world : Type := nat.

Definition spend {A} (r : A) (w : world) : outcome A * world :=
  match w with
  | O => (Raise (ServiceError "store down"), O)
  | S w' => (Ok r, w')
  end.

#[global] Instance client : ChromaClient world := {|
  new_client := spend tt;
  get_or_create_collection := spend tt;
  coll_add := fun _ _ _ => spend tt;
  coll_count := spend 0;
  coll_get := fun _ => spend (Some (mkGet (Some [])));
  coll_delete := fun _ => spend tt;
  coll_peek := fun _ => spend (Some []);
  delete_collection := spend tt
|}.

(** The module with [budget] calls left, before or after its first use. *)
Definition start (ready : bool) (budget : nat) : state (globals world) :=
  mkState (mkGlobals ready ready budget) [].

End Fuse.


(** [isinstance(v, str)]. *)
Definition is_string (v : value) : bool :=
  match v with
  | VStr _ => true
  | _ => false
  end.


(** A completion of the summarizer whose summary is a number. *)
Definition numeric_summary_text : string :=
  "{" +s+ dq +s+ "summary" +s+ dq +s+ ": 5}".


(* ================================================================== *)
(** ** [app.py]: the questions of the saved quiz *)
(* ================================================================== *)

(** [if result.get('fixed_question')]. *)
Definition fix_usable (r : validation_result) : bool := Py.truthy (fixed_question r).

(** The first loop of step 7 of [generate_quiz]: the fixed question when
    there is a true one, else the question when its verdict is true. *)
Fixpoint first_pass (results : list validation_result) (final_questions : list value)
  : outcome (list value) :=
  match results with
  | [] => Ok final_questions
  | result :: rest =>
      if fix_usable result
      then first_pass rest (final_questions ++ [fixed_question result])
      else
        obind (verdict result) (fun valid =>
        first_pass rest
          (if valid then final_questions ++ [v_question result] else final_questions))
  end.

(** The second loop: questions with a false verdict and no true fix are
    appended until there are [n_questions]. *)
Fixpoint fill_up (n_questions : Z) (results : list validation_result)
         (final_questions : list value) : outcome (list value) :=
  match results with
  | [] => Ok final_questions
  | result :: rest =>
      if (Z.of_nat (List.length final_questions) >=? n_questions)%Z
      then Ok final_questions
      else
        obind (verdict result) (fun valid =>
        if negb valid && negb (fix_usable result)
        then fill_up n_questions rest (final_questions ++ [v_question result])
        else fill_up n_questions rest final_questions)
  end.

(** Lines 305-318 of [generate_quiz]. *)
Definition final_questions (n_questions : Z) (results : list validation_result)
  : outcome (list value) :=
  obind (first_pass results []) (fun final =>
  if (Z.of_nat (List.length final) <? n_questions)%Z
  then fill_up n_questions results final
  else Ok final).

(** A result passes when it has a true fix or a true verdict; what it
    contributes to the quiz. *)
Definition passes (r : validation_result) : bool := fix_usable r || verdict_of r.

Definition contribution (r : validation_result) : value :=
  if fix_usable r then fixed_question r else v_question r.


(* ================================================================== *)
(** ** [firebase_service.py]: the history of a student *)
(* ================================================================== *)

(** An entry of [students/{id}/history] as [record_quiz_attempt] writes it:
    integer counts; a count may be absent. *)
Record attempt : Type := mkAttempt {
  trueCount : option Z;
  falseCount : option Z
}.

(** An entry as [get_student_responses] returns it: the stored entry with
    four more keys. *)
Record student_response : Type := mkStudentResponse {
  stored_attempt : attempt;
  response_id : string;
  is_correct : bool;
  response_time_ms : Q;
  response_hints_used : Q
}.

(** [attempt_data.get(key, 0)]. *)
Definition count_or_zero (x : option Z) : Z :=
  match x with
  | Some z => z
  | None => 0%Z
  end.

(** [get_student_responses(student_id)], given what the database holds
    under the history of the student ([None] when there is nothing). *)
Definition get_student_responses (history_data : option (list (string * attempt)))
  : list student_response :=
  match history_data with
  | None => []
  | Some [] => []
  | Some items =>
      map (fun item : string * attempt =>
             let (attempt_id, attempt_data) := item in
             {| stored_attempt := attempt_data;
                response_id := attempt_id;
                is_correct :=
                  (count_or_zero (trueCount attempt_data)
                   >? count_or_zero (falseCount attempt_data))%Z;
                response_time_ms := 0%Q;
                response_hints_used := 0%Q |})
          items
  end.

(** What [run_adaptive_agent] reads of such an entry: [r.get('time_ms', 0)]
    and [r.get('hints_used', 0)]. *)
Definition as_response (r : student_response) : response :=
  {| time_ms := Some (response_time_ms r);
     hints_used := Some (response_hints_used r) |}.


(** The string holds no character other than whitespace. *)
Fixpoint blank (s : string) : bool :=
  match s with
  | EmptyString => true
  | String c s' => PyStr.is_space c && blank s'
  end.


(* ================================================================== *)
(** ** [app.py]: the upload check *)
(* ================================================================== *)

(** [c.lower()] for a character below 256: the letters A-Z and the
    capital letters of Latin-1 (192-222 without the multiplication sign)
    move up by 32. *)
Definition lower_char (c : ascii) : ascii :=
  let n := nat_of_ascii c in
  if ((65 <=? n) && (n <=? 90))
     || ((192 <=? n) && (n <=? 222) && negb (n =? 215))
  then ascii_of_nat (n + 32)
  else c.

(** [s.lower()]. *)
Fixpoint lower (s : string) : string :=
  match s with
  | EmptyString => EmptyString
  | String c s' => String (lower_char c) (lower s')
  end.

(** [s.rsplit(c, 1)]. *)
Definition rsplit_once (c : ascii) (s : string) : list string :=
  let i := PyStr.rfind c s in
  if (i <? 0)%Z then [s]
  else [PyStr.take i s; PyStr.slice (i + 1) (PyStr.len s) s].

Definition ALLOWED_EXTENSIONS : list string := ["pdf"].

(** [allowed_file(filename)]. *)
Definition allowed_file (filename : string) : outcome bool :=
  if occurs "." filename then
    match nth_error (rsplit_once "." filename) 1 with
    | Some ext => Ok (existsb (String.eqb (lower ext)) ALLOWED_EXTENSIONS)
    | None => Raise IndexError
    end
  else Ok false.

(** The ways to write the extension. *)
Definition pdf_spellings : list string :=
  ["pdf"; "pdF"; "pDf"; "pDF"; "Pdf"; "PdF"; "PDf"; "PDF"].


(** A true verdict as a JSON object. *)
Definition verdict_true_text : string :=
  "{" +s+ dq +s+ "valid" +s+ dq +s+ ": true}".

(** A world whose services always answer: a false verdict to a validation
    request, a list of one question to any other request; the store is
    down, so that every context is empty. *)
Module Steady.

Definition world : Type := unit.

Definition answer (ms : list message) : option string :=
  Some (if is_request_of validator_system ms then verdict_false_text
        else one_question_text).

#[global] Instance services : Services world := {|
  chat_create := fun _ ms _ _ w => (Ok (answer ms), w);
  get_collection := fun w => (Ok tt, w);
  collection_query := fun _ _ _ w => (Raise (ServiceError "down"), w);
  find_by_external_id := fun _ w => (Ok None, w);
  find_by_student := fun _ w => (Ok [], w);
  write_output := fun _ w => (Ok tt, w);
  uuid4 := fun w => ("quiz-0", w);
  schedule := fun _ w => (0, w)
|}.

Definition start : state world := mkState tt [].

End Steady.


(** The times and the hints of a history as [run_adaptive_agent] reads
    them, an absent field counting for 0, and the mean of a list of
    numbers. *)
Definition times_of (history : list response) : list Q :=
  map (fun r => or_zero (time_ms r)) history.

Definition hints_of (history : list response) : list Q :=
  map (fun r => or_zero (hints_used r)) history.

Definition mean (xs : list Q) : Q :=
  (fold_right Qplus 0 xs / inject_Z (Z.of_nat (List.length xs)))%Q.

(** A history of two responses: 10000 ms without a hint, and 12000 ms with
    no record of hints. *)
Definition quick_history : list response :=
  [ {| time_ms := Some 10000%Q; hints_used := Some 0%Q |};
    {| time_ms := Some 12000%Q; hints_used := None |} ].

(** A scripted world with one student who has that history. *)
Definition quick_student_world : Script.world :=
  Script.mkWorld [] (Ok tt) (Raise (ServiceError "down"))
                 [("s1", mkStudent "s1")] [("s1", quick_history)] (Ok tt) 0 [].










(* ================================================================== *)
(** * Properties *)
(* ================================================================== *)

(* ================================================================== *)
(** ** Strings *)
(* ================================================================== *)

Module StrFacts.

Lemma append_assoc (a b c : string) : (a +s+ b) +s+ c = a +s+ (b +s+ c).
Proof. induction a as [|x a IH]; simpl; [reflexivity | now rewrite IH]. Qed.

Lemma append_empty_r (a : string) : a +s+ "" = a.
Proof. induction a as [|x a IH]; simpl; [reflexivity | now rewrite IH]. Qed.

Lemma length_append (a b : string) :
  String.length (a +s+ b) = String.length a + String.length b.
Proof. induction a as [|x a IH]; simpl; [reflexivity | now rewrite IH]. Qed.

Lemma nonempty_true (s : string) : PyStr.nonempty s = true <-> s <> "".
Proof. destruct s; simpl; split; congruence. Qed.

Lemma nonempty_false (s : string) : PyStr.nonempty s = false <-> s = "".
Proof. destruct s; simpl; split; congruence. Qed.

Lemma append_nonempty_l (a b : string) : a <> "" -> a +s+ b <> "".
Proof. destruct a; simpl; congruence. Qed.

(** Joining with a separator. *)
Lemma concat_snoc (sep : string) (g : list string) (p : string) :
  g <> [] ->
  String.concat sep (g ++ [p]) = String.concat sep g +s+ sep +s+ p.
Proof.
  induction g as [|x g IH]; [congruence|]. intros _.
  destruct g as [|y g].
  - reflexivity.
  - change (String.concat sep ((x :: y :: g) ++ [p]))
      with (x +s+ sep +s+ String.concat sep ((y :: g) ++ [p])).
    rewrite IH by congruence.
    change (String.concat sep (x :: y :: g))
      with (x +s+ sep +s+ String.concat sep (y :: g)).
    now rewrite !append_assoc.
Qed.

Lemma concat_app (sep : string) (g h : list string) :
  g <> [] -> h <> [] ->
  String.concat sep (g ++ h) = String.concat sep g +s+ sep +s+ String.concat sep h.
Proof.
  induction g as [|x g IH]; [congruence|]. intros _ Hh.
  destruct g as [|y g].
  - destruct h as [|z h]; [congruence | reflexivity].
  - change (String.concat sep ((x :: y :: g) ++ h))
      with (x +s+ sep +s+ String.concat sep ((y :: g) ++ h)).
    rewrite IH by congruence.
    change (String.concat sep (x :: y :: g))
      with (x +s+ sep +s+ String.concat sep (y :: g)).
    now rewrite !append_assoc.
Qed.

Lemma concat_nonempty (sep : string) (g : list string) :
  g <> [] -> Forall (fun p => p <> "") g -> String.concat sep g <> "".
Proof.
  destruct g as [|x g]; [congruence|]. intros _ H.
  inversion H as [|? ? Hx _]; subst.
  destruct g; simpl; [assumption | now apply append_nonempty_l].
Qed.


End StrFacts.

(* ================================================================== *)
(** ** The chunker *)
(* ================================================================== *)

Module ChunkerFacts.

Import StrFacts.

Lemma invariant_init (chunk_size : Z) : invariant chunk_size [] chunker_init.
Proof.
  apply Invariant with (groups := []) (open := []); simpl; auto.
Qed.

Lemma greedy_snoc (chunk_size : Z) (g : list string) (p : string) (l : list string) :
  (PyStr.len (join (g ++ [p])) > chunk_size)%Z ->
  forall gs,
    greedy chunk_size (gs ++ [g]) ->
    greedy chunk_size ((gs ++ [g]) ++ [p :: l]).
Proof.
  intros Hover. induction gs as [|h gs IH]; intros G.
  - simpl. auto.
  - destruct G as [Hh G]. split; [|now apply IH].
    destruct gs as [|r gs]; simpl in *; assumption.
Qed.

Lemma greedy_extend (chunk_size : Z) (g l : list string) :
  g <> [] ->
  forall gs,
    greedy chunk_size (gs ++ [g]) ->
    greedy chunk_size (gs ++ [g ++ l]).
Proof.
  intros Hg. induction gs as [|h gs IH]; intros G.
  - simpl. auto.
  - destruct G as [Hh G]. split; [|now apply IH].
    destruct gs as [|r gs]; simpl in *; [|assumption].
    destruct g as [|p g]; [congruence | assumption].
Qed.

Lemma must_emit_spec (chunk_size : Z) (cur para : string) :
  must_emit chunk_size cur para = true <->
  (PyStr.len (combined cur para) > chunk_size)%Z /\ cur <> "".
Proof.
  unfold must_emit. rewrite andb_true_iff, nonempty_true.
  rewrite Z.gtb_ltb, Z.ltb_lt. intuition lia.
Qed.

Lemma open_empty_iff (open : list string) :
  Forall (fun p => p <> "") open -> (join open = "" <-> open = []).
Proof.
  intros H. split.
  - intros E. destruct open as [|x o]; [reflexivity|].
    exfalso. eapply concat_nonempty; [| exact H | exact E]. congruence.
  - intros ->. reflexivity.
Qed.

Lemma invariant_step (chunk_size : Z) (seen : list string) (st : chunker) (para : string) :
  Forall (fun p => p <> "") seen ->
  invariant chunk_size seen st ->
  invariant chunk_size (seen ++ [para]) (chunk_step chunk_size st para).
Proof.
  intros Hne [groups open Hcov Htx Hgne Hgb Hcur Hob Hpos Hnext Hst Hgr].
  assert (Hopen_ne : Forall (fun p => p <> "") open).
  { rewrite <- Hcov in Hne. apply Forall_app in Hne. tauto. }
  unfold chunk_step.
  destruct (must_emit chunk_size (current st) para) eqn:E.
  - apply must_emit_spec in E. destruct E as [Hover Hc].
    assert (open <> []).
    { intros ->. apply Hc. rewrite Hcur. reflexivity. }
    assert (Hfull : (PyStr.len (join (open ++ [para])) > chunk_size)%Z).
    { unfold combined in Hover.
      rewrite (proj2 (nonempty_true (current st)) Hc) in Hover.
      unfold join. rewrite concat_snoc by assumption.
      rewrite Hcur in Hover. exact Hover. }
    apply Invariant with (groups := groups ++ [open]) (open := [para]); simpl.
    + rewrite List.concat_app. simpl. rewrite app_nil_r, <- Hcov.
      now rewrite <- app_assoc.
    + rewrite !map_app. simpl. now rewrite Htx, Hcur.
    + apply Forall_app. split; [assumption | constructor; auto].
    + apply Forall_app. split; [assumption|]. constructor; [|constructor].
      destruct Hob; [contradiction | assumption].
    + reflexivity.
    + right. left. reflexivity.
    + rewrite map_app, length_app, Hpos. simpl.
      rewrite seq_app. simpl. now rewrite Hnext.
    + rewrite length_app. simpl. lia.
    + discriminate.
    + now apply greedy_snoc.
  - apply Invariant with (groups := groups) (open := open ++ [para]); simpl;
      try assumption.
    + rewrite <- Hcov. now rewrite app_assoc.
    + unfold combined. destruct (PyStr.nonempty (current st)) eqn:N.
      * apply nonempty_true in N.
        assert (open <> []) by (intros ->; apply N; rewrite Hcur; reflexivity).
        unfold join. rewrite concat_snoc by assumption. now rewrite Hcur.
      * apply nonempty_false in N. rewrite Hcur in N.
        apply open_empty_iff in N; [|assumption]. subst open. reflexivity.
    + right. destruct (PyStr.nonempty (current st)) eqn:N.
      * right.
        assert (Hc : current st <> "") by now apply nonempty_true.
        assert (open <> []) by (intros ->; apply Hc; rewrite Hcur; reflexivity).
        destruct (Z_gt_le_dec (PyStr.len (combined (current st) para)) chunk_size) as [G|L].
        -- assert (must_emit chunk_size (current st) para = true)
             by (apply must_emit_spec; auto).
           congruence.
        -- unfold combined in L. rewrite N in L.
           unfold join in *. rewrite concat_snoc by assumption.
           now rewrite <- Hcur.
      * apply nonempty_false in N. rewrite Hcur in N.
        apply open_empty_iff in N; [|assumption]. subst open. left. reflexivity.
    + intros E'. destruct open; discriminate E'.
    + destruct open as [|p open'].
      * rewrite (Hst eq_refl). simpl. auto.
      * apply greedy_extend; [discriminate | assumption].
Qed.

Lemma invariant_fold (chunk_size : Z) (ps seen : list string) (st : chunker) :
  Forall (fun p => p <> "") seen ->
  Forall (fun p => p <> "") ps ->
  invariant chunk_size seen st ->
  invariant chunk_size (seen ++ ps) (fold_left (chunk_step chunk_size) ps st).
Proof.
  revert seen st. induction ps as [|p ps IH]; intros seen st Hs Hp Hinv.
  - now rewrite app_nil_r.
  - simpl. inversion Hp; subst.
    replace (seen ++ p :: ps) with ((seen ++ [p]) ++ ps)
      by (now rewrite <- app_assoc).
    apply IH; [apply Forall_app; split; auto | assumption |].
    now apply invariant_step.
Qed.

End ChunkerFacts.

Module SplitFacts.

Import StrFacts PyStr.


























Lemma paragraphs_nonempty (text : string) :
  Forall (fun p => p <> "") (paragraphs_of text).
Proof.
  unfold paragraphs_of. apply Forall_forall. intros p Hin.
  apply in_map_iff in Hin. destruct Hin as [x [<- Hx]].
  apply filter_In in Hx. destruct Hx as [_ Hx].
  now apply nonempty_true.
Qed.

End SplitFacts.

Module CoverFacts.

Import StrFacts ChunkerFacts.



(** The groups behind the chunks of a list of non-empty paragraphs. *)
Lemma chunk_groups (chunk_size : Z) (ps : list string) :
  Forall (fun p => p <> "") ps ->
  exists groups,
    List.concat groups = ps /\
    Forall (fun g => g <> []) groups /\
    Forall (bounded chunk_size) groups /\
    map text (chunk_paragraphs chunk_size ps) = map join groups /\
    map position (chunk_paragraphs chunk_size ps)
    = seq 0 (List.length (chunk_paragraphs chunk_size ps)) /\
    greedy chunk_size groups.
Proof.
  intros Hps.
  destruct (invariant_fold chunk_size ps [] chunker_init (Forall_nil _) Hps
              (invariant_init chunk_size))
    as [groups open Hcov Htx Hgne Hgb Hcur Hob Hpos Hnext Hst Hgr].
  simpl in Hcov. unfold chunk_paragraphs, chunker_flush.
  set (st := fold_left (chunk_step chunk_size) ps chunker_init) in *.
  assert (Hopen_ne : Forall (fun p => p <> "") open).
  { rewrite <- Hcov in Hps. apply Forall_app in Hps. tauto. }
  destruct (PyStr.nonempty (current st)) eqn:N.
  - apply nonempty_true in N.
    assert (open <> []) by (intros ->; apply N; rewrite Hcur; reflexivity).
    exists (groups ++ [open]). repeat split.
    + rewrite List.concat_app. simpl. now rewrite app_nil_r.
    + apply Forall_app. split; [assumption | constructor; auto].
    + apply Forall_app. split; [assumption|]. constructor; [|constructor].
      destruct Hob; [contradiction | assumption].
    + rewrite !map_app. simpl. now rewrite Htx, Hcur.
    + rewrite map_app, length_app, Hpos. simpl.
      rewrite seq_app. simpl. now rewrite Hnext.
    + exact Hgr.
  - apply nonempty_false in N. rewrite Hcur in N.
    apply open_empty_iff in N; [|assumption]. subst open.
    exists groups. rewrite app_nil_r in Hcov. repeat split; try assumption.
    rewrite (Hst eq_refl). exact I.
Qed.

End CoverFacts.



(* ================================================================== *)
(** ** The monad *)
(* ================================================================== *)

Module MonadFacts.

Section Laws.

Context {World : Type}.

Lemma bind_ok {A B} (m : M World A) (k : A -> M World B) st b st' :
  bind m k st = (Ok b, st') ->
  exists a st1, m st = (Ok a, st1) /\ k a st1 = (Ok b, st').
Proof.
  unfold bind. destruct (m st) as [[a|e] st1]; [eauto | discriminate].
Qed.

Lemma lift_ok {A} (o : outcome A) (st : state World) a st' :
  lift o st = (Ok a, st') -> o = Ok a /\ st' = st.
Proof. unfold lift. intros E. inversion E. auto. Qed.

Lemma ret_ok {A} (x : A) (st : state World) a st' :
  ret x st = (Ok a, st') -> a = x /\ st' = st.
Proof. unfold ret. intros E. inversion E. auto. Qed.

End Laws.

End MonadFacts.

(** Peels the binds of a successful run [H : m st = (Ok r, st')]. *)
Ltac peel H :=
  let a := fresh "a" in
  let s := fresh "st" in
  let E := fresh "E" in
  apply MonadFacts.bind_ok in H; destruct H as [a [s [E H]]].

(* ================================================================== *)
(** ** The difficulty policy *)
(* ================================================================== *)

Module PolicyFacts.

Lemma Qltb_true (x y : Q) : Qltb x y = true <-> (x < y)%Q.
Proof.
  unfold Qltb. rewrite negb_true_iff. split.
  - intros E. apply Qnot_le_lt. intros L.
    apply Qle_bool_iff in L. congruence.
  - intros L. destruct (Qle_bool y x) eqn:E; [|reflexivity].
    apply Qle_bool_iff in E. apply Qlt_not_le in L. contradiction.
Qed.

Lemma Qltb_false (x y : Q) : Qltb x y = false <-> (y <= x)%Q.
Proof.
  unfold Qltb. rewrite negb_false_iff. apply Qle_bool_iff.
Qed.

Lemma assess_cases (t h : Q) :
  ((t < 15000 /\ h < 0.5)%Q /\ assess t h = "increase difficulty") \/
  (~ (t < 15000 /\ h < 0.5)%Q /\ (30000 < t \/ 1 < h)%Q
   /\ assess t h = "decrease difficulty") \/
  (~ (t < 15000 /\ h < 0.5)%Q /\ ~ (30000 < t \/ 1 < h)%Q
   /\ assess t h = "maintain difficulty").
Proof.
  unfold assess.
  destruct (Qltb t 15000) eqn:T1; destruct (Qltb h 0.5) eqn:H1;
    destruct (Qltb 30000 t) eqn:T2; destruct (Qltb 1.0 h) eqn:H2; simpl;
    repeat match goal with
           | E : Qltb _ _ = true |- _ => apply Qltb_true in E
           | E : Qltb _ _ = false |- _ => apply Qltb_false in E
           end;
    first [ left; split; [split; lra | reflexivity]
          | right; left; split;
            [intros [? ?]; lra | split; [ (left; lra) || (right; lra) | reflexivity]]
          | right; right; split;
            [intros [? ?]; lra | split; [intros [?|?]; lra | reflexivity]] ].
Qed.

Lemma assess_compat (t t' h h' : Q) :
  (t == t')%Q -> (h == h')%Q -> assess t h = assess t' h'.
Proof.
  intros Ht Hh. unfold assess, Qltb.
  assert (E1 : Qle_bool 15000 t = Qle_bool 15000 t') by (now rewrite Ht).
  assert (E2 : Qle_bool 0.5 h = Qle_bool 0.5 h') by (now rewrite Hh).
  assert (E3 : Qle_bool t 30000 = Qle_bool t' 30000) by (now rewrite Ht).
  assert (E4 : Qle_bool h 1.0 = Qle_bool h' 1.0) by (now rewrite Hh).
  now rewrite E1, E2, E3, E4.
Qed.

Lemma sum_exact (add : Q -> Q -> Q) :
  (forall x y, add x y = (x + y)%Q) ->
  forall xs a, (fold_left add xs a == a + fold_right Qplus 0 xs)%Q.
Proof.
  intros Hadd. induction xs as [|x xs IH]; intros a; simpl.
  - lra.
  - rewrite IH, Hadd. lra.
Qed.

End PolicyFacts.

Section Policy.

Context {World : Type} `{Services World} `{PyLib}.

(** C3. The directive is a function of the two averages alone: it is
    "increase difficulty" exactly when the average time is below 15000 and
    the average hints below 0.5, "decrease difficulty" exactly when the
    average time is above 30000 or the average hints above 1.0, and
    "maintain difficulty" exactly otherwise. An empty history and an
    unknown student give the neutral averages 20000 and 0.5, whose
    directive is "maintain difficulty"; the three sample profiles give
    increase, decrease and maintain; and the directive that
    [run_adaptive_agent] returns is the policy applied to the averages it
    computed. For a history that is not empty these averages are the sum of
    the times and the sum of the hints of its entries, an absent field
    counting for 0, each divided by the number of entries: with an exact
    addition and division they are the means of the times and of the
    hints, and the directive of a student with such a history is the policy
    applied to these two means. *)
Theorem difficulty_policy :
  (forall t h : Q,
      (assess t h = "increase difficulty" <-> (t < 15000 /\ h < 0.5)%Q) /\
      (assess t h = "decrease difficulty" <-> (30000 < t \/ 1 < h)%Q) /\
      (assess t h = "maintain difficulty" <->
       ~ (t < 15000 /\ h < 0.5)%Q /\ ~ (30000 < t \/ 1 < h)%Q)) /\
  history_profile [] = (20000%Q, 0.5%Q) /\
  (forall id st w,
      find_by_external_id id (world st) = (Ok None, w) ->
      performance_profile id st = (Ok (20000%Q, 0.5%Q), mkState w (calls st))) /\
  (forall id st s w w',
      find_by_external_id id (world st) = (Ok (Some s), w) ->
      find_by_student (student_id s) w = (Ok [], w') ->
      performance_profile id st = (Ok (20000%Q, 0.5%Q), mkState w' (calls st))) /\
  assess 20000 0.5 = "maintain difficulty" /\
  assess 10000 0.2 = "increase difficulty" /\
  assess 35000 0 = "decrease difficulty" /\
  (forall id book topic n st r st',
      run_adaptive_agent id book topic n st = (Ok r, st') ->
      exists t h st1,
        performance_profile id st = (Ok (t, h), st1) /\
        difficulty_hint r = assess t h) /\
  (forall r l,
      history_profile (r :: l)
      = (num_div (fold_left num_add (times_of (r :: l)) 0%Q)
                 (inject_Z (Z.of_nat (List.length (r :: l)))),
         num_div (fold_left num_add (hints_of (r :: l)) 0%Q)
                 (inject_Z (Z.of_nat (List.length (r :: l)))))) /\
  (forall id st s w history w',
      find_by_external_id id (world st) = (Ok (Some s), w) ->
      find_by_student (student_id s) w = (Ok history, w') ->
      performance_profile id st
      = (Ok (history_profile history), mkState w' (calls st))) /\
  (forall id book topic n st s w history w' r st',
      find_by_external_id id (world st) = (Ok (Some s), w) ->
      find_by_student (student_id s) w = (Ok history, w') ->
      run_adaptive_agent id book topic n st = (Ok r, st') ->
      difficulty_hint r
      = assess (fst (history_profile history)) (snd (history_profile history))) /\
  ((forall x y, num_add x y = (x + y)%Q) ->
   (forall x y, num_div x y = (x / y)%Q) ->
   forall history,
     history <> [] ->
     (fst (history_profile history) == mean (times_of history))%Q /\
     (snd (history_profile history) == mean (hints_of history))%Q /\
     assess (fst (history_profile history)) (snd (history_profile history))
     = assess (mean (times_of history)) (mean (hints_of history))).
Proof.
  repeat apply conj.
  - intros t h.
    destruct (PolicyFacts.assess_cases t h) as [[C E]|[[N [C E]]|[N [C E]]]];
      rewrite E; repeat split; intros; try discriminate; try reflexivity;
      try tauto; try (exfalso; intuition lra).
  - reflexivity.
  - intros id st w E. unfold performance_profile, bind, service.
    rewrite E. reflexivity.
  - intros id st s w w' E1 E2. unfold performance_profile, bind, service.
    rewrite E1. simpl. rewrite E2. reflexivity.
  - reflexivity.
  - reflexivity.
  - reflexivity.
  - intros id book topic n st r st' Hrun.
    unfold run_adaptive_agent in Hrun.
    peel Hrun. destruct a as [t h].
    exists t, h, st0. split; [assumption|].
    repeat peel Hrun.
    apply MonadFacts.ret_ok in Hrun. destruct Hrun as [-> _]. reflexivity.
  - reflexivity.
  - intros id st s w history w' E1 E2. unfold performance_profile, bind, service.
    rewrite E1. simpl. rewrite E2. reflexivity.
  - intros id book topic n st s w history w' r st' E1 E2 Hrun.
    assert (Ep : performance_profile id st
                 = (Ok (history_profile history), mkState w' (calls st))).
    { unfold performance_profile, bind, service. rewrite E1. simpl. rewrite E2.
      reflexivity. }
    unfold run_adaptive_agent in Hrun.
    peel Hrun. rewrite Ep in E. injection E as <- <-.
    destruct (history_profile history) as [t h].
    repeat peel Hrun.
    apply MonadFacts.ret_ok in Hrun. destruct Hrun as [-> _]. reflexivity.
  - intros Hadd Hdiv history Hne.
    destruct history as [|r l]; [congruence|].
    assert (Ht : (fst (history_profile (r :: l)) == mean (times_of (r :: l)))%Q).
    { unfold history_profile, py_sum, mean. cbn [fst]. rewrite Hdiv.
      fold (times_of (r :: l)).
      rewrite (PolicyFacts.sum_exact num_add Hadd (times_of (r :: l)) 0).
      unfold times_of. rewrite length_map. rewrite Qplus_0_l. reflexivity. }
    assert (Hh : (snd (history_profile (r :: l)) == mean (hints_of (r :: l)))%Q).
    { unfold history_profile, py_sum, mean. cbn [snd]. rewrite Hdiv.
      fold (hints_of (r :: l)).
      rewrite (PolicyFacts.sum_exact num_add Hadd (hints_of (r :: l)) 0).
      unfold hints_of. rewrite length_map. rewrite Qplus_0_l. reflexivity. }
    split; [exact Ht|]. split; [exact Hh|].
    now apply PolicyFacts.assess_compat.
Qed.

End Policy.

(** The policy in a scripted world with one student, whose history has
    two responses: the averages are 11000 ms and no hint, and the directive
    is to increase the difficulty. *)
Lemma difficulty_policy_witness :
  performance_profile "s1" (Script.start quick_student_world)
  = (Ok (history_profile quick_history), Script.start quick_student_world) /\
  (fst (history_profile quick_history) == 11000)%Q /\
  (snd (history_profile quick_history) == 0)%Q /\
  assess (fst (history_profile quick_history)) (snd (history_profile quick_history))
  = "increase difficulty".
Proof.
  destruct (@difficulty_policy Script.world Script.services ExampleLib.lib)
    as [_ [_ [_ [_ [_ [_ [_ [_ [_ [Hknown [_ Hmean]]]]]]]]]]].
  split.
  - apply (Hknown "s1" (Script.start quick_student_world) (mkStudent "s1")
                  quick_student_world quick_history quick_student_world);
      reflexivity.
  - destruct (Hmean (fun x y => eq_refl) (fun x y => eq_refl) quick_history)
      as [Ht [Hh Ha]]; [discriminate|].
    split; [rewrite Ht; reflexivity|].
    split; [rewrite Hh; reflexivity|].
    rewrite Ha. reflexivity.
Defined.

(* ================================================================== *)
(** ** Bracket extraction *)
(* ================================================================== *)

Module BracketFacts.

Import StrFacts.

Lemma find_absent (c : ascii) (s : string) :
  occurs c s = false -> PyStr.find c s = (-1)%Z.
Proof.
  induction s as [|d s IH]; simpl; [reflexivity|].
  intros E. apply orb_false_iff in E. destruct E as [E1 E2].
  rewrite E1, (IH E2). reflexivity.
Qed.

Lemma rfind_absent (c : ascii) (s : string) :
  occurs c s = false -> PyStr.rfind c s = (-1)%Z.
Proof.
  induction s as [|d s IH]; simpl; [reflexivity|].
  intros E. apply orb_false_iff in E. destruct E as [E1 E2].
  rewrite E1, (IH E2). reflexivity.
Qed.

(** The first occurrence, after a prefix without the character. *)
Lemma find_first (c : ascii) (pre rest : string) :
  occurs c pre = false ->
  PyStr.find c (pre +s+ String c rest) = Z.of_nat (String.length pre).
Proof.
  induction pre as [|d pre IH]; simpl.
  - intros _. now rewrite Ascii.eqb_refl.
  - intros E. apply orb_false_iff in E. destruct E as [E1 E2].
    rewrite E1, (IH E2).
    destruct (Z.ltb_spec (Z.of_nat (String.length pre)) 0); lia.
Qed.

(** The last occurrence, before a suffix without the character. *)
Lemma rfind_last (c : ascii) (a post : string) :
  occurs c post = false ->
  PyStr.rfind c (a +s+ String c post) = Z.of_nat (String.length a).
Proof.
  intros E. induction a as [|d a IH]; simpl.
  - rewrite (rfind_absent c post E). simpl. now rewrite Ascii.eqb_refl.
  - rewrite IH.
    destruct (Z.leb_spec 0 (Z.of_nat (String.length a))); lia.
Qed.

Lemma substring_head (b c : string) :
  substring 0 (String.length b) (b +s+ c) = b.
Proof.
  induction b as [|x b IH]; simpl.
  - destruct c; reflexivity.
  - now rewrite IH.
Qed.

Lemma substring_middle (a b c : string) :
  substring (String.length a) (String.length b) (a +s+ b +s+ c) = b.
Proof.
  induction a as [|x a IH]; simpl; [apply substring_head | exact IH].
Qed.

(** The slice from the first [open] to the last [close] of a text
    [pre open mid close post]. *)
Lemma slice_brackets (open close : ascii) (pre mid post : string) :
  occurs open pre = false ->
  occurs close post = false ->
  let raw := pre +s+ String open (mid +s+ String close post) in
  let a_start := PyStr.find open raw in
  let a_end := (PyStr.rfind close raw + 1)%Z in
  (a_start >=? 0)%Z && (a_end >? a_start)%Z = true /\
  PyStr.slice a_start a_end raw = String open (mid +s+ String close "").
Proof.
  intros Hpre Hpost raw a_start a_end.
  assert (Hs : a_start = Z.of_nat (String.length pre)).
  { apply find_first. assumption. }
  assert (He : a_end = Z.of_nat (String.length pre + String.length mid + 2)).
  { unfold a_end, raw.
    replace (pre +s+ String open (mid +s+ String close post))
      with ((pre +s+ String open mid) +s+ String close post)
      by (rewrite append_assoc; reflexivity).
    rewrite rfind_last by assumption.
    rewrite length_append. simpl. lia. }
  split.
  - rewrite Hs, He. apply andb_true_iff. split.
    + apply Z.geb_le. lia.
    + apply Z.gtb_lt. lia.
  - unfold PyStr.slice. rewrite Hs, He, !Nat2Z.id.
    replace (String.length pre + String.length mid + 2 - String.length pre)
      with (String.length (String open (mid +s+ String close "")))
      by (simpl; rewrite length_append; simpl; lia).
    unfold raw.
    replace (String open (mid +s+ String close post))
      with (String open (mid +s+ String close "") +s+ post)
      by (simpl; rewrite append_assoc; reflexivity).
    apply substring_middle.
Qed.

End BracketFacts.

(** Turns the successful pure steps of a peeled run into equations. *)
Ltac pure_steps :=
  repeat match goal with
         | E : lift _ _ = (Ok _, _) |- _ =>
             apply MonadFacts.lift_ok in E; destruct E as [E ?]; subst
         | E : ret _ _ = (Ok _, _) |- _ =>
             apply MonadFacts.ret_ok in E; destruct E as [? ?]; subst
         end.

Section Parsing.

Context {World : Type} `{Services World} `{PyLib}.

(** C4, as the code has it. The whole completion is parsed first, and any
    JSON value is accepted. When that fails and a '[' occurs with the last
    ']' after it, the text from the first '[' to the last ']' is parsed:
    its value is the result, and its failure is a JSON decode error on that
    text. When there is no such pair the operation fails with a
    [ValueError] whose message is fixed. A completion with prose around one
    bracketed array is parsed to that array. Both generators return a
    result only when this parse succeeded on the raw completion. *)
Theorem parse_questions_tiers (msg raw : string) :
  (forall v, json_loads raw = Some v -> parse_questions msg raw = Ok v) /\
  (json_loads raw = None ->
   let a_start := PyStr.find "[" raw in
   let a_end := (PyStr.rfind "]" raw + 1)%Z in
   if (a_start >=? 0)%Z && (a_end >? a_start)%Z then
     match json_loads (PyStr.slice a_start a_end raw) with
     | Some v => parse_questions msg raw = Ok v
     | None =>
         parse_questions msg raw
         = Raise (JSONDecodeError (PyStr.slice a_start a_end raw))
     end
   else parse_questions msg raw = Raise (ValueError msg)) /\
  (forall pre mid post v,
      json_loads raw = None ->
      raw = pre +s+ "[" +s+ mid +s+ "]" +s+ post ->
      occurs "[" pre = false ->
      occurs "]" post = false ->
      json_loads ("[" +s+ mid +s+ "]") = Some v ->
      parse_questions msg raw = Ok v) /\
  (forall book topic n (st : state World) r st',
      run_quiz_generator_agent book topic n st = (Ok r, st') ->
      exists parsed,
        parse_questions generator_parse_error (model_raw_output r) = Ok parsed) /\
  (forall id book topic n (st : state World) r st',
      run_adaptive_agent id book topic n st = (Ok r, st') ->
      exists parsed,
        parse_questions adaptive_parse_error (a_raw r) = Ok parsed).
Proof.
  repeat apply conj.
  - intros v E. unfold parse_questions. now rewrite E.
  - intros E. cbv zeta. unfold parse_questions. rewrite E.
    destruct ((PyStr.find "[" raw >=? 0)%Z && (PyStr.rfind "]" raw + 1 >? PyStr.find "[" raw)%Z);
      [|reflexivity].
    now destruct (json_loads (PyStr.slice (PyStr.find "[" raw) (PyStr.rfind "]" raw + 1) raw)).
  - intros pre mid post v E -> Hpre Hpost Hv.
    unfold parse_questions. rewrite E.
    destruct (BracketFacts.slice_brackets "[" "]" pre mid post Hpre Hpost) as [Hc Hs].
    cbv zeta in Hc, Hs. simpl in *. rewrite Hc, Hs. simpl in Hv. now rewrite Hv.
  - intros book topic n st r st' Hrun. unfold run_quiz_generator_agent in Hrun.
    destruct (negb (DocId.truthy book) || negb (PyStr.nonempty topic));
      [discriminate|].
    repeat peel Hrun. pure_steps. simpl. eauto.
  - intros id book topic n st r st' Hrun. unfold run_adaptive_agent in Hrun.
    peel Hrun. destruct a as [t h].
    repeat peel Hrun. pure_steps. simpl. eauto.
Qed.

End Parsing.

(** The scenario of the specification, read with the JSON subset reader:
    prose, one array with one question, prose. *)
Lemma parse_questions_tiers_witness :
  parse_questions generator_parse_error
    ("Here you go: " +s+ "[" +s+ ("{" +s+ dq +s+ "question" +s+ dq +s+ ":" +s+ dq +s+ "Q1" +s+ dq +s+ "}")
     +s+ "]" +s+ " thanks")
  = Ok (VList [VDict [("question", VStr "Q1")]]).
Proof.
  destruct (@parse_questions_tiers Script.world Script.services ExampleLib.lib
              generator_parse_error
              ("Here you go: " +s+ "[" +s+ ("{" +s+ dq +s+ "question" +s+ dq +s+ ":" +s+ dq +s+ "Q1" +s+ dq +s+ "}")
               +s+ "]" +s+ " thanks"))
    as [_ [_ [Hscan _]]].
  apply (Hscan "Here you go: "
               ("{" +s+ dq +s+ "question" +s+ dq +s+ ":" +s+ dq +s+ "Q1" +s+ dq +s+ "}")
               " thanks");
    reflexivity.
Defined.

(** The claim fails where it says that the error names the raw text: on a
    completion without brackets the error is a [ValueError] with a fixed
    message, in which the completion does not occur; and the first tier
    accepts a JSON value that is not an array. *)
Lemma parse_error_omits_raw_text :
  parse_questions generator_parse_error "no list here"
  = Raise (ValueError "Could not parse quiz generator output as JSON") /\
  is_substring "no list here"
    (message_of (ValueError "Could not parse quiz generator output as JSON")) = false /\
  parse_questions generator_parse_error "{}" = Ok (VDict []).
Proof. repeat split. Qed.

(* ================================================================== *)
(** ** The summarizer *)
(* ================================================================== *)

Section Summarizer.

Context {World : Type} `{Services World} `{PyLib}.

(** The summarizer always returns a record for its chunk, after exactly one
    completion request. *)
Lemma process_single_chunk_total (c : chunk) (book : doc_id) (st : state World) :
  exists r st',
    process_single_chunk c book st = (Ok r, st') /\
    calls st' = calls st ++ [summary_request c] /\
    chunk_body r = text c /\
    meta_position (metadata r) = position c /\
    bookId (metadata r) = book /\
    chunk_id r = make_chunk_id book c /\
    match chat_create "gpt-4o-mini" (summary_request c) 200 0 (world st) with
    | (Raise _, _) => r = minimal_chunk c book
    | (Ok reply, _) =>
        match summary_fields (match reply with Some s => s | None => "" end) with
        | Ok (s, kc, kw) =>
            summary (metadata r) = s /\
            key_concepts (metadata r) = kc /\
            keywords (metadata r) = kw
        | Raise _ => r = minimal_chunk c book
        end
    end.
Proof.
  unfold process_single_chunk, catch, bind, call_openai, lift, ret.
  fold (summary_request c).
  destruct (chat_create "gpt-4o-mini" (summary_request c) 200 0 (world st))
    as [[reply|e] w].
  - destruct (summary_fields (match reply with Some s => s | None => "" end))
      as [[[s kc] kw]|e].
    + eexists _, _. repeat split.
    + eexists _, _. repeat split.
  - eexists _, _. repeat split.
Qed.

(** C5, as the code has it. For every chunk, book and world the summarizer
    returns a record (it never raises) that carries the chunk text, its
    position and the book. The completion is parsed whole; when that fails,
    the text from the first '{' to the last '}' is parsed if there is such
    a pair. A parse that gives a non-empty object supplies the three
    fields, with the first 200 characters of the completion as the default
    summary. No parse, or a parse that gives a false value, degrades to the
    first 200 characters of the completion and two empty strings. Only
    when the completion call raises, or the parse gives a true value that
    is not an object, the record holds the first 200 characters of the
    chunk text and two empty strings. *)
Theorem summarizer_tiers (c : chunk) (book : doc_id) (st : state World) :
  (exists r st',
      process_single_chunk c book st = (Ok r, st') /\
      chunk_body r = text c /\
      meta_position (metadata r) = position c /\
      bookId (metadata r) = book /\
      match chat_create "gpt-4o-mini" (summary_request c) 200 0 (world st) with
      | (Raise _, _) => r = minimal_chunk c book
      | (Ok reply, _) =>
          match summary_fields (match reply with Some s => s | None => "" end) with
          | Ok (s, kc, kw) =>
              summary (metadata r) = s /\
              key_concepts (metadata r) = kc /\
              keywords (metadata r) = kw
          | Raise _ => r = minimal_chunk c book
          end
      end) /\
  (summary (metadata (minimal_chunk c book)) = VStr (PyStr.take 200 (text c)) /\
   key_concepts (metadata (minimal_chunk c book)) = VStr "" /\
   keywords (metadata (minimal_chunk c book)) = VStr "") /\
  (forall raw,
      (forall v, json_loads raw = Some v -> parse_summary raw = Some v) /\
      (json_loads raw = None ->
       parse_summary raw
       = if (PyStr.find "{" raw >=? 0)%Z
            && (PyStr.rfind "}" raw + 1 >? PyStr.find "{" raw)%Z
         then json_loads (PyStr.slice (PyStr.find "{" raw) (PyStr.rfind "}" raw + 1) raw)
         else None) /\
      (parsed_truthy (parse_summary raw) = false ->
       summary_fields raw = Ok (VStr (PyStr.take 200 raw), VStr "", VStr "")) /\
      (forall d,
          parse_summary raw = Some (VDict d) -> d <> [] ->
          summary_fields raw
          = Ok (match Py.dict_lookup "summary" d with
                | Some x => x
                | None => VStr (PyStr.take 200 raw)
                end,
                match Py.dict_lookup "key_concepts" d with
                | Some x => x
                | None => VStr ""
                end,
                match Py.dict_lookup "keywords" d with
                | Some x => x
                | None => VStr ""
                end)) /\
      (forall v,
          parse_summary raw = Some v -> Py.truthy v = true ->
          (forall d, v <> VDict d) ->
          summary_fields raw = Raise AttributeError)).
Proof.
  repeat apply conj.
  - destruct (process_single_chunk_total c book st)
      as [r [st' [E [_ [H1 [H2 [H3 [_ H4]]]]]]]].
    exists r, st'. auto.
  - reflexivity.
  - reflexivity.
  - reflexivity.
  - intros raw. repeat apply conj.
    + intros v E. unfold parse_summary. now rewrite E.
    + intros E. unfold parse_summary. now rewrite E.
    + intros E. unfold summary_fields. now rewrite E.
    + intros d E Hd. unfold summary_fields. rewrite E. simpl.
      destruct d; [congruence | reflexivity].
    + intros v E Ht Hv. unfold summary_fields. rewrite E. simpl. rewrite Ht.
      destruct v; try reflexivity. exfalso. eapply Hv. reflexivity.
Qed.

End Summarizer.

(** A chunk summarized in a scripted world whose completion is an object
    between two words. *)
Lemma summarizer_tiers_witness :
  summary_fields ("Sure: {" +s+ dq +s+ "summary" +s+ dq +s+ ": " +s+ dq +s+ "S" +s+ dq +s+ "} ok")
  = Ok (VStr "S", VStr "", VStr "").
Proof.
  destruct (@summarizer_tiers Script.world Script.services ExampleLib.lib
              (mkChunk 0 "Chunk text.") (IdInt 1)
              (Script.start (Script.simple [] (Raise (ServiceError "down")))))
    as [_ [_ Hraw]].
  destruct (Hraw ("Sure: {" +s+ dq +s+ "summary" +s+ dq +s+ ": " +s+ dq +s+ "S" +s+ dq +s+ "} ok"))
    as [_ [_ [_ [Hobj _]]]].
  apply (Hobj [("summary", VStr "S")]); [reflexivity | discriminate].
Defined.

(** The claim fails where it says that a completion that cannot be parsed
    degrades to the first 200 characters of the chunk text: the summary is
    then the first 200 characters of the completion. *)
Lemma unparsed_summary_is_completion_prefix :
  exists r st',
    process_single_chunk (mkChunk 0 "Chunk text.") (IdInt 1)
      (Script.start (Script.simple [Ok (Some "not json at all")] (Raise (ServiceError "down"))))
    = (Ok r, st') /\
    summary (metadata r) = VStr "not json at all" /\
    summary (metadata r) <> VStr (PyStr.take 200 "Chunk text.").
Proof.
  eexists _, _. split; [reflexivity|]. split; [reflexivity | discriminate].
Qed.

(* ================================================================== *)
(** ** The batch loop *)
(* ================================================================== *)

Module SlotFacts.

Section Slots.

Context {World : Type} `{Services World}.

Lemma pick_permutation {A} (k : nat) (x : A) (l : list A) :
  Permutation (x :: l) (fst (pick k x l) :: snd (pick k x l)).
Proof.
  revert k x. induction l as [|y l IH]; intros k x.
  - destruct k; simpl; apply Permutation_refl.
  - destruct k as [|k]; simpl; [apply Permutation_refl|].
    specialize (IH k y). destruct (pick k y l) as [z r]. simpl in *.
    eapply Permutation_trans; [apply perm_skip, IH | apply perm_swap].
Qed.

Lemma insert_slot_permutation {R} (i : nat) (r : R) (done : list (nat * R)) :
  Permutation (insert_slot i r done) ((i, r) :: done).
Proof.
  induction done as [|[j r'] done IH]; simpl; [apply Permutation_refl|].
  destruct (i <? j); [apply Permutation_refl|].
  eapply Permutation_trans; [apply perm_skip, IH | apply perm_swap].
Qed.

Lemma insert_slot_sorted {R} (i : nat) (r : R) (done : list (nat * R)) :
  StronglySorted lt (map fst done) ->
  ~ In i (map fst done) ->
  StronglySorted lt (map fst (insert_slot i r done)).
Proof.
  induction done as [|[j r'] done IH]; simpl; intros Hs Hn.
  - repeat constructor.
  - inversion Hs as [|? ? Hs' Hall]; subst.
    destruct (Nat.ltb_spec i j) as [L|G]; simpl.
    + constructor; [assumption|]. constructor; [assumption|].
      eapply Forall_impl; [|exact Hall]. simpl. intros. lia.
    + constructor.
      * apply IH; [assumption|]. intros Hin. apply Hn. now right.
      * assert (P : Permutation (map fst (insert_slot i r done)) (i :: map fst done)).
        { change (i :: map fst done) with (map fst ((i, r) :: done)).
          apply Permutation_map, insert_slot_permutation. }
        eapply Permutation_Forall; [apply Permutation_sym, P|].
        constructor; [|assumption].
        assert (i <> j) by (intros ->; apply Hn; now left). lia.
Qed.

(** Two increasing lists with the same elements are equal. *)
Lemma sorted_unique (l1 l2 : list nat) :
  StronglySorted lt l1 -> StronglySorted lt l2 -> Permutation l1 l2 -> l1 = l2.
Proof.
  revert l2. induction l1 as [|a l1 IH]; intros l2 H1 H2 P.
  - apply Permutation_nil in P. now subst.
  - destruct l2 as [|b l2].
    + apply Permutation_sym, Permutation_nil in P. discriminate.
    + inversion H1 as [|? ? H1' A1]; inversion H2 as [|? ? H2' A2]; subst.
      assert (a = b).
      { assert (Ia : In a (b :: l2)) by (eapply Permutation_in; [exact P | now left]).
        assert (Ib : In b (a :: l1))
          by (eapply Permutation_in; [apply Permutation_sym, P | now left]).
        rewrite Forall_forall in A1, A2.
        destruct Ia as [->|Ia]; [reflexivity|].
        destruct Ib as [->|Ib]; [reflexivity|].
        specialize (A1 _ Ib). specialize (A2 _ Ia). lia. }
      subst b. f_equal. apply IH; try assumption.
      eapply Permutation_cons_inv. exact P.
Qed.

Lemma seq_sorted (a n : nat) : StronglySorted lt (seq a n).
Proof.
  revert a. induction n as [|n IH]; intros a; simpl; constructor.
  - apply IH.
  - apply Forall_forall. intros x Hx. apply in_seq in Hx. lia.
Qed.

Lemma enumerate_fst {A} (a : nat) (l : list A) :
  map fst (enumerate a l) = seq a (List.length l).
Proof.
  revert a. induction l as [|x l IH]; intros a; simpl; [reflexivity|].
  now rewrite IH.
Qed.

Lemma enumerate_In {A} (a i : nat) (x : A) (l : list A) :
  In (i, x) (enumerate a l) -> a <= i /\ nth_error l (i - a) = Some x.
Proof.
  revert a. induction l as [|y l IH]; intros a; simpl; [contradiction|].
  intros [E|Hin].
  - inversion E; subst. rewrite Nat.sub_diag. auto.
  - apply IH in Hin. destruct Hin as [L E].
    split; [lia|]. replace (i - a) with (S (i - S a)) by lia. exact E.
Qed.

(** The event loop completes every pending task, whatever the scheduler
    chooses; the slots stay in task order, and each task sends its one
    request. *)
Lemma gather_loop_total {R} (Q : nat -> R -> Prop) (q : nat -> list message) :
  forall (n : nat) (pending : list (nat * M World R)) (done : list (nat * R))
         (st : state World),
    n = List.length pending ->
    Forall (fun e => forall st0, exists r st1,
                snd e st0 = (Ok r, st1) /\ Q (fst e) r /\
                calls st1 = calls st0 ++ [q (fst e)]) pending ->
    exists done' st' new,
      gather_loop n pending done st = (Ok done', st') /\
      Permutation (map fst done') (map fst pending ++ map fst done) /\
      (Forall (fun p => Q (fst p) (snd p)) done ->
       Forall (fun p => Q (fst p) (snd p)) done') /\
      (StronglySorted lt (map fst done) ->
       NoDup (map fst pending ++ map fst done) ->
       StronglySorted lt (map fst done')) /\
      calls st' = calls st ++ new /\
      Permutation new (map (fun e => q (fst e)) pending).
Proof.
  induction n as [|n IH]; intros pending done st Hn Hall.
  - destruct pending; [|discriminate]. simpl.
    exists done, st, []. unfold ret. repeat split; auto.
    now rewrite app_nil_r.
  - destruct pending as [|x rest]; [discriminate|].
    simpl in Hn. injection Hn as Hn.
    cbn [gather_loop]. unfold bind at 1. unfold service_total at 1.
    destruct (schedule (List.length (x :: rest)) (world st)) as [k w].
    pose proof (pick_permutation k x rest) as Hp.
    destruct (pick k x rest) as [[i task] rest']. simpl in Hp.
    assert (Hall' : Forall (fun e => forall st0, exists r st1,
                snd e st0 = (Ok r, st1) /\ Q (fst e) r /\
                calls st1 = calls st0 ++ [q (fst e)]) ((i, task) :: rest')).
    { eapply Permutation_Forall; [exact Hp | exact Hall]. }
    inversion Hall' as [|? ? Htask Hrest]; subst.
    destruct (Htask (mkState w (calls st))) as [r [st1 [Er [HQ Hc]]]].
    simpl in Er, HQ, Hc. unfold bind. rewrite Er.
    assert (Hlen : List.length rest = List.length rest').
    { apply Permutation_length in Hp. simpl in Hp. lia. }
    destruct (IH rest' (insert_slot i r done) st1 Hlen Hrest)
      as [done' [st' [new [E [P [F [S C]]]]]]].
    destruct C as [C PN].
    exists done', st', (q i :: new). split; [exact E|].
    assert (Pins : Permutation (map fst (insert_slot i r done)) (i :: map fst done)).
    { change (i :: map fst done) with (map fst ((i, r) :: done)).
      apply Permutation_map, insert_slot_permutation. }
    assert (Pfst : Permutation (map fst (x :: rest)) (i :: map fst rest')).
    { change (i :: map fst rest') with (map fst ((i, task) :: rest')).
      apply Permutation_map, Hp. }
    repeat split.
    + eapply Permutation_trans; [exact P|].
      eapply Permutation_trans; [apply Permutation_app_head, Pins|].
      eapply Permutation_trans; [apply Permutation_sym, Permutation_middle|].
      change (i :: map fst rest' ++ map fst done)
        with ((i :: map fst rest') ++ map fst done).
      apply Permutation_app_tail, Permutation_sym, Pfst.
    + intros Fd. apply F.
      eapply Permutation_Forall; [apply Permutation_sym, insert_slot_permutation|].
      constructor; assumption.
    + intros Sd Nd.
      assert (Nd' : NoDup ((i :: map fst rest') ++ map fst done)).
      { eapply Permutation_NoDup; [|exact Nd].
        apply Permutation_app_tail, Pfst. }
      simpl in Nd'. inversion Nd' as [|? ? Hni Nd'']; subst.
      apply S.
      * apply insert_slot_sorted; [assumption|].
        intros Hin. apply Hni. apply in_or_app. now right.
      * eapply Permutation_NoDup;
          [apply Permutation_app_head, Permutation_sym, Pins|].
        eapply Permutation_NoDup; [apply Permutation_middle|].
        constructor; assumption.
    + rewrite C, Hc. simpl. now rewrite <- app_assoc.
    + eapply Permutation_trans; [apply perm_skip, PN|].
      change (q i :: map (fun e => q (fst e)) rest')
        with (map (fun e : nat * M World R => q (fst e)) ((i, task) :: rest')).
      apply Permutation_map, Permutation_sym, Hp.
Qed.

End Slots.

End SlotFacts.

Module BatchFacts.

Import SlotFacts.

Lemma enumerate_length {A} (a : nat) (l : list A) :
  List.length (enumerate a l) = List.length l.
Proof.
  revert a. induction l as [|x l IH]; intros a; simpl; [reflexivity|].
  now rewrite IH.
Qed.

(** Slots numbered [a, a+1, ...] whose contents answer to the element of
    the same number answer to the list, element by element. *)
Lemma slots_in_order {A R} (S : A -> R -> Prop) (batch : list A) :
  forall (l : list (nat * R)) (a : nat),
    map fst l = seq a (List.length batch) ->
    Forall (fun p => exists c, nth_error batch (fst p - a) = Some c /\ S c (snd p)) l ->
    Forall2 S batch (map snd l).
Proof.
  induction batch as [|c0 batch IH]; intros l a Hfst Hall.
  - destruct l; [constructor | discriminate].
  - destruct l as [|[i r] l]; [discriminate|].
    simpl in Hfst. injection Hfst as Hi Hfst. subst i.
    inversion Hall as [|? ? Hhead Htail]; subst.
    simpl. constructor.
    + destruct Hhead as [c [E Hc]]. simpl in E. rewrite Nat.sub_diag in E.
      simpl in E. now inversion E; subst.
    + apply (IH l (Datatypes.S a) Hfst).
      rewrite Forall_forall in Htail |- *. intros p Hp.
      destruct (Htail p Hp) as [c [E Hc]]. exists c. split; [|assumption].
      assert (Hin : In (fst p) (seq (Datatypes.S a) (List.length batch))).
      { rewrite <- Hfst. now apply in_map. }
      apply in_seq in Hin.
      replace (fst p - a) with (Datatypes.S (fst p - Datatypes.S a)) in E by lia.
      exact E.
Qed.

Lemma map_by_index {A B} (g : A -> B) (d : B) (l : list A) (a : nat) :
  map (fun i => match nth_error l (i - a) with Some c => g c | None => d end)
      (seq a (List.length l))
  = map g l.
Proof.
  revert a. induction l as [|x l IH]; intros a; simpl; [reflexivity|].
  rewrite Nat.sub_diag. simpl. f_equal.
  rewrite <- (IH (S a)). apply map_ext_in. intros i Hi. apply in_seq in Hi.
  replace (i - a) with (S (i - S a)) by lia. reflexivity.
Qed.

Section Batches.

Context {World : Type} `{Services World} `{PyLib}.

(** One batch: every chunk gets its record, in the order of the batch,
    whatever the order in which the workers complete. *)
Lemma gather_batch (book : doc_id) (batch : list chunk) (st : state World) :
  exists rs st' new,
    gather (map (fun c => process_single_chunk c book) batch) st = (Ok rs, st') /\
    Forall2 (summarizes book) batch rs /\
    calls st' = calls st ++ new /\
    Permutation new (map summary_request batch).
Proof.
  set (tasks := map (fun c => process_single_chunk c book) batch).
  set (Q := fun (i : nat) (r : indexed_chunk) =>
              exists c, nth_error batch (i - 0) = Some c /\ summarizes book c r).
  set (q := fun i : nat =>
              match nth_error batch (i - 0) with
              | Some c => summary_request c
              | None => []
              end).
  assert (Hlen : List.length tasks = List.length batch)
    by (unfold tasks; apply length_map).
  destruct (gather_loop_total Q q (List.length tasks) (enumerate 0 tasks) [] st)
    as [done' [st' [new [E [P [F [S [C PN]]]]]]]].
  - now rewrite enumerate_length.
  - apply Forall_forall. intros [i t] Hin st0.
    apply enumerate_In in Hin. destruct Hin as [_ Hnth].
    unfold tasks in Hnth. rewrite nth_error_map in Hnth.
    destruct (nth_error batch (i - 0)) as [c|] eqn:Ec; [|discriminate].
    simpl in Hnth. injection Hnth as <-.
    destruct (process_single_chunk_total c book st0)
      as [r [st1 [Er [Hc [H1 [H2 [H3 [H4 _]]]]]]]].
    exists r, st1. simpl. repeat split; try assumption.
    + exists c. unfold summarizes. auto.
    + unfold q. now rewrite Ec.
  - rewrite app_nil_r, enumerate_fst in P.
    assert (Hfst : map fst done' = seq 0 (List.length tasks)).
    { apply sorted_unique; [|apply seq_sorted | exact P].
      apply S; [constructor|]. simpl. rewrite app_nil_r, enumerate_fst.
      apply seq_NoDup. }
    exists (map snd done'), st', new. repeat split.
    + unfold gather, bind. fold tasks. rewrite E. reflexivity.
    + rewrite Hlen in Hfst.
      apply (slots_in_order (summarizes book) batch done' 0 Hfst).
      apply (F (Forall_nil _)).
    + exact C.
    + eapply Permutation_trans; [exact PN|].
      rewrite <- (map_map fst q), enumerate_fst, Hlen.
      unfold q. rewrite (map_by_index summary_request [] batch 0).
      apply Permutation_refl.
Qed.

(** The batch loop: the records of the batches, batch after batch. *)
Lemma process_batches_total (book : doc_id) (cs : list chunk) :
  forall (starts : list nat) (db : list indexed_chunk) (st : state World),
  exists rs st' news,
    process_batches starts cs book db st = (Ok (db ++ rs), st') /\
    Forall2 (summarizes book)
            (List.concat (map (fun i => list_slice i (i + batch_size) cs) starts)) rs /\
    calls st' = calls st ++ List.concat news /\
    Forall2 (fun b new => Permutation new (map summary_request b))
            (map (fun i => list_slice i (i + batch_size) cs) starts) news.
Proof.
  induction starts as [|i starts IH]; intros db st.
  - exists [], st, []. simpl. unfold ret. rewrite !app_nil_r.
    repeat split; constructor.
  - destruct (gather_batch book (list_slice i (i + batch_size) cs) st)
      as [rs1 [st1 [new1 [E1 [F1 [C1 P1]]]]]].
    destruct (IH (db ++ rs1) st1) as [rs2 [st2 [news2 [E2 [F2 [C2 P2]]]]]].
    exists (rs1 ++ rs2), st2, (new1 :: news2).
    cbn [process_batches]. unfold bind. rewrite E1. repeat split.
    + rewrite E2. now rewrite <- app_assoc.
    + simpl. apply Forall2_app; assumption.
    + rewrite C2, C1. simpl. now rewrite <- app_assoc.
    + simpl. constructor; assumption.
Qed.

End Batches.

(** Consecutive slices of three cover a list that is short enough. *)
Lemma slices_cover {A} (m : nat) :
  forall l : list A,
    List.length l <= 3 * m ->
    List.concat (map (fun i => firstn (i + 3 - i) (skipn i l))
                     (map (fun k => k * 3) (seq 0 m))) = l.
Proof.
  induction m as [|m IH]; intros l Hl.
  - destruct l; [reflexivity | simpl in Hl; lia].
  - cbn [seq map List.concat]. rewrite <- seq_shift, !map_map.
    change (firstn (0 * 3 + 3 - 0 * 3) (skipn (0 * 3) l)) with (firstn 3 l).
    transitivity (firstn 3 l ++ skipn 3 l); [|apply firstn_skipn].
    f_equal.
    etransitivity; [|apply (IH (skipn 3 l)); rewrite length_skipn; lia].
    rewrite map_map. f_equal. apply map_ext. intros k.
    rewrite skipn_skipn. f_equal; try lia. f_equal; lia.
Qed.

Lemma batches_cover (cs : list chunk) : List.concat (batches_of cs) = cs.
Proof.
  unfold batches_of. apply slices_cover.
  pose proof (Nat.div_mod_eq (List.length cs + 2) 3) as E.
  pose proof (Nat.mod_upper_bound (List.length cs + 2) 3) as B. lia.
Qed.

Lemma batches_small (cs : list chunk) :
  Forall (fun b => b <> [] /\ List.length b <= 3) (batches_of cs).
Proof.
  unfold batches_of. apply Forall_forall. intros b Hb.
  apply in_map_iff in Hb. destruct Hb as [i [<- Hi]].
  apply in_map_iff in Hi. destruct Hi as [k [<- Hk]].
  apply in_seq in Hk.
  replace (k * 3 + 3 - k * 3) with 3 by lia.
  pose proof (Nat.div_mod_eq (List.length cs + 2) 3) as E.
  pose proof (Nat.mod_upper_bound (List.length cs + 2) 3) as B.
  split.
  - intros Hnil. apply (f_equal (@List.length chunk)) in Hnil.
    rewrite length_firstn, length_skipn in Hnil.
    change (List.length (@nil chunk)) with 0 in Hnil. lia.
  - rewrite length_firstn. lia.
Qed.

End BatchFacts.

Section Fanout.

Context {World : Type} `{Services World} `{PyLib}.

(** C9. The batch loop cuts the chunks into consecutive non-empty groups
    of at most three that cover them in order; the groups are processed one
    after the other (the completion requests of a group all come before
    those of the next group, in some order inside the group); and for every
    world, that is for every order in which the workers of a group
    complete, the loop returns one record per chunk, the record at index k
    being the one of chunk k, with its text, position and book. *)
Theorem batches_preserve_order (cs : list chunk) (book : doc_id) (st : state World) :
  List.concat (batches_of cs) = cs /\
  Forall (fun b => b <> [] /\ List.length b <= 3) (batches_of cs) /\
  exists rs st' news,
    summarize_chunks cs book st = (Ok rs, st') /\
    Forall2 (summarizes book) cs rs /\
    calls st' = calls st ++ List.concat news /\
    Forall2 (fun b new => Permutation new (map summary_request b))
            (batches_of cs) news.
Proof.
  split; [apply BatchFacts.batches_cover|].
  split; [apply BatchFacts.batches_small|].
  destruct (BatchFacts.process_batches_total book cs
              (batch_starts (List.length cs)) [] st)
    as [rs [st' [news [E [F [C P]]]]]].
  exists rs, st', news. repeat split.
  - exact E.
  - rewrite <- (BatchFacts.batches_cover cs) at 1. exact F.
  - exact C.
  - exact P.
Qed.

End Fanout.

(* ================================================================== *)
(** ** The validator *)
(* ================================================================== *)

Module LogFacts.

Section Log.

Context {World : Type} `{Services World} `{PyLib}.

Lemma service_calls {A} (f : World -> outcome A * World) (st : state World) :
  calls (snd (service f st)) = calls st.
Proof. unfold service. now destruct (f (world st)). Qed.

Lemma query_calls (text : string) (n : Z) (book : option doc_id) (st : state World) :
  calls (snd (query text n book st)) = calls st.
Proof.
  unfold query, bind, catch, service, lift, ret.
  destruct (get_collection (world st)) as [[[]|e] w]; simpl; [|reflexivity].
  destruct (collection_query text n book w) as [[res|e] w']; simpl; [|reflexivity].
  destruct (raw_distances res) as [[|d ds]|]; reflexivity.
Qed.

Lemma get_relevant_context_calls (topic : string) (n : Z) (st : state World) :
  calls (snd (get_relevant_context topic n st)) = calls st.
Proof.
  unfold get_relevant_context, bind.
  pose proof (query_calls topic n None st) as Q.
  destruct (query topic n None st) as [[resp|e] st1]; simpl in *; [|exact Q].
  unfold lift.
  destruct (omap (context_part (metadatas resp)) (enumerate 0 (documents resp)));
    simpl; exact Q.
Qed.

Lemma call_openai_calls (ms : list message) (mt : Z) (t : Q) (st : state World) :
  calls (snd (call_openai (PromptMessages ms) mt t st)) = calls st ++ [ms].
Proof.
  unfold call_openai.
  destruct (chat_create "gpt-4o-mini" ms mt t (world st)) as [[c|e] w]; reflexivity.
Qed.



End Log.

End LogFacts.

Module ValidatorFacts.

Import LogFacts.

Lemma filter_split {A} (f : A -> bool) (l : list A) :
  List.length (filter f l) + List.length (filter (fun x => negb (f x)) l)
  = List.length l.
Proof.
  induction l as [|x l IH]; simpl; [reflexivity|].
  destruct (f x); simpl; lia.
Qed.





Section Requests.

Context `{PyLib}.



End Requests.

Section Loop.

Context {World : Type} `{Services World} `{PyLib}.


End Loop.

Section Progress.

Context {World : Type} `{Services World} `{PyLib}.




(** The loop stops at the first question whose validation raises. *)
Lemma validate_all_raises (context : string) (auto_fix : bool) (q : value)
      (qs2 : list value) :
  forall (qs1 : list value) (acc rs : list validation_result)
         (st st1 st2 : state World) (e : exn),
    validate_all context auto_fix qs1 acc st = (Ok rs, st1) ->
    validate_question context auto_fix q st1 = (Raise e, st2) ->
    validate_all context auto_fix (qs1 ++ q :: qs2) acc st = (Raise e, st2).
Proof.
  induction qs1 as [|q1 qs1 IH]; intros acc rs st st1 st2 e Eloop Eq.
  - simpl in Eloop. unfold ret in Eloop. injection Eloop as <- <-.
    cbn [app validate_all]. unfold bind. now rewrite Eq.
  - cbn [app validate_all] in *. unfold bind in *.
    destruct (validate_question context auto_fix q1 st) as [[r|e1] st0];
      [|discriminate].
    eapply IH; eassumption.
Qed.

End Progress.

End ValidatorFacts.

Section Validator.

Context {World : Type} `{Services World} `{PyLib}.


(** C10. When the first validation completion is well-formed JSON that is
    not an object with a "valid" key, reading [validation['valid']] raises
    and [run_quiz_validator_agent] raises with it: a [TypeError] for a
    value that is not an object, a [KeyError] for an object without the
    key. The heuristic dictionary, used only when the completion is not
    JSON, always has the key. *)
Theorem validator_wrong_shape_raises (qid : string) (q : value) (qs : list value)
        (topic : string) (auto_fix : bool) (st : state World)
        (context : string) (st1 : state World) (reply : option string)
        (w : World) (v : value) :
  get_relevant_context topic 8 st = (Ok context, st1) ->
  chat_create "gpt-4o-mini" (validation_prompt q context) 400 0 (world st1)
  = (Ok reply, w) ->
  json_loads (match reply with Some s => s | None => "" end) = Some v ->
  (forall d, v = VDict d -> Py.dict_lookup "valid" d = None) ->
  (exists e,
      fst (run_quiz_validator_agent qid (q :: qs) topic auto_fix st) = Raise e /\
      Py.getitem v "valid" = Raise e /\
      (e = TypeError \/ e = KeyError "valid")) /\
  (forall raw, json_loads raw = None ->
               exists b, Py.getitem (parse_validation raw) "valid" = Ok (VBool b)).
Proof.
  intros Ectx Ecall Ejson Hshape. split.
  - assert (Hget : exists e, Py.getitem v "valid" = Raise e /\
                             (e = TypeError \/ e = KeyError "valid")).
    { destruct v; simpl; eauto.
      rewrite (Hshape d eq_refl). eauto. }
    destruct Hget as [e [Hget He]]. exists e. split; [|auto].
    unfold run_quiz_validator_agent, bind. rewrite Ectx.
    cbn [validate_all]. unfold bind, validate_question, bind, call_openai, lift.
    rewrite Ecall. unfold parse_validation. rewrite Ejson, Hget. reflexivity.
  - intros raw E. unfold parse_validation. rewrite E. simpl. eauto.
Qed.

End Validator.


(** A bare JSON array as the validation completion, in a scripted world
    whose store is down: the validator raises a [TypeError]. *)
Lemma validator_wrong_shape_raises_witness :
  fst (run_quiz_validator_agent "quiz" [VStr "Q"] "topic" true
         (Script.start (Script.simple [Ok (Some "[]")] (Raise (ServiceError "down")))))
  = Raise TypeError.
Proof.
  edestruct (@validator_wrong_shape_raises Script.world Script.services ExampleLib.lib
               "quiz" (VStr "Q") [] "topic" true
               (Script.start (Script.simple [Ok (Some "[]")] (Raise (ServiceError "down")))))
    as [[e [Hrun [Hget _]]] _];
    [reflexivity | reflexivity | reflexivity | intros d E; discriminate |].
  simpl in Hget. injection Hget as <-. exact Hrun.
Defined.

(** An object with a reason and no verdict: the validator raises a
    [KeyError]. *)
Example validator_key_error :
  fst (run_quiz_validator_agent "quiz" [VStr "Q"] "topic" true
         (Script.start (Script.simple [Ok (Some reason_only_text)]
                                      (Raise (ServiceError "down")))))
  = Raise (KeyError "valid").
Proof. reflexivity. Qed.

(* ================================================================== *)
(** ** The repair pass *)
(* ================================================================== *)

Module RepairFacts.

Lemma lookup_set_same (k : string) (v : value) (d : list (string * value)) :
  Py.dict_lookup k (Py.dict_set k v d) = Some v.
Proof.
  induction d as [|[k' v'] d IH]; simpl.
  - now rewrite String.eqb_refl.
  - destruct (String.eqb k' k) eqn:E; simpl; rewrite E; [reflexivity | exact IH].
Qed.

Lemma lookup_set_other (k k' : string) (v : value) (d : list (string * value)) :
  k <> k' ->
  Py.dict_lookup k' (Py.dict_set k v d) = Py.dict_lookup k' d.
Proof.
  intros Hne. induction d as [|[k0 v0] d IH]; simpl.
  - destruct (String.eqb_spec k k'); [contradiction | reflexivity].
  - destruct (String.eqb_spec k0 k) as [->|N]; simpl.
    + destruct (String.eqb_spec k k'); [contradiction | reflexivity].
    + destruct (String.eqb k0 k'); [reflexivity | exact IH].
Qed.

Section Repair.

Context `{PyLib}.

Lemma ensure_explanation_dict (d : list (string * value)) :
  ensure_explanation (VDict d) = Ok (VDict (with_explanation d)).
Proof.
  unfold ensure_explanation, with_explanation.
  destruct (Py.dict_lookup "explanation" d) as [e|]; [|reflexivity].
  now destruct (Py.truthy e).
Qed.

Lemma ensure_choices_dict (d : list (string * value)) :
  ensure_choices (VDict d) = Ok (VDict (with_choices d)).
Proof.
  unfold ensure_choices, with_choices.
  destruct (Py.dict_lookup "choices" d) as [c|]; [|reflexivity].
  now destruct c.
Qed.

Lemma ensure_explanation_ok (q q' : value) :
  ensure_explanation q = Ok q' -> exists d, q = VDict d.
Proof. destruct q; simpl; try discriminate. eauto. Qed.

(** After the explanation repair the explanation is there and true. *)
Lemma with_explanation_truthy (d : list (string * value)) :
  exists e, Py.dict_lookup "explanation" (with_explanation d) = Some e /\
            Py.truthy e = true.
Proof.
  unfold with_explanation.
  destruct (Py.dict_lookup "explanation" d) as [e|] eqn:E.
  - destruct (Py.truthy e) eqn:T; [eauto|].
    rewrite lookup_set_same. eexists. split; [reflexivity|]. reflexivity.
  - rewrite lookup_set_same. eexists. split; [reflexivity|]. reflexivity.
Qed.

(** After the choices repair the choices are a list. *)
Lemma with_choices_list (d : list (string * value)) :
  exists l, Py.dict_lookup "choices" (with_choices d) = Some (VList l).
Proof.
  unfold with_choices.
  destruct (Py.dict_lookup "choices" d) as [c|] eqn:E.
  - destruct c; try (rewrite lookup_set_same; eexists; reflexivity). eauto.
  - rewrite lookup_set_same. eexists. reflexivity.
Qed.

Lemma with_choices_keeps_explanation (d : list (string * value)) :
  Py.dict_lookup "explanation" (with_choices d) = Py.dict_lookup "explanation" d.
Proof.
  unfold with_choices.
  destruct (Py.dict_lookup "choices" d) as [c|].
  - destruct c; try (apply lookup_set_other; discriminate). reflexivity.
  - apply lookup_set_other. discriminate.
Qed.

(** A comprehension over dictionaries whose body never fails. *)
Lemma omap_dicts (body : value -> outcome value)
      (f : list (string * value) -> list (string * value)) :
  (forall d, body (VDict d) = Ok (VDict (f d))) ->
  forall ds, omap body (map VDict ds) = Ok (map (fun d => VDict (f d)) ds).
Proof.
  intros Hb. induction ds as [|d ds IH]; [reflexivity|].
  simpl. rewrite Hb, IH. reflexivity.
Qed.

(** A comprehension that succeeds went over dictionaries only. *)
Lemma omap_ok_dicts (body : value -> outcome value) :
  (forall q q', body q = Ok q' -> exists d, q = VDict d) ->
  forall l l', omap body l = Ok l' -> exists ds, l = map VDict ds.
Proof.
  intros Hb. induction l as [|q l IH]; intros l' E.
  - exists []. reflexivity.
  - simpl in E. destruct (body q) as [q'|e] eqn:Eq; [|discriminate].
    simpl in E. destruct (omap body l) as [l0|e] eqn:El; [|discriminate].
    destruct (Hb q q' Eq) as [d ->]. destruct (IH l0 eq_refl) as [ds ->].
    exists (d :: ds). reflexivity.
Qed.

End Repair.

End RepairFacts.

Section Closure.

Context {World : Type} `{Services World} `{PyLib}.

(** C1, as the code has it. On a parsed list of question objects the
    repair of [run_quiz_generator_agent] gives every question a true
    explanation: a missing or false one is replaced by the sentence built
    from the declared correct label (from "A" when there is none), a true
    one is kept. The repair of [run_adaptive_agent] does the same and then
    makes [choices] a list: a missing value or a value that is not a list
    is replaced by the four placeholder options, a list is kept whatever
    its length. Neither repair reads or changes the correct label. A repair
    that succeeds on a list went over objects only; on a value that is not
    a list it succeeds only for an empty object or an empty string, which
    it returns. Both operations return the repaired parse of the raw
    completion. *)
Theorem repair_closure :
  (forall ds,
      generator_repair (VList (map VDict ds))
      = Ok (VList (map (fun d => VDict (with_explanation d)) ds))) /\
  (forall ds,
      adaptive_repair (VList (map VDict ds))
      = Ok (VList (map (fun d => VDict (with_choices (with_explanation d))) ds))) /\
  (forall l qs', generator_repair (VList l) = Ok qs' -> exists ds, l = map VDict ds) /\
  (forall l qs', adaptive_repair (VList l) = Ok qs' -> exists ds, l = map VDict ds) /\
  (forall qs qs',
      generator_repair qs = Ok qs' \/ adaptive_repair qs = Ok qs' ->
      (exists l, qs = VList l) \/ (qs' = qs /\ (qs = VDict [] \/ qs = VStr ""))) /\
  (forall d,
      (exists e, Py.dict_lookup "explanation" (with_explanation d) = Some e /\
                 Py.truthy e = true) /\
      (forall e, Py.dict_lookup "explanation" d = Some e -> Py.truthy e = true ->
                 with_explanation d = d) /\
      (Py.dict_lookup "explanation" d = None \/
       (exists e, Py.dict_lookup "explanation" d = Some e /\ Py.truthy e = false) ->
       with_explanation d
       = Py.dict_set "explanation" (VStr (synthesized_explanation d)) d) /\
      (forall s, Py.dict_lookup "correct" d = Some (VStr s) ->
                 synthesized_explanation d
                 = "Based on the context, " +s+ s +s+ " is the correct answer.") /\
      (Py.dict_lookup "correct" d = None ->
       synthesized_explanation d = "Based on the context, A is the correct answer.") /\
      Py.dict_lookup "correct" (with_explanation d) = Py.dict_lookup "correct" d /\
      Py.dict_lookup "choices" (with_explanation d) = Py.dict_lookup "choices" d) /\
  (forall d,
      (exists l, Py.dict_lookup "choices" (with_choices d) = Some (VList l)) /\
      (forall l, Py.dict_lookup "choices" d = Some (VList l) -> with_choices d = d) /\
      ((forall l, Py.dict_lookup "choices" d <> Some (VList l)) ->
       with_choices d = Py.dict_set "choices" placeholder_choices d /\
       four_choices (VDict (with_choices d)) = true) /\
      Py.dict_lookup "explanation" (with_choices d) = Py.dict_lookup "explanation" d /\
      Py.dict_lookup "correct" (with_choices d) = Py.dict_lookup "correct" d) /\
  (forall book topic n (st : state World) r st',
      run_quiz_generator_agent book topic n st = (Ok r, st') ->
      exists parsed,
        parse_questions generator_parse_error (model_raw_output r) = Ok parsed /\
        generator_repair parsed = Ok (questions r)) /\
  (forall id book topic n (st : state World) r st',
      run_adaptive_agent id book topic n st = (Ok r, st') ->
      exists parsed,
        parse_questions adaptive_parse_error (a_raw r) = Ok parsed /\
        adaptive_repair parsed = Ok (a_questions r)).
Proof.
  repeat apply conj.
  - intros ds. unfold generator_repair, for_each_question.
    rewrite (RepairFacts.omap_dicts ensure_explanation with_explanation
               RepairFacts.ensure_explanation_dict).
    reflexivity.
  - intros ds. unfold adaptive_repair, for_each_question.
    rewrite (RepairFacts.omap_dicts
               (fun q => obind (ensure_explanation q) ensure_choices)
               (fun d => with_choices (with_explanation d))).
    + reflexivity.
    + intros d. rewrite RepairFacts.ensure_explanation_dict. simpl.
      apply RepairFacts.ensure_choices_dict.
  - intros l qs' E. unfold generator_repair, for_each_question in E.
    destruct (omap ensure_explanation l) as [l'|e] eqn:El; [|discriminate].
    eapply RepairFacts.omap_ok_dicts; [|exact El].
    apply RepairFacts.ensure_explanation_ok.
  - intros l qs' E. unfold adaptive_repair, for_each_question in E.
    destruct (omap (fun q => obind (ensure_explanation q) ensure_choices) l)
      as [l'|e] eqn:El; [|discriminate].
    eapply RepairFacts.omap_ok_dicts; [|exact El].
    intros q q' Eq. destruct q; simpl in Eq; try discriminate. eauto.
  - intros qs qs' E. unfold generator_repair, adaptive_repair, for_each_question in E.
    destruct qs as [| | | s | l | d]; simpl in E;
      try (destruct E; discriminate).
    + destruct s; simpl in E; [|destruct E; discriminate].
      right. destruct E as [E|E]; injection E as <-; auto.
    + left. eauto.
    + destruct d as [|[k v] d]; simpl in E; [|destruct E; discriminate].
      right. destruct E as [E|E]; injection E as <-; auto.
  - intros d. repeat apply conj.
    + apply RepairFacts.with_explanation_truthy.
    + intros e E T. unfold with_explanation. now rewrite E, T.
    + intros [E|[e [E T]]]; unfold with_explanation; rewrite E;
        [reflexivity | now rewrite T].
    + intros s E. unfold synthesized_explanation. now rewrite E.
    + intros E. unfold synthesized_explanation. now rewrite E.
    + unfold with_explanation.
      destruct (Py.dict_lookup "explanation" d) as [e|];
        [destruct (Py.truthy e); [reflexivity|] |];
        apply RepairFacts.lookup_set_other; discriminate.
    + unfold with_explanation.
      destruct (Py.dict_lookup "explanation" d) as [e|];
        [destruct (Py.truthy e); [reflexivity|] |];
        apply RepairFacts.lookup_set_other; discriminate.
  - intros d. repeat apply conj.
    + apply RepairFacts.with_choices_list.
    + intros l E. unfold with_choices. now rewrite E.
    + intros Hn. unfold four_choices, with_choices.
      destruct (Py.dict_lookup "choices" d) as [c|] eqn:E.
      * destruct c; try (rewrite RepairFacts.lookup_set_same; split; reflexivity).
        exfalso. eapply Hn. reflexivity.
      * rewrite RepairFacts.lookup_set_same. split; reflexivity.
    + apply RepairFacts.with_choices_keeps_explanation.
    + unfold with_choices.
      destruct (Py.dict_lookup "choices" d) as [c|];
        [destruct c; try reflexivity |];
        apply RepairFacts.lookup_set_other; discriminate.
  - intros book topic n st r st' Hrun. unfold run_quiz_generator_agent in Hrun.
    destruct (negb (DocId.truthy book) || negb (PyStr.nonempty topic));
      [discriminate|].
    repeat peel Hrun. pure_steps. simpl. eauto.
  - intros id book topic n st r st' Hrun. unfold run_adaptive_agent in Hrun.
    peel Hrun. destruct a as [t h].
    repeat peel Hrun. pure_steps. simpl. eauto.
Qed.

End Closure.

(** The repair of the adaptive generator on an object without choices, in
    the example library. *)
Lemma repair_closure_witness :
  with_choices [("question", VStr "Q1")]
  = Py.dict_set "choices" placeholder_choices [("question", VStr "Q1")] /\
  four_choices (VDict (with_choices [("question", VStr "Q1")])) = true.
Proof.
  destruct (@repair_closure Script.world Script.services ExampleLib.lib)
    as [_ [_ [_ [_ [_ [_ [Hch _]]]]]]].
  destruct (Hch [("question", VStr "Q1")]) as [_ [_ [Hmissing _]]].
  apply Hmissing. intros l. discriminate.
Defined.

(** The claim fails on both generation operations: the generator returns a
    question without choices and with a label outside A-D, which its repair
    leaves as they are; the adaptive generator returns a question with
    three choices. *)
Lemma repair_leaves_schema_open :
  (exists r st' q,
      run_quiz_generator_agent (IdInt 1) "topic" 1
        (Script.start (Script.simple [Ok (Some bare_question_text)]
                                     (Raise (ServiceError "down"))))
      = (Ok r, st') /\
      questions r = VList [q] /\
      four_choices q = false /\ valid_label q = false) /\
  (exists r st' q,
      run_adaptive_agent "student" (IdInt 1) "topic" 1
        (Script.start (Script.simple [Ok (Some three_choices_text)]
                                     (Raise (ServiceError "down"))))
      = (Ok r, st') /\
      a_questions r = VList [q] /\
      four_choices q = false).
Proof.
  split; eexists _, _, _; (split; [lazy; reflexivity|]); repeat split; reflexivity.
Qed.

(* ================================================================== *)
(** ** Retrieval *)
(* ================================================================== *)

Module RetrievalFacts.

Lemma omap_length {A B} (f : A -> outcome B) (l : list A) (l' : list B) :
  omap f l = Ok l' -> List.length l' = List.length l.
Proof.
  revert l'. induction l as [|x l IH]; intros l' E; simpl in E.
  - injection E as <-. reflexivity.
  - destruct (f x) as [y|e]; [|discriminate]. simpl in E.
    destruct (omap f l) as [ys|e]; [|discriminate]. simpl in E.
    injection E as <-. simpl. now rewrite (IH ys eq_refl).
Qed.

(** On candidates whose metadata are dictionaries the loop is a filter. *)
Lemma filter_book_dicts (book : doc_id) (cands : list retrieved) :
  Forall (fun c => exists d, r_meta c = VDict d) cands ->
  filter_book book cands = Ok (filter (matches_book book) cands).
Proof.
  induction 1 as [|c cands [d Hd] _ IH]; [reflexivity|].
  simpl. unfold matches_book. rewrite Hd. simpl. rewrite IH. simpl.
  now destruct (DocId.eqb_value _ book).
Qed.

(** The loop gets through only if every metadata is a dictionary. *)
Lemma filter_book_ok (book : doc_id) (cands sel : list retrieved) :
  filter_book book cands = Ok sel ->
  Forall (fun c => exists d, r_meta c = VDict d) cands.
Proof.
  revert sel. induction cands as [|c cands IH]; intros sel E; [constructor|].
  simpl in E. destruct (r_meta c) eqn:Em; simpl in E; try discriminate.
  destruct (filter_book book cands) as [tl|e]; [|discriminate].
  constructor; [eauto | eapply IH; reflexivity].
Qed.

Lemma relevant_chunks_ok (book : doc_id) (resp : query_result) (sel : list retrieved) :
  relevant_chunks book resp = Ok sel -> sel = spec_selection book resp.
Proof.
  unfold relevant_chunks, spec_selection. intros E.
  destruct (filter_book book (candidates resp)) as [l|e] eqn:El; [|discriminate].
  rewrite (filter_book_dicts book _ (filter_book_ok book _ l El)) in El.
  injection El as <-. simpl in E.
  destruct (filter (matches_book book) (candidates resp)); now injection E as <-.
Qed.

End RetrievalFacts.

Section Retrieval.

Context {World : Type} `{Services World} `{PyLib}.

(** C7, as the code has it. In [run_quiz_generator_agent] the candidates
    (documents zipped with their metadata) are filtered to those whose
    [bookId] equals the requested book, and all candidates are used when
    none is left; the result reports how many were used. The context
    helper [get_relevant_context], used by the validator and by the
    adaptive generator, takes no book: it labels every retrieved document,
    one part per document, and joins the parts. *)
Theorem retrieval_selection :
  (forall book resp,
      Forall (fun c => exists d, r_meta c = VDict d) (candidates resp) ->
      relevant_chunks book resp = Ok (spec_selection book resp)) /\
  (forall book resp sel,
      relevant_chunks book resp = Ok sel -> sel = spec_selection book resp) /\
  (forall book resp,
      (filter (matches_book book) (candidates resp) <> [] ->
       spec_selection book resp = filter (matches_book book) (candidates resp)) /\
      (filter (matches_book book) (candidates resp) = [] ->
       spec_selection book resp = candidates resp)) /\
  (forall book topic n (st : state World) r st',
      run_quiz_generator_agent book topic n st = (Ok r, st') ->
      exists resp st1,
        query topic 6 None st = (Ok resp, st1) /\
        chunks_used r = List.length (spec_selection book resp)) /\
  (forall topic n (st : state World) context st',
      get_relevant_context topic n st = (Ok context, st') ->
      exists resp parts,
        query topic n None st = (Ok resp, st') /\
        omap (context_part (metadatas resp)) (enumerate 0 (documents resp)) = Ok parts /\
        List.length parts = List.length (documents resp) /\
        context = String.concat (nl +s+ nl) parts).
Proof.
  repeat apply conj.
  - intros book resp Hd. unfold relevant_chunks, spec_selection.
    rewrite (RetrievalFacts.filter_book_dicts book _ Hd). simpl.
    now destruct (filter (matches_book book) (candidates resp)).
  - apply RetrievalFacts.relevant_chunks_ok.
  - intros book resp. unfold spec_selection.
    destruct (filter (matches_book book) (candidates resp)); split; congruence.
  - intros book topic n st r st' Hrun. unfold run_quiz_generator_agent in Hrun.
    destruct (negb (DocId.truthy book) || negb (PyStr.nonempty topic));
      [discriminate|].
    peel Hrun. exists a, st0. split; [assumption|].
    repeat peel Hrun. pure_steps. simpl.
    match goal with
    | E : relevant_chunks _ _ = Ok _ |- _ =>
        now rewrite (RetrievalFacts.relevant_chunks_ok _ _ _ E)
    end.
  - intros topic n st context st' Hrun. unfold get_relevant_context in Hrun.
    peel Hrun. peel Hrun. pure_steps.
    exists a, a0. split; [assumption|]. split; [assumption|].
    split; [|reflexivity].
    rewrite (RetrievalFacts.omap_length _ _ _ E0).
    apply BatchFacts.enumerate_length.
Qed.

End Retrieval.

(** The generator's selection in a store with two books: the chunk of the
    requested book alone. *)
Lemma retrieval_selection_witness :
  relevant_chunks (IdInt 1) two_books_result
  = Ok [mkRetrieved (VStr "doc one")
          (VDict [("bookId", VNum 1); ("position", VNum 0); ("summary", VStr "s1")])
          (Some (1 # 4)%Q)].
Proof.
  destruct (@retrieval_selection Script.world Script.services ExampleLib.lib)
    as [Hsel _].
  apply (Hsel (IdInt 1) two_books_result).
  repeat constructor; eexists; reflexivity.
Defined.

(** The claim fails for the adaptive generator (and likewise for the
    validator): asked for book 1 in a store that also holds book 2, the
    context sent to the completion service contains the chunk of book 2,
    although the chunks of book 1 alone are not empty. *)
Lemma adaptive_context_ignores_book :
  exists r st' ms m,
    run_adaptive_agent "student" (IdInt 1) "topic" 1
      (Script.start (Script.simple [Ok (Some one_question_text)] (Ok two_books)))
    = (Ok r, st') /\
    calls st' = [ms] /\
    nth_error ms 2 = Some m /\
    is_substring "doc two" (content m) = true /\
    map r_doc (spec_selection (IdInt 1) two_books_result) = [VStr "doc one"].
Proof.
  eexists _, _, _, _. split; [lazy; reflexivity|].
  split; [reflexivity|]. split; [reflexivity|]. split; reflexivity.
Qed.

(* ================================================================== *)
(** ** Failures of the external services *)
(* ================================================================== *)

Section Failures.

Context {World : Type} `{Services World} `{PyLib}.

(** C8, as the code has it. An exception of the completion service is
    raised again by [call_openai] and ends [run_quiz_generator_agent],
    [run_adaptive_agent] and [run_quiz_validator_agent] with that
    exception: in the validator this holds for the validation request and
    for the repair request of any question, the first or a later one, and
    no report is returned. Of the vector store, only a failure to obtain
    the collection is raised by [query] and ends the three operations; an
    exception of the collection query itself is caught by [query], which
    answers with an empty result, so that generation and validation go on
    with an empty context. The summarizer returns a record whatever the
    completion service does. *)
Theorem failure_propagation :
  (forall ms max_tokens temperature (st : state World) e w,
      chat_create "gpt-4o-mini" ms max_tokens temperature (world st) = (Raise e, w) ->
      call_openai (PromptMessages ms) max_tokens temperature st
      = (Raise e, mkState w (calls st ++ [ms]))) /\
  (forall text n book (st : state World) e w,
      get_collection (world st) = (Raise e, w) ->
      query text n book st = (Raise e, mkState w (calls st))) /\
  (forall text n book (st : state World) w e w',
      get_collection (world st) = (Ok tt, w) ->
      collection_query text n book w = (Raise e, w') ->
      query text n book st = (Ok empty_result, mkState w' (calls st))) /\
  (forall book, relevant_chunks book empty_result = Ok [] /\
                generator_context [] = Ok "") /\
  (forall book topic n (st : state World) e w,
      DocId.truthy book = true -> PyStr.nonempty topic = true ->
      get_collection (world st) = (Raise e, w) ->
      fst (run_quiz_generator_agent book topic n st) = Raise e) /\
  (forall book topic n (st : state World) resp st1 chunks context e w,
      DocId.truthy book = true -> PyStr.nonempty topic = true ->
      query topic 6 None st = (Ok resp, st1) ->
      relevant_chunks book resp = Ok chunks ->
      generator_context chunks = Ok context ->
      chat_create "gpt-4o-mini" (generator_prompt n topic context) 2000 0 (world st1)
      = (Raise e, w) ->
      fst (run_quiz_generator_agent book topic n st) = Raise e) /\
  (forall qid qs topic auto_fix (st : state World) e w,
      get_collection (world st) = (Raise e, w) ->
      fst (run_quiz_validator_agent qid qs topic auto_fix st) = Raise e) /\
  (forall qid q qs topic auto_fix (st : state World) context st1 e w,
      get_relevant_context topic 8 st = (Ok context, st1) ->
      chat_create "gpt-4o-mini" (validation_prompt q context) 400 0 (world st1)
      = (Raise e, w) ->
      fst (run_quiz_validator_agent qid (q :: qs) topic auto_fix st) = Raise e) /\
  (forall c book (st : state World),
      exists r st', process_single_chunk c book st = (Ok r, st')) /\
  (forall context auto_fix q (st0 : state World) e w,
      chat_create "gpt-4o-mini" (validation_prompt q context) 400 0 (world st0)
      = (Raise e, w) ->
      validate_question context auto_fix q st0
      = (Raise e, mkState w (calls st0 ++ [validation_prompt q context]))) /\
  (forall context q (st0 : state World) reply w1 v e w2,
      chat_create "gpt-4o-mini" (validation_prompt q context) 400 0 (world st0)
      = (Ok reply, w1) ->
      Py.getitem (parse_validation (match reply with Some s => s | None => "" end)) "valid"
      = Ok v ->
      Py.truthy v = false ->
      chat_create "gpt-4o-mini" (fix_prompt q context) 500 0 w1 = (Raise e, w2) ->
      validate_question context true q st0
      = (Raise e,
         mkState w2 (calls st0 ++ [validation_prompt q context; fix_prompt q context]))) /\
  (forall qid qs1 q qs2 topic auto_fix (st : state World) context st0 rs st1 e st2,
      get_relevant_context topic 8 st = (Ok context, st0) ->
      validate_all context auto_fix qs1 [] st0 = (Ok rs, st1) ->
      validate_question context auto_fix q st1 = (Raise e, st2) ->
      run_quiz_validator_agent qid (qs1 ++ q :: qs2) topic auto_fix st = (Raise e, st2)) /\
  (forall id book topic n (st : state World) t h st1 e w,
      performance_profile id st = (Ok (t, h), st1) ->
      get_collection (world st1) = (Raise e, w) ->
      run_adaptive_agent id book topic n st = (Raise e, mkState w (calls st1))) /\
  (forall id book topic n (st : state World) t h st1 context st2 e w,
      performance_profile id st = (Ok (t, h), st1) ->
      get_relevant_context topic 6 st1 = (Ok context, st2) ->
      chat_create "gpt-4o-mini"
                  (adaptive_prompt n topic (modifier t h (assess t h)) context)
                  2000 0 (world st2)
      = (Raise e, w) ->
      run_adaptive_agent id book topic n st
      = (Raise e,
         mkState w (calls st2
                    ++ [adaptive_prompt n topic (modifier t h (assess t h)) context]))) /\
  (forall topic n (st : state World) w e w',
      get_collection (world st) = (Ok tt, w) ->
      collection_query topic n None w = (Raise e, w') ->
      get_relevant_context topic n st = (Ok "", mkState w' (calls st))).
Proof.
  repeat apply conj.
  - intros ms mt t st e w E. unfold call_openai. now rewrite E.
  - intros text n book st e w E. unfold query, bind, service. now rewrite E.
  - intros text n book st w e w' E1 E2.
    unfold query, bind, catch, service. rewrite E1. simpl. rewrite E2. reflexivity.
  - intros book. split; reflexivity.
  - intros book topic n st e w Hb Ht E.
    unfold run_quiz_generator_agent. rewrite Hb, Ht. simpl.
    unfold bind at 1. unfold query, bind, service. now rewrite E.
  - intros book topic n st resp st1 chunks context e w Hb Ht Eq Er Ec Ea.
    unfold run_quiz_generator_agent. rewrite Hb, Ht. simpl.
    unfold bind at 1. rewrite Eq.
    unfold bind at 1. unfold lift at 1. rewrite Er.
    unfold bind at 1. unfold lift at 1. rewrite Ec.
    unfold bind at 1. unfold call_openai. now rewrite Ea.
  - intros qid qs topic auto_fix st e w E.
    unfold run_quiz_validator_agent. unfold bind at 1.
    unfold get_relevant_context. unfold bind at 1.
    unfold query, bind, service. now rewrite E.
  - intros qid q qs topic auto_fix st context st1 e w Ec Ea.
    unfold run_quiz_validator_agent. unfold bind at 1. rewrite Ec.
    unfold bind at 1. cbn [validate_all]. unfold bind at 1.
    unfold validate_question. unfold bind at 1. unfold call_openai.
    now rewrite Ea.
  - intros c book st.
    destruct (process_single_chunk_total c book st) as [r [st' [E _]]]. eauto.
  - intros context auto_fix q st0 e w E.
    unfold validate_question. unfold bind at 1. unfold call_openai. now rewrite E.
  - intros context q st0 reply w1 v e w2 E1 Ev Ht E2.
    unfold validate_question, bind, call_openai, lift, ret.
    rewrite E1, Ev, Ht. simpl. rewrite E2. simpl. now rewrite <- app_assoc.
  - intros qid qs1 q qs2 topic auto_fix st context st0 rs st1 e st2 Ec El Eq.
    unfold run_quiz_validator_agent. unfold bind at 1. rewrite Ec.
    unfold bind at 1.
    now rewrite (ValidatorFacts.validate_all_raises context auto_fix q qs2 qs1 [] rs
                   st0 st1 st2 e El Eq).
  - intros id book topic n st t h st1 e w Ep Eg.
    unfold run_adaptive_agent. unfold bind at 1. rewrite Ep.
    unfold bind at 1. unfold get_relevant_context. unfold bind at 1.
    unfold query, bind, service. now rewrite Eg.
  - intros id book topic n st t h st1 context st2 e w Ep Ec Ea.
    unfold run_adaptive_agent. unfold bind at 1. rewrite Ep.
    unfold bind at 1. rewrite Ec.
    unfold bind at 1. unfold call_openai. now rewrite Ea.
  - intros topic n st w e w' E1 E2.
    unfold get_relevant_context, query, bind, catch, service, lift, ret.
    rewrite E1. simpl. rewrite E2. reflexivity.
Qed.

End Failures.

(** The completion service down during generation, in a scripted world:
    the generator raises the exception of the service. Then a validation of
    two questions in which the repair request of the second one fails: the
    validator raises that exception after three requests. *)
Lemma failure_propagation_witness :
  fst (run_quiz_generator_agent (IdInt 1) "topic" 1
         (Script.start (Script.simple [Raise (ServiceError "rate limit")] (Ok two_books))))
  = Raise (ServiceError "rate limit") /\
  exists st2,
    run_quiz_validator_agent "quiz" ([VStr "Q1"] ++ VStr "Q2" :: []) "topic" true
      (Script.start
         (Script.simple [Ok (Some verdict_true_text); Ok (Some verdict_false_text);
                         Raise (ServiceError "rate limit")]
                        (Raise (ServiceError "down"))))
    = (Raise (ServiceError "rate limit"), st2) /\
    List.length (calls st2) = 3.
Proof.
  destruct (@failure_propagation Script.world Script.services ExampleLib.lib)
    as [_ [_ [_ [_ [_ [Hgen [_ [_ [_ [_ [_ [Hlater _]]]]]]]]]]]].
  split.
  - eapply (Hgen (IdInt 1) "topic" 1%Z
                 (Script.start (Script.simple [Raise (ServiceError "rate limit")]
                                              (Ok two_books))));
      reflexivity.
  - eexists. split.
    + eapply (Hlater "quiz" [VStr "Q1"] (VStr "Q2") [] "topic" true);
        vm_compute; reflexivity.
    + reflexivity.
Defined.

(** The claim fails for the vector store: when the collection query
    raises, the generator does not fail; it asks the completion service
    with an empty context and returns the questions it gets. *)
Lemma index_failure_is_swallowed :
  exists r st' ms m,
    run_quiz_generator_agent (IdInt 1) "topic" 1
      (Script.start (Script.simple [Ok (Some one_question_text)]
                                   (Raise (ServiceError "index down"))))
    = (Ok r, st') /\
    chunks_used r = 0 /\
    n_questions r = 1 /\
    calls st' = [ms] /\
    nth_error ms 2 = Some m /\
    content m = "CONTEXT:" +s+ nl.
Proof.
  eexists _, _, _, _. split; [lazy; reflexivity|].
  repeat split; reflexivity.
Qed.

(* ================================================================== *)
(** ** The vector store service *)
(* ================================================================== *)

Module StoreFacts.

Section Handle.

Context {W : Type} `{ChromaClient W}.

(** [_get_collection] and [initialize_chroma] together. *)
Lemma get_collection_handle_cases (st : state (globals W)) :
  get_collection_handle st
  = if has_collection (world st) then (Ok tt, st)
    else
      match new_client (outside (world st)) with
      | (Raise e, w) => (Raise e, mkState (mkGlobals false false w) (calls st))
      | (Ok _, w) =>
          match get_or_create_collection w with
          | (Raise e, w') => (Raise e, mkState (mkGlobals false false w') (calls st))
          | (Ok _, w') => (Ok tt, mkState (mkGlobals true true w') (calls st))
          end
      end.
Proof.
  destruct st as [[c k w] log].
  unfold get_collection_handle, initialize_chroma, bind, catch, collection_is_none,
    client_call, service, set_client, set_collection, raise, ret.
  simpl. destruct k; simpl; [reflexivity|].
  destruct (new_client w) as [[[]|e] w1]; simpl; [|reflexivity].
  destruct (get_or_create_collection w1) as [[[]|e] w2]; reflexivity.
Qed.

Lemma handle_ready (st : state (globals W)) :
  has_collection (world st) = true -> get_collection_handle st = (Ok tt, st).
Proof. intros E. rewrite get_collection_handle_cases, E. reflexivity. Qed.

Lemma handle_ok (st st' : state (globals W)) :
  get_collection_handle st = (Ok tt, st') ->
  has_collection (world st') = true /\ calls st' = calls st.
Proof.
  rewrite get_collection_handle_cases.
  destruct (has_collection (world st)) eqn:E.
  - intros E'. injection E' as <-. auto.
  - destruct (new_client (outside (world st))) as [[[]|e] w1]; [|discriminate].
    destruct (get_or_create_collection w1) as [[[]|e] w2]; [|discriminate].
    intros E'. injection E' as <-. auto.
Qed.

End Handle.

End StoreFacts.

Section StoreHandle.

Context {W : Type} `{ChromaClient W}.

(** X1. The collection is obtained lazily and at most once. With the
    collection at hand [_get_collection] returns without calling the client
    library. When it returns, the collection is at hand, so that every
    later call returns at once. When it raises, the exception is the one of
    the client constructor or of [get_or_create_collection], both globals
    are [None] again, and the branch that raises a connection error is
    never reached. *)
Theorem store_handle_lazy (st : state (globals W)) :
  (has_collection (world st) = true -> get_collection_handle st = (Ok tt, st)) /\
  (forall st',
      get_collection_handle st = (Ok tt, st') ->
      has_collection (world st') = true /\
      get_collection_handle st' = (Ok tt, st')) /\
  (forall e st',
      get_collection_handle st = (Raise e, st') ->
      has_client (world st') = false /\
      has_collection (world st') = false /\
      (fst (new_client (outside (world st))) = Raise e \/
       exists w, new_client (outside (world st)) = (Ok tt, w) /\
                 fst (get_or_create_collection w) = Raise e)).
Proof.
  repeat apply conj.
  - apply StoreFacts.handle_ready.
  - intros st' E. destruct (StoreFacts.handle_ok st st' E) as [Hc _].
    split; [exact Hc | now apply StoreFacts.handle_ready].
  - intros e st'. rewrite StoreFacts.get_collection_handle_cases.
    destruct (has_collection (world st)); [discriminate|].
    destruct (new_client (outside (world st))) as [[[]|e1] w1] eqn:E1.
    + destruct (get_or_create_collection w1) as [[[]|e2] w2] eqn:E2; [discriminate|].
      intros E. injection E as <- <-. simpl. repeat split.
      right. exists w1. rewrite E2. auto.
    + intros E. injection E as <- <-. simpl. repeat split. now left.
Qed.

End StoreHandle.

(** A store that is down, then the same call on a store that works. *)
Lemma store_handle_lazy_witness :
  fst (get_collection_handle (Shelf.fresh [] true)) = Raise (ServiceError "store down") /\
  exists st',
    get_collection_handle (Shelf.fresh [] false) = (Ok tt, st') /\
    get_collection_handle st' = (Ok tt, st').
Proof.
  split; [reflexivity|].
  destruct (@store_handle_lazy Shelf.world Shelf.client (Shelf.fresh [] false))
    as [_ [Hok _]].
  eexists. split; [reflexivity|].
  apply (Hok _ eq_refl).
Defined.

Section StoreWrites.

Context {W : Type} `{ChromaClient W}.

(** X2. [add_chunks] asks for the collection before it looks at the
    chunks: when the store cannot be initialised it raises, also for an
    empty list. With the collection at hand an empty list gives 0 with no
    call of the client library. A call that returns gives the number of
    chunks it was handed. When the chunks were added and the count that
    follows (which is only printed) fails, the call raises although the
    chunks are in the store. *)
Theorem add_chunks_result (book : doc_id) (cs : list indexed_chunk)
        (st : state (globals W)) :
  (forall e st1,
      get_collection_handle st = (Raise e, st1) ->
      add_chunks book cs st = (Raise e, st1)) /\
  (forall st1,
      get_collection_handle st = (Ok tt, st1) ->
      cs = [] ->
      add_chunks book cs st = (Ok 0, st1)) /\
  (forall n st',
      add_chunks book cs st = (Ok n, st') ->
      n = List.length cs /\ calls st' = calls st) /\
  (forall st1 w1 e w2,
      get_collection_handle st = (Ok tt, st1) ->
      cs <> [] ->
      coll_add (map chunk_id cs) (map chunk_body cs) (map metadata cs)
               (outside (world st1)) = (Ok tt, w1) ->
      coll_count w1 = (Raise e, w2) ->
      fst (add_chunks book cs st) = Raise e /\
      outside (world (snd (add_chunks book cs st))) = w2).
Proof.
  repeat apply conj.
  - intros e st1 E. unfold add_chunks, bind. now rewrite E.
  - intros st1 E ->. unfold add_chunks, bind. now rewrite E.
  - intros n st'. unfold add_chunks, bind.
    destruct (get_collection_handle st) as [[[]|e] st1] eqn:E; [|discriminate].
    destruct (StoreFacts.handle_ok st st1 E) as [_ Hc].
    destruct cs as [|c cs'].
    + unfold ret. intros E'. injection E' as <- <-. auto.
    + unfold catch, bind, client_call, service, ret, raise.
      destruct (coll_add _ _ _ (outside (world st1))) as [[[]|e] w1];
        [|discriminate].
      cbn [world calls outside].
      destruct (coll_count w1) as [[k|e] w2]; [|discriminate].
      intros E'. injection E' as <- <-. auto.
  - intros st1 w1 e w2 E Hcs Eadd Ecount.
    unfold add_chunks, bind. rewrite E.
    destruct cs as [|c cs']; [congruence|].
    unfold catch, bind, client_call, service, ret, raise.
    rewrite Eadd. cbn [world calls outside]. rewrite Ecount. auto.
Qed.

(** X3. With the collection at hand, [check_chunks_exist],
    [delete_book_chunks] and [get_collection_stats] never raise: a failure
    of the client library is turned into the answer 0, into a plain return,
    and into statistics with a zero total and the error. So the answer 0 of
    [check_chunks_exist] does not tell a book without chunks from a store
    that failed, and [delete_book_chunks] returns in the same way whether
    the chunks were deleted or not. [delete] is called only for a non-empty
    list of ids. The only exception these functions raise is the one of a
    failed initialisation. *)
Theorem store_lookups_degrade (book : doc_id) (st : state (globals W)) :
  match get_collection_handle st with
  | (Raise e, st1) =>
      check_chunks_exist book st = (Raise e, st1) /\
      delete_book_chunks book st = (Raise e, st1) /\
      get_collection_stats st = (Raise e, st1)
  | (Ok _, st1) =>
      (exists n st',
          check_chunks_exist book st = (Ok n, st') /\
          match coll_get book (outside (world st1)) with
          | (Ok (Some (mkGet (Some found))), _) => n = List.length found
          | _ => n = 0
          end) /\
      (exists st',
          delete_book_chunks book st = (Ok tt, st') /\
          match coll_get book (outside (world st1)) with
          | (Ok (Some (mkGet (Some (i :: found)))), w) =>
              outside (world st') = snd (coll_delete (i :: found) w)
          | (_, w) => outside (world st') = w
          end) /\
      (exists s st',
          get_collection_stats st = (Ok s, st') /\
          match coll_count (outside (world st1)) with
          | (Raise e, _) => s = mkStats 0 [] (Some e)
          | (Ok n, w) =>
              match coll_peek 3 w with
              | (Raise e, _) => s = mkStats 0 [] (Some e)
              | (Ok sample, _) => total_chunks s = n /\ stats_error s = None
              end
          end)
  end.
Proof.
  unfold check_chunks_exist, delete_book_chunks, get_collection_stats, bind.
  destruct (get_collection_handle st) as [[[]|e] st1]; [|auto].
  unfold catch, bind, client_call, service, ret, raise, lift.
  repeat apply conj.
  - destruct (coll_get book (outside (world st1))) as [[[[[found|]]|]|e] w];
      eexists _, _; split; reflexivity.
  - destruct (coll_get book (outside (world st1))) as [[[[[[|i found]|]]|]|e] w];
      cbn [world calls outside ids_of];
      try (eexists; split; reflexivity).
    destruct (coll_delete (i :: found) w) as [[[]|e] w'];
      eexists; split; reflexivity.
  - destruct (coll_count (outside (world st1))) as [[n|e] w];
      cbn [world calls outside]; [|eexists _, _; split; reflexivity].
    destruct (coll_peek 3 w) as [[sample|e] w'];
      eexists _, _; split; try reflexivity. split; reflexivity.
Qed.

(** X4. [clear_collection] after a successful deletion: when the
    collection cannot be created again the call raises, and the global
    [_collection] keeps the value it had. If there was a collection, the
    module goes on handing out the handle of the deleted collection:
    [_get_collection] returns it without initialising anything. *)
Theorem clear_collection_keeps_handle (st : state (globals W)) (w1 w2 : W) (e : exn) :
  has_client (world st) = true ->
  delete_collection (outside (world st)) = (Ok tt, w1) ->
  get_or_create_collection w1 = (Raise e, w2) ->
  exists st',
    clear_collection st = (Raise e, st') /\
    outside (world st') = w2 /\
    has_collection (world st') = has_collection (world st) /\
    (has_collection (world st) = true ->
     get_collection_handle st' = (Ok tt, st')).
Proof.
  intros Hc Ed Eg. destruct st as [[c k w] log]. simpl in *. subst c.
  eexists. split.
  - unfold clear_collection, bind, catch, client_is_none, client_call, service,
      ret, raise, set_collection. simpl. rewrite Ed. simpl. rewrite Eg. reflexivity.
  - simpl. repeat split. intros ->. now apply StoreFacts.handle_ready.
Qed.

End StoreWrites.

(** A store that answers three calls: the client, the collection and the
    addition of one chunk; the count fails. *)
Lemma add_chunks_result_witness :
  fst (add_chunks (IdStr "b1")
         [mkIndexed "b1-0" "Para A."
            (mkMetadata (IdStr "b1") 0 (VStr "s") (VStr "") (VStr ""))]
         (Fuse.start false 3)) = Raise (ServiceError "store down") /\
  outside (world (snd (add_chunks (IdStr "b1")
         [mkIndexed "b1-0" "Para A."
            (mkMetadata (IdStr "b1") 0 (VStr "s") (VStr "") (VStr ""))]
         (Fuse.start false 3)))) = 0.
Proof.
  destruct (@add_chunks_result Fuse.world Fuse.client (IdStr "b1")
              [mkIndexed "b1-0" "Para A."
                 (mkMetadata (IdStr "b1") 0 (VStr "s") (VStr "") (VStr ""))]
              (Fuse.start false 3)) as [_ [_ [_ Hc]]].
  apply (Hc (Fuse.start true 1) 0 (ServiceError "store down") 0);
    [reflexivity | discriminate | reflexivity | reflexivity].
Defined.

(** A store that answers one more call: the deletion. *)
Lemma clear_collection_keeps_handle_witness :
  exists st',
    clear_collection (Fuse.start true 1) = (Raise (ServiceError "store down"), st') /\
    outside (world st') = 0 /\
    has_collection (world st') = true /\
    (true = true -> get_collection_handle st' = (Ok tt, st')).
Proof.
  apply (@clear_collection_keeps_handle Fuse.world Fuse.client
           (Fuse.start true 1) 0 0 (ServiceError "store down"));
    reflexivity.
Defined.

(* ================================================================== *)
(** ** The curriculum agent as a whole *)
(* ================================================================== *)

Module CurriculumFacts.

Lemma append_inj_l (a x y : string) : a +s+ x = a +s+ y -> x = y.
Proof.
  induction a as [|c a IH]; simpl; intros E; [exact E|].
  injection E as E. auto.
Qed.

Lemma to_uint_nonnil (n : nat) : Nat.to_uint n <> Decimal.Nil.
Proof.
  intros E. pose proof (DecimalNat.Unsigned.of_to n) as R.
  rewrite E in R. simpl in R. subst n. discriminate E.
Qed.

Lemma str_of_nat_inj (m n : nat) : Py.str_of_nat m = Py.str_of_nat n -> m = n.
Proof.
  unfold Py.str_of_nat. intros E.
  apply (f_equal NilZero.uint_of_string) in E.
  rewrite !NilZero.usu in E by apply to_uint_nonnil. injection E as E.
  apply (f_equal Nat.of_uint) in E.
  now rewrite !DecimalNat.Unsigned.of_to in E.
Qed.

Lemma take_length (n : nat) : forall s : string, String.length (substring 0 n s) <= n.
Proof.
  induction n as [|n IH]; intros [|c s]; simpl; try lia.
  specialize (IH s). lia.
Qed.

Lemma firstn_seq (k : nat) : forall a n, firstn k (seq a n) = seq a (Nat.min k n).
Proof.
  induction k as [|k IH]; intros a [|n]; simpl; try reflexivity.
  now rewrite IH.
Qed.

Lemma requests_length (bs : list (list chunk)) :
  forall news : list (list (list message)),
    Forall2 (fun b new => Permutation new (map summary_request b)) bs news ->
    List.length (List.concat news) = List.length (List.concat bs).
Proof.
  induction bs as [|b bs IH]; intros news F; inversion F; subst; [reflexivity|].
  simpl. rewrite !length_app. f_equal; [|now apply IH].
  match goal with P : Permutation _ _ |- _ => apply Permutation_length in P; rewrite P end.
  apply length_map.
Qed.

Lemma summarizes_fields (book : doc_id) (cs : list chunk) :
  forall db : list indexed_chunk,
    Forall2 (summarizes book) cs db ->
    List.length db = List.length cs /\
    map (fun r => meta_position (metadata r)) db = map position cs /\
    map chunk_id db
    = map (fun c => DocId.str book +s+ "-" +s+ Py.str_of_nat (position c)) cs /\
    map chunk_body db = map text cs.
Proof.
  induction cs as [|c cs IH]; intros db F; inversion F; subst.
  - repeat split.
  - match goal with F' : Forall2 _ cs _ |- _ =>
      destruct (IH _ F') as [L [P [I B]]] end.
    match goal with S : summarizes _ _ _ |- _ => destruct S as [S1 [S2 [_ S4]]] end.
    simpl. rewrite L, P, I, B, S1, S2, S4. repeat split.
Qed.

Lemma chunk_text_positions (document : string) (size : Z) :
  map position (chunk_text document size)
  = seq 0 (List.length (chunk_text document size)).
Proof.
  destruct (CoverFacts.chunk_groups size (paragraphs_of document)
              (SplitFacts.paragraphs_nonempty document)) as [g [_ [_ [_ [_ [P _]]]]]].
  exact P.
Qed.

Lemma omap_entries (l : list indexed_chunk) :
  forall entries,
    omap summary_entry_of l = Ok entries ->
    map entry_position entries = map (fun r => meta_position (metadata r)) l /\
    Forall (fun e => String.length (entry_summary e) <= 103) entries /\
    Forall (fun r => is_string (summary (metadata r)) = true) l.
Proof.
  induction l as [|r l IH]; simpl; intros entries E.
  - injection E as <-. repeat split; constructor.
  - unfold obind in E. unfold summary_entry_of at 1 in E.
    destruct (summary (metadata r)) as [| | |s| |] eqn:Es; try discriminate.
    destruct (omap summary_entry_of l) as [es|e]; [|discriminate].
    injection E as <-. destruct (IH es eq_refl) as [P [L S]].
    simpl. rewrite P. repeat split.
    + constructor; [|exact L]. simpl. rewrite StrFacts.length_append.
      pose proof (take_length (Z.to_nat 100) s) as B. unfold PyStr.take.
      simpl in *. lia.
    + constructor; [now rewrite Es | exact S].
Qed.

Lemma omap_entries_total (l : list indexed_chunk) :
  Forall (fun r => is_string (summary (metadata r)) = true) l ->
  exists entries, omap summary_entry_of l = Ok entries.
Proof.
  induction 1 as [|r l Hr _ [es IH]]; simpl; [eexists; reflexivity|].
  unfold obind, summary_entry_of at 1.
  destruct (summary (metadata r)); try discriminate.
  rewrite IH. eexists; reflexivity.
Qed.

Lemma omap_entries_stuck (l : list indexed_chunk) :
  Exists (fun r => is_string (summary (metadata r)) = false) l ->
  exists e, omap summary_entry_of l = Raise e.
Proof.
  induction 1 as [r l Hr | r l _ [e IH]]; simpl; unfold obind, summary_entry_of at 1.
  - destruct (summary (metadata r)); try discriminate; eexists; reflexivity.
  - destruct (summary (metadata r)); try (eexists; reflexivity).
    rewrite IH. eexists; reflexivity.
Qed.

Section Stages.

Context {W : Type} `{ChromaClient W} `{Services (globals W)} `{PyLib}.

Lemma handle_calls (st : state (globals W)) :
  calls (snd (get_collection_handle st)) = calls st.
Proof.
  rewrite StoreFacts.get_collection_handle_cases.
  destruct (has_collection (world st)); [reflexivity|].
  destruct (new_client (outside (world st))) as [[[]|e] w1]; [|reflexivity].
  destruct (get_or_create_collection w1) as [[[]|e] w2]; reflexivity.
Qed.

Lemma add_chunks_calls (book : doc_id) (cs : list indexed_chunk) (st : state (globals W)) :
  calls (snd (add_chunks book cs st)) = calls st.
Proof.
  unfold add_chunks, bind. pose proof (handle_calls st) as Hc.
  destruct (get_collection_handle st) as [[[]|e] st1]; simpl in Hc; [|exact Hc].
  destruct cs as [|c cs']; [exact Hc|].
  unfold catch, bind, client_call, service, ret, raise.
  destruct (coll_add _ _ _ (outside (world st1))) as [[[]|e] w1];
    cbn [world calls outside snd]; [|exact Hc].
  destruct (coll_count w1) as [[k|e] w2]; exact Hc.
Qed.

(** The batch loop on the chunks of a text. *)
Lemma summarize_stage (book : doc_id) (cs : list chunk) (st : state (globals W)) :
  exists db st1,
    summarize_chunks cs book st = (Ok db, st1) /\
    Forall2 (summarizes book) cs db /\
    List.length (calls st1) = List.length (calls st) + List.length cs.
Proof.
  destruct (BatchFacts.process_batches_total book cs
              (batch_starts (List.length cs)) [] st)
    as [rs [st' [news [E [F [C P]]]]]].
  exists rs, st'. repeat split.
  - exact E.
  - rewrite <- (BatchFacts.batches_cover cs) at 1. exact F.
  - rewrite C, length_app. f_equal.
    rewrite (requests_length _ _ P).
    change (List.length (List.concat (batches_of cs)) = List.length cs).
    now rewrite BatchFacts.batches_cover.
Qed.

End Stages.

End CurriculumFacts.

Section CurriculumRun.

Context {W : Type} `{ChromaClient W} `{Services (globals W)} `{PyLib}.

(** X5. [run_curriculum_agent] refuses an empty text and a false book id
    (the number 0 as well as the empty string) with a [ValueError] before
    anything is sent or stored. Otherwise it sends exactly one
    summarisation request per chunk of the text, whatever happens later in
    the run. A result it returns carries the book id, counts every chunk
    of the text as inserted, and lists the first ten chunks at most, by
    position from 0, each summary cut to 100 characters and followed by
    three dots. *)
Theorem curriculum_run (book : doc_id) (document : string) (size : Z)
        (st : state (globals W)) :
  (DocId.truthy book = false \/ document = "" ->
   run_curriculum_agent book document size st
   = (Raise (ValueError "book_id and text are required"), st)) /\
  (DocId.truthy book = true ->
   document <> "" ->
   List.length (calls (snd (run_curriculum_agent book document size st)))
   = List.length (calls st) + List.length (chunk_text document size) /\
   forall result st',
     run_curriculum_agent book document size st = (Ok result, st') ->
     curriculum_book result = book /\
     inserted_chunks result = List.length (chunk_text document size) /\
     map entry_position (chunks_summary result)
     = seq 0 (Nat.min 10 (List.length (chunk_text document size))) /\
     Forall (fun e => String.length (entry_summary e) <= 103)
            (chunks_summary result)).
Proof.
  split.
  - intros [Hb | ->]; unfold run_curriculum_agent.
    + rewrite Hb, orb_true_r. reflexivity.
    + reflexivity.
  - intros Hb Hd. apply StrFacts.nonempty_true in Hd.
    remember (run_curriculum_agent book document size st) as r eqn:Er.
    unfold run_curriculum_agent in Er. rewrite Hb, Hd in Er. cbn [negb orb] in Er.
    set (cs := chunk_text document size) in *.
    destruct (CurriculumFacts.summarize_stage book cs st) as [db [st1 [E [F L]]]].
    destruct (CurriculumFacts.summarizes_fields book cs db F) as [Ldb [P _]].
    pose proof (CurriculumFacts.add_chunks_calls book db st1) as Hc.
    unfold bind at 1 in Er. rewrite E in Er. unfold bind at 1 in Er.
    destruct (add_chunks book db st1) as [[k|e] st2]; simpl in Hc.
    + unfold bind, lift, save_agent_output, service, ret in Er.
      destruct (omap summary_entry_of (firstn 10 db)) as [entries|e] eqn:Eo.
      * destruct (write_output "curriculum_agent" (world st2)) as [[[]|e] w];
          subst r; cbn [snd calls]; (split; [congruence|]); intros result st' R;
          [|discriminate].
        injection R as <- <-. cbn [curriculum_book inserted_chunks chunks_summary].
        destruct (CurriculumFacts.omap_entries _ _ Eo) as [Pe [Le _]].
        repeat split; try assumption.
        rewrite Pe, <- firstn_map, P. unfold cs.
        rewrite CurriculumFacts.chunk_text_positions. apply CurriculumFacts.firstn_seq.
      * subst r. cbn [snd]. split; [congruence | discriminate].
    + subst r. cbn [snd]. split; [congruence | discriminate].
Qed.

(** X6. What the summaries of the first ten chunks decide, once the
    chunks are stored: when one of them is not a string (a completion such
    as an object whose summary is a number or null) the run raises after
    the chunks were added to the store, and no output file is written; when
    all of them are strings and the output file can be written, the run
    returns. *)
Theorem curriculum_summary_must_be_string (book : doc_id) (document : string)
        (size : Z) (st st1 st2 : state (globals W)) (db : list indexed_chunk) (n : nat) :
  DocId.truthy book = true ->
  document <> "" ->
  summarize_chunks (chunk_text document size) book st = (Ok db, st1) ->
  add_chunks book db st1 = (Ok n, st2) ->
  (Exists (fun r => is_string (summary (metadata r)) = false) (firstn 10 db) ->
   exists e, run_curriculum_agent book document size st = (Raise e, st2)) /\
  (Forall (fun r => is_string (summary (metadata r)) = true) (firstn 10 db) ->
   forall w,
     write_output "curriculum_agent" (world st2) = (Ok tt, w) ->
     exists result,
       run_curriculum_agent book document size st
       = (Ok result, mkState w (calls st2))).
Proof.
  intros Hb Hd E Ea. apply StrFacts.nonempty_true in Hd.
  remember (run_curriculum_agent book document size st) as r eqn:Er.
  unfold run_curriculum_agent in Er. rewrite Hb, Hd in Er. cbn [negb orb] in Er.
  unfold bind at 1 in Er. rewrite E in Er.
  unfold bind at 1 in Er. rewrite Ea in Er.
  unfold bind, lift, save_agent_output, service, ret in Er. split.
  - intros X. destruct (CurriculumFacts.omap_entries_stuck _ X) as [e Eo].
    rewrite Eo in Er. now exists e.
  - intros Fs w Ew. destruct (CurriculumFacts.omap_entries_total _ Fs) as [es Eo].
    rewrite Eo, Ew in Er. eexists. exact Er.
Qed.

(** X7. The records that the batch loop hands to [add_chunks] carry
    pairwise distinct ids, the id of the chunk at position k being the book
    id, a dash and k in decimal; so one run never gives the store the same
    id twice. *)
Theorem chunk_ids_distinct (book : doc_id) (document : string) (size : Z)
        (st : state (globals W)) :
  exists db st1,
    summarize_chunks (chunk_text document size) book st = (Ok db, st1) /\
    map chunk_id db
    = map (fun k => DocId.str book +s+ "-" +s+ Py.str_of_nat k)
          (seq 0 (List.length (chunk_text document size))) /\
    NoDup (map chunk_id db).
Proof.
  destruct (CurriculumFacts.summarize_stage book (chunk_text document size) st)
    as [db [st1 [E [F _]]]].
  destruct (CurriculumFacts.summarizes_fields book _ db F) as [_ [_ [I _]]].
  assert (Ids : map chunk_id db
                = map (fun k => DocId.str book +s+ "-" +s+ Py.str_of_nat k)
                      (seq 0 (List.length (chunk_text document size)))).
  { rewrite I, <- CurriculumFacts.chunk_text_positions. now rewrite map_map. }
  exists db, st1. repeat split; [exact E | exact Ids |].
  rewrite Ids. apply Finite.Injective_map_NoDup; [|apply seq_NoDup].
  intros a b Eab. apply CurriculumFacts.append_inj_l in Eab.
  apply (CurriculumFacts.append_inj_l "-") in Eab.
  now apply CurriculumFacts.str_of_nat_inj.
Qed.

End CurriculumRun.

(** A text of one paragraph, summarised by a completion in plain words and
    kept in a working store. *)
Lemma curriculum_run_witness :
  exists result st',
    run_curriculum_agent (IdStr "b1") "Para A." 2000
      (Shelf.fresh [Ok (Some "plain words")] false) = (Ok result, st') /\
    curriculum_book result = IdStr "b1" /\
    inserted_chunks result = List.length (chunk_text "Para A." 2000) /\
    map entry_position (chunks_summary result)
    = seq 0 (Nat.min 10 (List.length (chunk_text "Para A." 2000))) /\
    Forall (fun e => String.length (entry_summary e) <= 103) (chunks_summary result).
Proof.
  eexists _, _. split; [vm_compute; reflexivity|].
  destruct (@curriculum_run Shelf.world Shelf.client Shelf.services ExampleLib.lib
              (IdStr "b1") "Para A." 2000
              (Shelf.fresh [Ok (Some "plain words")] false)) as [_ Hrun].
  destruct (Hrun eq_refl ltac:(discriminate)) as [_ Hres].
  eapply Hres. vm_compute. reflexivity.
Defined.

(** The same text with a completion whose summary is the number 5: the
    chunk is in the store and the run raises. *)
Lemma curriculum_summary_must_be_string_witness :
  exists e st2,
    run_curriculum_agent (IdStr "b1") "Para A." 2000
      (Shelf.fresh [Ok (Some numeric_summary_text)] false) = (Raise e, st2) /\
    Shelf.stored (outside (world st2)) = [("b1-0", IdStr "b1")].
Proof.
  destruct (@curriculum_summary_must_be_string
              Shelf.world Shelf.client Shelf.services ExampleLib.lib
              (IdStr "b1") "Para A." 2000
              (Shelf.fresh [Ok (Some numeric_summary_text)] false)
              (snd (summarize_chunks (chunk_text "Para A." 2000) (IdStr "b1")
                      (Shelf.fresh [Ok (Some numeric_summary_text)] false)))
              (snd (run_curriculum_agent (IdStr "b1") "Para A." 2000
                      (Shelf.fresh [Ok (Some numeric_summary_text)] false)))
              [mkIndexed "b1-0" "Para A."
                 (mkMetadata (IdStr "b1") 0 (VNum 5) (VStr "") (VStr ""))]
              1
              eq_refl ltac:(discriminate))
    as [Hraise _].
  - vm_compute. reflexivity.
  - vm_compute. reflexivity.
  - destruct Hraise as [e He].
    + apply Exists_cons_hd. reflexivity.
    + exists e. eexists. split; [exact He|]. vm_compute. reflexivity.
Defined.

(* ================================================================== *)
(** ** The completion requests of a generation run *)
(* ================================================================== *)

Module RequestFacts.

Section Counting.

Context {World : Type} `{Services World} `{PyLib}.

Lemma bind_sends {A B} (m : M World A) (k : A -> M World B) (a b : nat) :
  (forall st, List.length (calls (snd (m st))) <= List.length (calls st) + a) ->
  (forall x st, List.length (calls (snd (k x st))) <= List.length (calls st) + b) ->
  forall st,
    List.length (calls (snd (bind m k st))) <= List.length (calls st) + (a + b).
Proof.
  intros Hm Hk st. unfold bind. specialize (Hm st).
  destruct (m st) as [[x|e] st1]; simpl in *; [|lia].
  specialize (Hk x st1). lia.
Qed.

Lemma lift_quiet {A} (o : outcome A) (st : state World) :
  List.length (calls (snd (lift o st))) <= List.length (calls st) + 0.
Proof. simpl. lia. Qed.

Lemma service_quiet {A} (f : World -> outcome A * World) (st : state World) :
  List.length (calls (snd (service f st))) <= List.length (calls st) + 0.
Proof. rewrite LogFacts.service_calls. lia. Qed.

Lemma service_total_quiet {A} (f : World -> A * World) (st : state World) :
  List.length (calls (snd (service_total f st))) <= List.length (calls st) + 0.
Proof. unfold service_total. destruct (f (world st)). simpl. lia. Qed.

Lemma context_quiet (topic : string) (n : Z) (st : state World) :
  List.length (calls (snd (get_relevant_context topic n st)))
  <= List.length (calls st) + 0.
Proof. rewrite LogFacts.get_relevant_context_calls. lia. Qed.

Lemma query_quiet (topic : string) (n : Z) (book : option doc_id) (st : state World) :
  List.length (calls (snd (query topic n book st))) <= List.length (calls st) + 0.
Proof. rewrite LogFacts.query_calls. lia. Qed.

Lemma call_openai_once (ms : list message) (mt : Z) (t : Q) (st : state World) :
  List.length (calls (snd (call_openai (PromptMessages ms) mt t st)))
  <= List.length (calls st) + 1.
Proof. rewrite LogFacts.call_openai_calls, length_app. simpl. lia. Qed.

Lemma service_total_log {A} (f : World -> A * World) (st st' : state World) (a : A) :
  service_total f st = (Ok a, st') -> calls st' = calls st.
Proof.
  unfold service_total. destruct (f (world st)). intros E. now inversion E.
Qed.

Lemma service_log {A} (f : World -> outcome A * World) (st st' : state World)
      (r : outcome A) :
  service f st = (r, st') -> calls st' = calls st.
Proof. intros E. pose proof (LogFacts.service_calls f st) as C. now rewrite E in C. Qed.

Lemma query_log (topic : string) (n : Z) (book : option doc_id) (st st' : state World)
      (r : outcome query_result) :
  query topic n book st = (r, st') -> calls st' = calls st.
Proof. intros E. pose proof (LogFacts.query_calls topic n book st) as C. now rewrite E in C. Qed.

Lemma context_log (topic : string) (n : Z) (st st' : state World) (r : outcome string) :
  get_relevant_context topic n st = (r, st') -> calls st' = calls st.
Proof.
  intros E. pose proof (LogFacts.get_relevant_context_calls topic n st) as C.
  now rewrite E in C.
Qed.

Lemma call_openai_log (ms : list message) (mt : Z) (t : Q) (st st' : state World)
      (r : outcome string) :
  call_openai (PromptMessages ms) mt t st = (r, st') -> calls st' = calls st ++ [ms].
Proof.
  intros E. pose proof (LogFacts.call_openai_calls ms mt t st) as C. now rewrite E in C.
Qed.

Lemma profile_log (id : string) (st st' : state World) (r : outcome (Q * Q)) :
  performance_profile id st = (r, st') -> calls st' = calls st.
Proof.
  unfold performance_profile, bind. 
  destruct (service (find_by_external_id id) st) as [[[s|]|e] st1] eqn:E1;
    apply service_log in E1.
  - destruct (service (find_by_student (student_id s)) st1) as [[h|e] st2] eqn:E2;
      apply service_log in E2; unfold ret; intros E; inversion E; subst; congruence.
  - unfold ret. intros E. inversion E; subst. exact E1.
  - intros E. inversion E; subst. exact E1.
Qed.

Lemma profile_quiet (id : string) (st : state World) :
  List.length (calls (snd (performance_profile id st))) <= List.length (calls st) + 0.
Proof.
  unfold performance_profile.
  apply (bind_sends _ _ 0 0); [apply service_quiet|].
  intros [s|] st0; [|simpl; lia].
  apply (bind_sends _ _ 0 0); [apply service_quiet|].
  intros h st1. simpl. lia.
Qed.

Lemma generator_sends (book : doc_id) (topic : string) (n : Z) (st : state World) :
  List.length (calls (snd (run_quiz_generator_agent book topic n st)))
  <= List.length (calls st) + 1.
Proof.
  unfold run_quiz_generator_agent.
  destruct (negb (DocId.truthy book) || negb (PyStr.nonempty topic)); [simpl; lia|].
  revert st.
  apply (bind_sends _ _ 0 1); [apply query_quiet|]. intros resp.
  apply (bind_sends _ _ 0 1); [apply lift_quiet|]. intros chunks.
  apply (bind_sends _ _ 0 1); [apply lift_quiet|]. intros context.
  apply (bind_sends _ _ 1 0); [apply call_openai_once|]. intros raw.
  apply (bind_sends _ _ 0 0); [apply lift_quiet|]. intros parsed.
  apply (bind_sends _ _ 0 0); [apply lift_quiet|]. intros qs.
  apply (bind_sends _ _ 0 0); [apply service_total_quiet|]. intros qid.
  apply (bind_sends _ _ 0 0); [apply lift_quiet|]. intros count.
  apply (bind_sends _ _ 0 0); [apply lift_quiet|]. intros infos.
  apply (bind_sends _ _ 0 0); [apply service_quiet|]. intros [] st. simpl. lia.
Qed.

Lemma adaptive_sends (id : string) (book : doc_id) (topic : string) (n : Z)
      (st : state World) :
  List.length (calls (snd (run_adaptive_agent id book topic n st)))
  <= List.length (calls st) + 1.
Proof.
  unfold run_adaptive_agent. revert st.
  apply (bind_sends _ _ 0 1); [apply profile_quiet|]. intros [t h].
  apply (bind_sends _ _ 0 1); [apply context_quiet|]. intros context.
  apply (bind_sends _ _ 1 0); [apply call_openai_once|]. intros raw.
  apply (bind_sends _ _ 0 0); [apply lift_quiet|]. intros parsed.
  apply (bind_sends _ _ 0 0); [apply lift_quiet|]. intros qs.
  apply (bind_sends _ _ 0 0); [apply service_total_quiet|]. intros qid.
  apply (bind_sends _ _ 0 0); [apply lift_quiet|]. intros count.
  apply (bind_sends _ _ 0 0); [apply service_quiet|]. intros [] st. simpl. lia.
Qed.

End Counting.

End RequestFacts.

Section Generation.

Context {World : Type} `{Services World} `{PyLib}.

(** X8. A generation run sends one completion request and never a second
    one: on every path of [run_quiz_generator_agent] and of
    [run_adaptive_agent], a failure included, at most one request is added
    to the log, and a run that returns has added exactly its generation
    prompt. The questions returned are the repaired parse of the raw
    completion that is returned with them, and the count in the result is
    the length of that list of questions, whatever number was asked for. *)
Theorem generation_single_request :
  (forall book topic n (st : state World),
      List.length (calls (snd (run_quiz_generator_agent book topic n st)))
      <= List.length (calls st) + 1) /\
  (forall id book topic n (st : state World),
      List.length (calls (snd (run_adaptive_agent id book topic n st)))
      <= List.length (calls st) + 1) /\
  (forall book topic n (st : state World) r st',
      run_quiz_generator_agent book topic n st = (Ok r, st') ->
      (exists context, calls st' = calls st ++ [generator_prompt n topic context]) /\
      Py.len (questions r) = Ok (n_questions r) /\
      List.length (retrieved_chunks_info r) = chunks_used r /\
      exists parsed,
        parse_questions generator_parse_error (model_raw_output r) = Ok parsed /\
        generator_repair parsed = Ok (questions r)) /\
  (forall id book topic n (st : state World) r st',
      run_adaptive_agent id book topic n st = (Ok r, st') ->
      (exists modif context,
          calls st' = calls st ++ [adaptive_prompt n topic modif context]) /\
      Py.len (a_questions r) = Ok (a_n_questions r) /\
      exists parsed,
        parse_questions adaptive_parse_error (a_raw r) = Ok parsed /\
        adaptive_repair parsed = Ok (a_questions r)).
Proof.
  repeat apply conj.
  - apply RequestFacts.generator_sends.
  - apply RequestFacts.adaptive_sends.
  - intros book topic n st r st' Hrun. unfold run_quiz_generator_agent in Hrun.
    destruct (negb (DocId.truthy book) || negb (PyStr.nonempty topic));
      [discriminate|].
    repeat peel Hrun. pure_steps. simpl.
    repeat match goal with
           | E : query _ _ _ _ = _ |- _ => apply RequestFacts.query_log in E
           | E : call_openai _ _ _ _ = _ |- _ => apply RequestFacts.call_openai_log in E
           | E : service_total _ _ = _ |- _ => apply RequestFacts.service_total_log in E
           | E : save_agent_output _ _ = _ |- _ => apply RequestFacts.service_log in E
           end.
    repeat split.
    + match goal with
      | E : calls _ = calls _ ++ [generator_prompt _ _ ?c] |- _ => exists c
      end.
      congruence.
    + assumption.
    + eapply RetrievalFacts.omap_length. eassumption.
    + eexists. split; eassumption.
  - intros id book topic n st r st' Hrun. unfold run_adaptive_agent in Hrun.
    peel Hrun. destruct a as [t h].
    repeat peel Hrun. pure_steps. simpl.
    repeat match goal with
           | E : performance_profile _ _ = _ |- _ => apply RequestFacts.profile_log in E
           | E : get_relevant_context _ _ _ = _ |- _ => apply RequestFacts.context_log in E
           | E : call_openai _ _ _ _ = _ |- _ => apply RequestFacts.call_openai_log in E
           | E : service_total _ _ = _ |- _ => apply RequestFacts.service_total_log in E
           | E : save_agent_output _ _ = _ |- _ => apply RequestFacts.service_log in E
           end.
    repeat split.
    + match goal with
      | E : calls _ = calls _ ++ [adaptive_prompt _ _ ?m ?c] |- _ => exists m, c
      end.
      congruence.
    + assumption.
    + eexists. split; eassumption.
Qed.

End Generation.

(** Five questions asked, one question in the completion: the result
    counts one. *)
Lemma generation_single_request_witness :
  exists r st',
    run_quiz_generator_agent (IdInt 1) "cells" 5
      (Script.start (Script.simple [Ok (Some one_question_text)]
                                   (Raise (ServiceError "down"))))
    = (Ok r, st') /\
    n_questions r = 1 /\
    Py.len (questions r) = Ok (n_questions r) /\
    List.length (calls st') = 1.
Proof.
  eexists _, _. split; [vm_compute; reflexivity|].
  split; [reflexivity|].
  destruct (@generation_single_request Script.world Script.services ExampleLib.lib)
    as [_ [_ [Hgen _]]].
  edestruct (Hgen (IdInt 1) "cells" 5%Z
               (Script.start (Script.simple [Ok (Some one_question_text)]
                                            (Raise (ServiceError "down")))))
    as [[context Hlog] [Hlen _]].
  - vm_compute. reflexivity.
  - split; [exact Hlen|]. rewrite Hlog. reflexivity.
Defined.

(* ================================================================== *)
(** ** The questions of the saved quiz *)
(* ================================================================== *)

Module SelectionFacts.

Lemma verdict_ok (r : validation_result) (v : value) :
  Py.getitem (validation r) "valid" = Ok v ->
  verdict r = Ok (verdict_of r).
Proof. unfold verdict, verdict_of. now intros ->. Qed.

Lemma first_pass_spec (results : list validation_result) :
  Forall (fun r => exists v, Py.getitem (validation r) "valid" = Ok v) results ->
  forall final,
    first_pass results final
    = Ok (final ++ map contribution (filter passes results)).
Proof.
  induction 1 as [|r rest [v Hv] _ IH]; intros final.
  - simpl. now rewrite app_nil_r.
  - cbn [first_pass filter].
    destruct (fix_usable r) eqn:Fx.
    + assert (P : passes r = true) by (unfold passes; now rewrite Fx).
      assert (C : contribution r = fixed_question r)
        by (unfold contribution; now rewrite Fx).
      rewrite P. cbn [map]. rewrite C, IH, <- app_assoc. reflexivity.
    + assert (P : passes r = verdict_of r) by (unfold passes; now rewrite Fx).
      assert (C : contribution r = v_question r)
        by (unfold contribution; now rewrite Fx).
      rewrite (verdict_ok r v Hv), P. cbn [obind].
      destruct (verdict_of r).
      * cbn [map]. rewrite C, IH, <- app_assoc. reflexivity.
      * apply IH.
Qed.

Lemma fill_up_spec (n : Z) (results : list validation_result) :
  Forall (fun r => exists v, Py.getitem (validation r) "valid" = Ok v) results ->
  forall final,
    fill_up n results final
    = Ok (final
          ++ map v_question
               (firstn (Z.to_nat (n - Z.of_nat (List.length final)))
                       (filter (fun r => negb (passes r)) results))).
Proof.
  induction 1 as [|r rest [v Hv] _ IH]; intros final.
  - simpl. now rewrite firstn_nil, app_nil_r.
  - cbn [fill_up].
    destruct (Z.of_nat (List.length final) >=? n)%Z eqn:Full.
    + apply Z.geb_le in Full.
      replace (Z.to_nat (n - Z.of_nat (List.length final))) with 0 by lia.
      simpl. now rewrite app_nil_r.
    + rewrite Z.geb_leb in Full. apply Z.leb_gt in Full.
      rewrite (verdict_ok r v Hv). cbn [obind filter].
      assert (P : negb (passes r) = negb (verdict_of r) && negb (fix_usable r))
        by (unfold passes; rewrite negb_orb; apply andb_comm).
      rewrite P.
      destruct (negb (verdict_of r) && negb (fix_usable r)).
      * rewrite IH, <- app_assoc, length_app. simpl.
        replace (Z.to_nat (n - Z.of_nat (List.length final)))
          with (S (Z.to_nat (n - Z.of_nat (List.length final + 1)))) by lia.
        reflexivity.
      * apply IH.
Qed.

End SelectionFacts.

(** X9. The questions that [generate_quiz] saves, for validation results
    that all carry a verdict: first, in their order, the results that pass
    (a true fix, else a true verdict), each with its fix if it has a true
    one and with its own question otherwise; then, when these are fewer
    than the number asked for, the questions that failed validation and
    have no true fix, in their order, up to that number. So questions that
    failed validation are saved whenever too few passed, the quiz is never
    cut down to the number asked for, and it has at least that number of
    questions or one per result. *)
Theorem saved_questions (n : Z) (results : list validation_result) :
  Forall (fun r => exists v, Py.getitem (validation r) "valid" = Ok v) results ->
  exists final,
    final_questions n results = Ok final /\
    final
    = map contribution (filter passes results)
      ++ map v_question
           (firstn (Z.to_nat (n - Z.of_nat (List.length (filter passes results))))
                   (filter (fun r => negb (passes r)) results)) /\
    List.length final <= List.length results /\
    (Z.min n (Z.of_nat (List.length results)) <= Z.of_nat (List.length final))%Z.
Proof.
  intros Hv. unfold final_questions.
  rewrite (SelectionFacts.first_pass_spec results Hv []). cbn [obind app].
  set (kept := filter passes results).
  set (rejected := filter (fun r => negb (passes r)) results).
  assert (Hsplit : List.length kept + List.length rejected = List.length results).
  { apply ValidatorFacts.filter_split. }
  rewrite length_map. fold kept.
  destruct (Z.of_nat (List.length kept) <? n)%Z eqn:Short.
  - apply Z.ltb_lt in Short.
    rewrite (SelectionFacts.fill_up_spec n results Hv), length_map. fold kept rejected.
    eexists. split; [reflexivity|]. split; [reflexivity|].
    rewrite length_app, !length_map, length_firstn. lia.
  - apply Z.ltb_ge in Short.
    replace (Z.to_nat (n - Z.of_nat (List.length kept))) with 0 by lia.
    simpl. rewrite app_nil_r.
    eexists. split; [reflexivity|]. split; [reflexivity|].
    rewrite length_map. lia.
Qed.

(** One question asked for, one result with a false verdict and no fix:
    the question that failed validation is the quiz. *)
Lemma saved_questions_witness :
  exists final,
    final_questions 1 [mkValidation (VStr "Q1") (VDict [("valid", VBool false)]) VNone]
    = Ok final /\
    final = [VStr "Q1"].
Proof.
  destruct (saved_questions 1
              [mkValidation (VStr "Q1") (VDict [("valid", VBool false)]) VNone])
    as [final [E [Hfinal _]]].
  - constructor; [|constructor]. eexists. reflexivity.
  - exists final. split; [exact E | exact Hfinal].
Defined.

(* ================================================================== *)
(** ** The history that the database gives to the adaptive agent *)
(* ================================================================== *)

Module HistoryFacts.

Lemma responses_zero (history_data : option (list (string * attempt))) :
  Forall (fun r => time_ms r = Some 0%Q /\ hints_used r = Some 0%Q)
         (map as_response (get_student_responses history_data)).
Proof.
  destruct history_data as [[|item items]|]; try constructor.
  - destruct item. split; reflexivity.
  - apply Forall_forall. intros r Hin.
    apply in_map_iff in Hin. destruct Hin as [x [<- Hx]].
    apply in_map_iff in Hx. destruct Hx as [[k a] [<- _]]. split; reflexivity.
Qed.

Section Sums.

Context `{PyLib}.

Lemma sum_zeros (f : response -> Q) (history : list response) :
  num_add 0 0 = 0%Q ->
  Forall (fun r => f r = 0%Q) history ->
  py_sum (map f history) = 0%Q.
Proof.
  intros Hadd Hz. unfold py_sum.
  induction Hz as [|r l Hr _ IH]; simpl; [reflexivity|].
  now rewrite Hr, Hadd.
Qed.

Lemma assess_zero (t h : Q) :
  (t == 0)%Q -> (h == 0)%Q -> assess t h = "increase difficulty".
Proof.
  intros Ht Hh.
  destruct (PolicyFacts.assess_cases t h) as [[_ E]|[[N _]|[N _]]];
    [exact E | exfalso; apply N; split; lra | exfalso; apply N; split; lra].
Qed.

Lemma zero_history_profile (history : list response) :
  history <> [] ->
  Forall (fun r => time_ms r = Some 0%Q /\ hints_used r = Some 0%Q) history ->
  num_add 0 0 = 0%Q ->
  (num_div 0 (inject_Z (Z.of_nat (List.length history))) == 0)%Q ->
  assess (fst (history_profile history)) (snd (history_profile history))
  = "increase difficulty".
Proof.
  intros Hne Hz Hadd Hdiv. unfold history_profile.
  destruct history as [|r l]; [congruence|].
  cbn [fst snd].
  rewrite (sum_zeros (fun r => or_zero (time_ms r)) (r :: l) Hadd),
          (sum_zeros (fun r => or_zero (hints_used r)) (r :: l) Hadd).
  - now apply assess_zero.
  - eapply Forall_impl; [|exact Hz]. intros x [_ Hx]. now rewrite Hx.
  - eapply Forall_impl; [|exact Hz]. intros x [Hx _]. now rewrite Hx.
Qed.

End Sums.

End HistoryFacts.

Section History.

Context {World : Type} `{Services World} `{PyLib}.

(** X10. [get_student_responses] puts 0 for the time and for the hints
    of every entry of a student's history. So, with a sum of zeros that is
    zero and zero divided by the number of entries that is zero, the
    averages of a history that comes from the database are both 0, and the
    directive of [run_adaptive_agent] for a student with a history is
    "increase difficulty" whatever the attempts were; without a history it
    is "maintain difficulty", and "decrease difficulty" is never given. *)
Theorem stored_history_raises_difficulty (history_data : option (list (string * attempt))) :
  num_add 0 0 = 0%Q ->
  (num_div 0 (inject_Z (Z.of_nat
      (List.length (map as_response (get_student_responses history_data))))) == 0)%Q ->
  (map as_response (get_student_responses history_data) <> [] ->
   assess (fst (history_profile (map as_response (get_student_responses history_data))))
          (snd (history_profile (map as_response (get_student_responses history_data))))
   = "increase difficulty") /\
  (forall id book topic n (st : state World) s w w' r st',
      find_by_external_id id (world st) = (Ok (Some s), w) ->
      find_by_student (student_id s) w
      = (Ok (map as_response (get_student_responses history_data)), w') ->
      run_adaptive_agent id book topic n st = (Ok r, st') ->
      difficulty_hint r
      = match get_student_responses history_data with
        | [] => "maintain difficulty"
        | _ :: _ => "increase difficulty"
        end).
Proof.
  intros Hadd Hdiv.
  set (history := map as_response (get_student_responses history_data)) in *.
  assert (Hinc : history <> [] ->
                 assess (fst (history_profile history)) (snd (history_profile history))
                 = "increase difficulty").
  { intros Hne. apply HistoryFacts.zero_history_profile; try assumption.
    apply HistoryFacts.responses_zero. }
  split; [exact Hinc|].
  intros id book topic n st s w w' r st' Es Eh Hrun.
  assert (Ep : performance_profile id st
               = (Ok (history_profile history), mkState w' (calls st))).
  { unfold performance_profile, bind, service. rewrite Es. simpl. rewrite Eh.
    reflexivity. }
  unfold run_adaptive_agent in Hrun.
  peel Hrun. rewrite Ep in E. injection E as <- <-.
  destruct (history_profile history) as [t h] eqn:Eprof.
  repeat peel Hrun. pure_steps. simpl.
  destruct (get_student_responses history_data) as [|x l] eqn:Er.
  - subst history. simpl in Eprof. injection Eprof as <- <-. reflexivity.
  - apply Hinc. subst history. discriminate.
Qed.

End History.

(** A student with one attempt in the history, two answers right and
    five wrong. *)
Lemma stored_history_raises_difficulty_witness :
  assess
    (fst (history_profile
            (map as_response
               (get_student_responses (Some [("a1", mkAttempt (Some 2%Z) (Some 5%Z))])))))
    (snd (history_profile
            (map as_response
               (get_student_responses (Some [("a1", mkAttempt (Some 2%Z) (Some 5%Z))])))))
  = "increase difficulty".
Proof.
  destruct (@stored_history_raises_difficulty Script.world Script.services ExampleLib.lib
              (Some [("a1", mkAttempt (Some 2%Z) (Some 5%Z))]))
    as [Hinc _].
  - reflexivity.
  - vm_compute. reflexivity.
  - apply Hinc. discriminate.
Defined.

(* ================================================================== *)
(** ** Texts without a chunk *)
(* ================================================================== *)

Module BlankFacts.

Import PyStr.

Lemma blank_app (a b : string) : blank (a +s+ b) = blank a && blank b.
Proof.
  induction a as [|c a IH]; simpl; [reflexivity|].
  now rewrite IH, andb_assoc.
Qed.

Lemma blank_rev_onto (s acc : string) : blank (rev_onto s acc) = blank s && blank acc.
Proof.
  revert acc. induction s as [|c s IH]; intros acc; simpl; [reflexivity|].
  rewrite IH. simpl. destruct (is_space c), (blank s), (blank acc); reflexivity.
Qed.

Lemma blank_rev (s : string) : blank (rev s) = blank s.
Proof. unfold rev. rewrite blank_rev_onto. simpl. apply andb_true_r. Qed.

Lemma blank_lstrip (s : string) : blank (lstrip s) = blank s.
Proof.
  induction s as [|c s IH]; simpl; [reflexivity|].
  destruct (is_space c) eqn:Ec; simpl; [exact IH | now rewrite Ec].
Qed.

Lemma blank_strip (s : string) : blank (strip s) = blank s.
Proof. unfold strip. now rewrite blank_rev, blank_lstrip, blank_rev, blank_lstrip. Qed.

Lemma lstrip_blank (s : string) : blank s = true -> lstrip s = "".
Proof.
  induction s as [|c s IH]; simpl; [reflexivity|].
  destruct (is_space c); simpl; [exact IH | discriminate].
Qed.

Lemma strip_blank (s : string) : blank s = true -> strip s = "".
Proof. intros B. unfold strip. rewrite (lstrip_blank s B). reflexivity. Qed.

Lemma solid_nonempty (s : string) : blank s = false -> nonempty s = true.
Proof. destruct s; [discriminate | reflexivity]. Qed.

(** What a separator match skips is whitespace. *)
Lemma sep_prefix (s : string) :
  forall n, sep_length s = Some n ->
            exists a b, s = a +s+ b /\ String.length a = n /\ blank a = true.
Proof.
  induction s as [|c s IH]; simpl; intros n E; [discriminate|].
  destruct (is_space c) eqn:Ec; [|discriminate].
  destruct (sep_length s) as [m|].
  - injection E as <-. destruct (IH m eq_refl) as [a [b [-> [L B]]]].
    exists (String c a), b. simpl. rewrite Ec, B, L. auto.
  - destruct (is_newline c); [|discriminate]. injection E as <-.
    exists (String c ""), s. simpl. rewrite Ec. auto.
Qed.

Lemma newline_is_space (c : ascii) : is_newline c = true -> is_space c = true.
Proof. unfold is_newline. intros E. apply Ascii.eqb_eq in E. now subst c. Qed.

(** The fields of a blank text are blank. *)
Lemma blank_fields (s : string) :
  forall skip cur,
    blank s = true -> blank cur = true ->
    Forall (fun p => blank p = true) (split_scan skip cur s).
Proof.
  induction s as [|c s IH]; intros skip cur Bs Bc; simpl.
  - constructor; [|constructor]. now rewrite blank_rev.
  - simpl in Bs. apply andb_prop in Bs. destruct Bs as [Ec Bs].
    destruct skip as [|k]; [|now apply IH].
    assert (Bcc : blank (String c cur) = true) by (simpl; now rewrite Ec, Bc).
    destruct (is_newline c); [|now apply IH].
    destruct (sep_length s) as [n|]; [|now apply IH].
    constructor; [now rewrite blank_rev | now apply IH].
Qed.

(** A character that is not whitespace is in one of the fields. *)
Lemma solid_field (s : string) :
  forall skip cur,
    (exists a b, s = a +s+ b /\ String.length a = skip /\ blank a = true) ->
    blank cur = false \/ blank s = false ->
    Exists (fun p => blank p = false) (split_scan skip cur s).
Proof.
  induction s as [|c s IH]; intros skip cur [a [b [Es [La Ba]]]] Hsolid.
  - simpl. apply Exists_cons_hd. rewrite blank_rev.
    destruct Hsolid as [Hc|Hs]; [exact Hc | discriminate].
  - cbn [split_scan].
    destruct skip as [|k].
    + assert (Hnext : forall cur',
                 blank cur' = false \/ blank s = false ->
                 Exists (fun p => blank p = false) (split_scan 0 cur' s)).
      { intros cur' Hs. apply IH; [|exact Hs]. exists "", s. auto. }
      assert (Hpush : blank (String c cur) = false \/ blank s = false).
      { destruct Hsolid as [Hc|Hs].
        - left. simpl. rewrite Hc. apply andb_false_r.
        - simpl in Hs. apply andb_false_iff in Hs. destruct Hs as [Hc|Hs].
          + left. simpl. now rewrite Hc.
          + now right. }
      destruct (is_newline c) eqn:Enl; [|now apply Hnext].
      destruct (sep_length s) as [n|] eqn:Esep; [|now apply Hnext].
      destruct (blank cur) eqn:Bc.
      * apply Exists_cons_tl. apply IH; [now apply sep_prefix|].
        right. destruct Hsolid as [Hc|Hs]; [discriminate|].
        simpl in Hs. rewrite (newline_is_space c Enl) in Hs. exact Hs.
      * apply Exists_cons_hd. now rewrite blank_rev.
    + destruct a as [|d a]; [discriminate|].
      simpl in Es, La, Ba. injection Es as -> ->. injection La as La.
      apply andb_prop in Ba. destruct Ba as [Ed Ba].
      apply IH; [exists a, b; auto|].
      destruct Hsolid as [Hc|Hs]; [now left|].
      right. simpl in Hs. now rewrite Ed in Hs.
Qed.

Lemma paragraphs_of_blank (document : string) :
  blank document = true -> paragraphs_of document = [].
Proof.
  intros B. unfold paragraphs_of, split_blank_lines.
  pose proof (blank_fields document 0 "" B eq_refl) as F.
  induction F as [|p l Hp _ IH]; simpl; [reflexivity|].
  now rewrite (strip_blank p Hp).
Qed.

Lemma paragraphs_of_solid (document : string) :
  blank document = false -> paragraphs_of document <> [].
Proof.
  intros B. unfold paragraphs_of, split_blank_lines.
  assert (X : Exists (fun p => blank p = false) (split_scan 0 "" document)).
  { apply solid_field; [exists "", document; auto | now right]. }
  induction X as [p l Hp | p l _ IH]; simpl.
  - rewrite solid_nonempty by now rewrite blank_strip. discriminate.
  - destruct (nonempty (strip p)); [discriminate | exact IH].
Qed.

Lemma chunks_of_paragraphs (size : Z) (ps : list string) :
  Forall (fun p => p <> "") ps -> ps <> [] -> chunk_paragraphs size ps <> [].
Proof.
  intros Hne Hps.
  destruct (CoverFacts.chunk_groups size ps Hne) as [groups [Hc [_ [_ [Ht _]]]]].
  intros E. rewrite E in Ht. simpl in Ht.
  destruct groups; [|discriminate]. simpl in Hc. congruence.
Qed.

Lemma chunk_text_blank (document : string) (size : Z) :
  chunk_text document size = [] <-> blank document = true.
Proof.
  split.
  - intros E. destruct (blank document) eqn:B; [reflexivity|]. exfalso.
    apply (chunks_of_paragraphs size (paragraphs_of document));
      [apply SplitFacts.paragraphs_nonempty | now apply paragraphs_of_solid | exact E].
  - intros B. unfold chunk_text. now rewrite (paragraphs_of_blank document B).
Qed.

End BlankFacts.

Section BlankText.

Context {W : Type} `{ChromaClient W} `{Services (globals W)} `{PyLib}.

(** X11. The chunker gives no chunk exactly for a text that holds nothing
    but whitespace. Such a text, when it is not empty, passes the argument
    check of [run_curriculum_agent]: the run then sends no request, and
    with a store at hand and a writable output file it returns a result
    with no chunk inserted and an empty summary. *)
Theorem blank_text_has_no_chunks (book : doc_id) (document : string) (size : Z)
        (st : state (globals W)) :
  (chunk_text document size = [] <-> blank document = true) /\
  (blank document = true ->
   document <> "" ->
   DocId.truthy book = true ->
   calls (snd (run_curriculum_agent book document size st)) = calls st /\
   forall st1 w,
     get_collection_handle st = (Ok tt, st1) ->
     write_output "curriculum_agent" (world st1) = (Ok tt, w) ->
     run_curriculum_agent book document size st
     = (Ok {| curriculum_book := book; inserted_chunks := 0; chunks_summary := [] |},
        mkState w (calls st1))).
Proof.
  split; [apply BlankFacts.chunk_text_blank|].
  intros B Hd Hb. apply StrFacts.nonempty_true in Hd.
  remember (run_curriculum_agent book document size st) as r eqn:Er.
  unfold run_curriculum_agent in Er. rewrite Hb, Hd in Er. cbn [negb orb] in Er.
  rewrite (proj2 (BlankFacts.chunk_text_blank document size) B) in Er.
  change (summarize_chunks [] book) with (@ret (globals W) (list indexed_chunk) []) in Er.
  unfold bind at 1, ret at 1 in Er. unfold bind at 1 in Er.
  pose proof (CurriculumFacts.add_chunks_calls book [] st) as Hc.
  unfold add_chunks, bind in Er, Hc.
  destruct (get_collection_handle st) as [[[]|e] st1] eqn:Eh; simpl in Hc.
  - unfold ret at 1 in Er. cbn [firstn omap] in Er.
    unfold bind, lift, save_agent_output, service, ret in Er.
    split.
    + subst r. destruct (write_output "curriculum_agent" (world st1)) as [[[]|e] w];
        exact Hc.
    + intros st1' w E Ew. injection E as <-. rewrite Ew in Er. exact Er.
  - subst r. split; [exact Hc | discriminate].
Qed.

End BlankText.

(** A text of two spaces and a newline, with a working store. *)
Lemma blank_text_has_no_chunks_witness :
  exists st',
    run_curriculum_agent (IdStr "b1") ("  " +s+ nl) 2000 (Shelf.fresh [] false)
    = (Ok {| curriculum_book := IdStr "b1"; inserted_chunks := 0; chunks_summary := [] |},
       st').
Proof.
  destruct (@blank_text_has_no_chunks Shelf.world Shelf.client Shelf.services
              ExampleLib.lib (IdStr "b1") ("  " +s+ nl) 2000 (Shelf.fresh [] false))
    as [_ Hrun].
  destruct (Hrun eq_refl ltac:(discriminate) eq_refl) as [_ Hres].
  eexists. eapply Hres; lazy; reflexivity.
Defined.

(* ================================================================== *)
(** ** The upload check *)
(* ================================================================== *)

Module UploadFacts.

Import StrFacts.

(** A text with the character, cut at its last occurrence. *)
Lemma last_occurrence (c : ascii) (s : string) :
  occurs c s = true ->
  exists a post, s = a +s+ String c post /\ occurs c post = false.
Proof.
  induction s as [|d s IH]; simpl; [discriminate|].
  destruct (occurs c s) eqn:Os.
  - intros _. destruct (IH eq_refl) as [a [post [-> Hp]]].
    exists (String d a), post. auto.
  - rewrite orb_false_r. intros E. apply Ascii.eqb_eq in E. subst d.
    exists "", s. auto.
Qed.

Lemma occurs_app (c : ascii) (a b : string) :
  occurs c (a +s+ b) = occurs c a || occurs c b.
Proof.
  induction a as [|d a IH]; simpl; [reflexivity|].
  now rewrite IH, orb_assoc.
Qed.

Lemma substring_tail (a b : string) :
  substring (String.length a) (String.length b) (a +s+ b) = b.
Proof.
  rewrite <- (append_empty_r b) at 2.
  apply (BracketFacts.substring_middle a b "").
Qed.

Lemma rsplit_once_last (c : ascii) (a post : string) :
  occurs c post = false ->
  rsplit_once c (a +s+ String c post) = [a; post].
Proof.
  intros Hp. unfold rsplit_once.
  rewrite (BracketFacts.rfind_last c a post Hp).
  destruct (Z.ltb_spec (Z.of_nat (String.length a)) 0) as [L|_]; [lia|].
  unfold PyStr.take, PyStr.slice, PyStr.len. f_equal; [|f_equal].
  - rewrite Nat2Z.id. apply BracketFacts.substring_head.
  - replace (Z.to_nat (Z.of_nat (String.length a) + 1))
      with (String.length (a +s+ String c "")) by (rewrite length_append; simpl; lia).
    replace (Z.to_nat (Z.of_nat (String.length (a +s+ String c post)))
             - String.length (a +s+ String c ""))
      with (String.length post) by (rewrite !length_append; simpl; lia).
    replace (a +s+ String c post) with ((a +s+ String c "") +s+ post)
      by (rewrite append_assoc; reflexivity).
    apply substring_tail.
Qed.

Lemma lower_p (c : ascii) : lower_char c = "p"%char -> c = "p"%char \/ c = "P"%char.
Proof.
  destruct c as [[] [] [] [] [] [] [] []]; vm_compute; intros E;
    try discriminate E; auto.
Qed.

Lemma lower_d (c : ascii) : lower_char c = "d"%char -> c = "d"%char \/ c = "D"%char.
Proof.
  destruct c as [[] [] [] [] [] [] [] []]; vm_compute; intros E;
    try discriminate E; auto.
Qed.

Lemma lower_f (c : ascii) : lower_char c = "f"%char -> c = "f"%char \/ c = "F"%char.
Proof.
  destruct c as [[] [] [] [] [] [] [] []]; vm_compute; intros E;
    try discriminate E; auto.
Qed.

Lemma lower_pdf (ext : string) : lower ext = "pdf" <-> In ext pdf_spellings.
Proof.
  split.
  - destruct ext as [|c1 [|c2 [|c3 [|c4 rest]]]]; simpl; intros E; try discriminate E.
    injection E as E1 E2 E3.
    destruct (lower_p c1 E1), (lower_d c2 E2), (lower_f c3 E3); subst; simpl; auto 10.
  - intros Hin. simpl in Hin.
    repeat (destruct Hin as [<-|Hin]; [reflexivity|]). contradiction.
Qed.

Lemma spelling_without_dot (ext : string) :
  In ext pdf_spellings -> occurs "." ext = false.
Proof.
  intros Hin. simpl in Hin.
  repeat (destruct Hin as [<-|Hin]; [reflexivity|]). contradiction.
Qed.

End UploadFacts.

(** X12. [allowed_file] never raises (the index into the split name is
    always there) and accepts exactly the names that end in a dot followed
    by pdf in any mix of capitals and small letters. So a name that only
    has such an ending earlier, as in report.pdf.exe, is refused, a name
    without a dot is refused, and the bare extension with its dot and
    nothing before it is accepted. *)
Theorem allowed_file_spec (filename : string) :
  exists b,
    allowed_file filename = Ok b /\
    (b = true <->
     exists stem ext, filename = stem +s+ "." +s+ ext /\ In ext pdf_spellings).
Proof.
  unfold allowed_file. destruct (occurs "." filename) eqn:Od.
  - destruct (UploadFacts.last_occurrence "." filename Od) as [a [post [-> Hp]]].
    rewrite (UploadFacts.rsplit_once_last "." a post Hp). cbn [nth_error].
    eexists. split; [reflexivity|].
    unfold ALLOWED_EXTENSIONS. cbn [existsb]. rewrite orb_false_r, String.eqb_eq.
    rewrite UploadFacts.lower_pdf. split.
    + intros Hin. exists a, post. auto.
    + intros [stem [ext [E Hin]]].
      pose proof (UploadFacts.spelling_without_dot ext Hin) as He.
      assert (Er : rsplit_once "." (a +s+ String "." post) = [stem; ext]).
      { rewrite E. apply (UploadFacts.rsplit_once_last "." stem ext He). }
      rewrite (UploadFacts.rsplit_once_last "." a post Hp) in Er.
      injection Er as _ ->. exact Hin.
  - exists false. split; [reflexivity|]. split; [discriminate|].
    intros [stem [ext [-> _]]].
    rewrite UploadFacts.occurs_app in Od. simpl in Od.
    rewrite orb_true_r in Od. discriminate.
Qed.
